(** * audiconnectpy/model.py: the typed vehicle model and its decoder

    [model.py] declares some forty dataclasses over the base class [Base];
    decoding ([from_dict]) and encoding ([to_dict]) are generated from the
    declarations by the mashumaro mixin [DataClassDictMixin].  This file
    embeds the declarations, the two serialization strategies [Locked] and
    [OnOff], the hook [Base.__pre_deserialize__] and the code mashumaro
    generates for such declarations, and proves what decoding does.

    Python values are dynamically typed, so raw documents, decoded records
    and everything in between live in one type [pyval].  The built-ins the
    generated code calls ([int], [float], [datetime.strptime],
    [datetime.fromisoformat], [isoformat]) follow CPython 3.11; the
    generated code is that of mashumaro 3. *)

From Stdlib Require Import List String Ascii ZArith Bool.
From Stdlib Require Import Floats.SpecFloat.
From Stdlib Require Import Numbers.DecimalString.
From Stdlib Require Import Sorting.Permutation Lia.
Import ListNotations.
Open Scope string_scope.
Open Scope Z_scope.
Set Warnings "-register-all".

(** ** Python values *)

(** An aware or naive [datetime.datetime].  [tzinfo] is the fixed UTC offset
    of a [datetime.timezone], in microseconds, when there is one. *)
Record datetime : Type := mk_datetime {
  year : Z;
  month : Z;
  day : Z;
  hour : Z;
  minute : Z;
  second : Z;
  microsecond : Z;
  tzinfo : option Z
}.

(** A [str] is a sequence of code points; the model covers code points below
    256 (one [ascii] each).  A [dict] keeps its items in insertion order; its
    keys are [str], as the keys of a JSON object are.  A [float] is a
    binary64 value, an instance of a dataclass is its class name with its
    attributes in declaration order. *)
Inductive pyval : Type :=
| PNone
| PBool (b : bool)
| PInt (n : Z)
| PFloat (f : spec_float)
| PStr (s : string)
| PList (l : list pyval)
| PDict (items : list (string * pyval))
| PDatetime (dt : datetime)
| PObj (cls : string) (attrs : list (string * pyval)).

(** Exceptions.  [MissingField] and [InvalidFieldValue] are mashumaro's (the
    spec calls them MissingFieldError and FieldDecodeError); [NotADict] is
    what [from_dict] raises on an argument that is not a [dict]. *)
Inductive exn : Type :=
| MissingField (field_name holder_class : string)
| InvalidFieldValue (field_name holder_class : string) (field_value : pyval)
| NotADict (holder_class : string)
| TypeError
| ValueError
| AttributeError
| OverflowError.

(** The outcome of running a piece of Python: a value, a raised exception,
    or [Unmodelled] on the few inputs on which this development does not
    fix what the code does: [fromisoformat] on a string outside the layout
    [isoformat] writes, [str] of a float, a collection or an object, the
    status helpers of [helpers.py] on inputs the spec does not describe,
    [to_dict] on an instance of another class.
    [Unmodelled] is never caught: it propagates to the top, so a theorem
    that concludes [Ok] or [Raise] speaks of modelled behaviour only. *)
Inductive result (A : Type) : Type :=
| Ok (a : A)
| Raise (e : exn)
| Unmodelled.

Arguments Ok {A} a.
Arguments Raise {A} e.
Arguments Unmodelled {A}.

Definition bind {A B : Type} (r : result A) (k : A -> result B) : result B :=
  match r with
  | Ok a => k a
  | Raise e => Raise e
  | Unmodelled => Unmodelled
  end.

Notation "x <- r ;; k" := (bind r (fun x => k))
  (at level 61, r at next level, right associativity).

(** [[f(x) for x in l]]: elements are converted left to right, the first
    exception ends the comprehension. *)
Fixpoint map_result {A B : Type} (f : A -> result B) (l : list A) : result (list B) :=
  match l with
  | [] => Ok []
  | x :: l' => y <- f x ;; ys <- map_result f l' ;; Ok (y :: ys)
  end.

Definition is_none (v : pyval) : bool :=
  match v with PNone => true | _ => false end.

(** [value == s] for a string literal [s]: only an equal [str] compares
    equal to a [str]. *)
Definition py_eq_str (value : pyval) (s : string) : bool :=
  match value with
  | PStr s' => String.eqb s' s
  | _ => false
  end.

(** ** Characters and strings *)

Definition code (c : ascii) : Z := Z.of_N (N_of_ascii c).

Definition in_range (lo hi c : ascii) : bool :=
  (code lo <=? code c) && (code c <=? code hi).

Definition is_digit (c : ascii) : bool := in_range "0" "9" c.
Definition is_upper (c : ascii) : bool := in_range "A" "Z" c.
Definition is_lower (c : ascii) : bool := in_range "a" "z" c.

Definition digit_value (c : ascii) : Z := code c - code "0".

Definition to_lower (c : ascii) : ascii :=
  if is_upper c then ascii_of_N (N_of_ascii c + 32) else c.

Fixpoint lower (s : string) : string :=
  match s with
  | EmptyString => EmptyString
  | String c s' => String (to_lower c) (lower s')
  end.

Fixpoint has_upper (s : string) : bool :=
  match s with
  | EmptyString => false
  | String c s' => is_upper c || has_upper s'
  end.

Definition chars (s : string) : list ascii := list_ascii_of_string s.

(** ** Dictionaries *)

(** [d.get(k, MISSING)]: [None] stands for the sentinel [MISSING]. *)
Fixpoint dict_get (d : list (string * pyval)) (k : string) : option pyval :=
  match d with
  | [] => None
  | (k', v) :: d' => if String.eqb k' k then Some v else dict_get d' k
  end.

(** [d[k] = v]: an existing key keeps its place and takes the new value, a
    new key goes last. *)
Fixpoint dict_set (d : list (string * pyval)) (k : string) (v : pyval)
  : list (string * pyval) :=
  match d with
  | [] => [(k, v)]
  | (k', v') :: d' =>
      if String.eqb k' k then (k', v) :: d' else (k', v') :: dict_set d' k v
  end.

(** [{key(k): v for k, v in items}], built item by item. *)
Definition dict_comprehension (key : string -> string)
  (items : list (string * pyval)) : list (string * pyval) :=
  fold_left (fun acc kv => dict_set acc (key (fst kv)) (snd kv)) items [].

(** ** helpers.camel2snake *)

(** Modelled from the spec: [camel2snake] is imported from [helpers.py],
    which is not among the sources.  The spec (4.2, Key Normalizer) has it
    turn a key in mixed casing, at times with embedded acronyms or unit
    suffixes, into a canonical lowercase form with a separator before each
    internal transition between uppercase and lowercase, idempotent, digits
    and existing separators untouched; its example is currentSOC_pct ->
    current_soc_pct.  Here a word begins at an uppercase letter that follows
    a lowercase letter or a digit (the S of currentSOC), or that follows a
    letter and is followed by a lowercase letter (the R of HTTPResponse); a
    word that begins inside the key gets ["_"] before it, and the result is
    lowercased. *)
Fixpoint snake_from (prev : ascii) (s : string) : string :=
  match s with
  | EmptyString => EmptyString
  | String c s' =>
      let starts_word :=
        match s' with
        | String n _ => is_lower n && (is_upper prev || is_lower prev || is_digit prev)
        | EmptyString => false
        end in
      let sep := is_upper c && (is_lower prev || is_digit prev || starts_word) in
      let rest := String (to_lower c) (snake_from c s') in
      if sep then String "_" rest else rest
  end.

Definition camel2snake (key : string) : string :=
  match key with
  | EmptyString => EmptyString
  | String c s' => String (to_lower c) (snake_from c s')
  end.

(** ** Built-in conversions *)

(** The blanks [int] and [float] skip around the number: the C [isspace]
    set, and the blanks above 127 (CPython first maps those to [" "]). *)
Definition blank (c : ascii) : bool :=
  let n := code c in
  ((9 <=? n) && (n <=? 13)) || (n =? 32) || (n =? 133) || (n =? 160).

Fixpoint drop_while (p : ascii -> bool) (l : list ascii) : list ascii :=
  match l with
  | c :: l' => if p c then drop_while p l' else l
  | [] => []
  end.

Definition strip (p : ascii -> bool) (l : list ascii) : list ascii :=
  rev (drop_while p (rev (drop_while p l))).

(** Decimal digits, a single ["_"] allowed between two digits; the second
    component counts the digits. *)
Fixpoint read_digits (acc : Z) (n : Z) (after_digit : bool) (l : list ascii)
  : option (Z * Z) :=
  match l with
  | [] => if after_digit then Some (acc, n) else None
  | c :: l' =>
      if is_digit c then read_digits (10 * acc + digit_value c) (n + 1) true l'
      else if Ascii.eqb c "_" && after_digit then read_digits acc n false l'
      else None
  end.

Definition int_max_str_digits : Z := 4300.

(** [int(s)] for a [str] (CPython 3.11, base 10). *)
Definition int_of_str (s : string) : result Z :=
  let body := strip blank (chars s) in
  let '(negative, digits) :=
    match body with
    | "-"%char :: l => (true, l)
    | "+"%char :: l => (false, l)
    | l => (false, l)
    end in
  match digits with
  | c :: _ =>
      if is_digit c then
        match read_digits 0 0 false digits with
        | Some (n, count) =>
            if int_max_str_digits <? count then Raise ValueError
            else Ok (if negative then - n else n)
        | None => Raise ValueError
        end
      else Raise ValueError
  | [] => Raise ValueError
  end.

(** Truncation of a binary64 value towards zero. *)
Definition trunc_float (f : spec_float) : result Z :=
  match f with
  | S754_zero _ => Ok 0
  | S754_infinity _ => Raise OverflowError
  | S754_nan => Raise ValueError
  | S754_finite sg m e =>
      let a := if 0 <=? e then Zpos m * 2 ^ e else Zpos m / 2 ^ (- e) in
      Ok (if sg then - a else a)
  end.

(** [int(value)], mashumaro's unpacker for a field of type [int]. *)
Definition py_int (value : pyval) : result pyval :=
  match value with
  | PInt n => Ok (PInt n)
  | PBool b => Ok (PInt (if b then 1 else 0))
  | PFloat f => n <- trunc_float f ;; Ok (PInt n)
  | PStr s => n <- int_of_str s ;; Ok (PInt n)
  | _ => Raise TypeError
  end.

(** The nearest binary64 value, ties to even, of [m * 10 ^ e10] for
    [m >= 0], with the sign asked for.  For a negative [e10] the quotient
    is taken with 64 bits or more and one sticky bit under them, which
    rounds as the exact quotient does. *)
Definition float_of_decimal (negative : bool) (m e10 : Z) : spec_float :=
  let signed (x : Z) := if negative then - x else x in
  if m =? 0 then S754_zero negative
  else if 0 <=? e10 then binary_normalize 53 1024 (signed (m * 10 ^ e10)) 0 negative
  else
    let d := 10 ^ (- e10) in
    let shift := Z.max 0 (Z.log2 d - Z.log2 m + 64) in
    let q := (m * 2 ^ shift) / d in
    let sticky := if (m * 2 ^ shift) mod d =? 0 then 0 else 1 in
    binary_normalize 53 1024 (signed (2 * q + sticky)) (- shift - 1) negative.

(** From [_Py_string_to_number_with_underscores]: an underscore stands
    between two digits, and is dropped. *)
Fixpoint drop_underscores (prev : ascii) (l : list ascii) : option (list ascii) :=
  match l with
  | [] => if Ascii.eqb prev "_" then None else Some []
  | c :: l' =>
      if Ascii.eqb c "_" then
        if is_digit prev then drop_underscores c l' else None
      else if Ascii.eqb prev "_" && negb (is_digit c) then None
      else option_map (cons c) (drop_underscores c l')
  end.

(** A run of decimal digits read onto [acc]; the count of digits and the
    rest of the text come with the number. *)
Fixpoint read_run (acc n : Z) (l : list ascii) : Z * Z * list ascii :=
  match l with
  | c :: l' =>
      if is_digit c then read_run (10 * acc + digit_value c) (n + 1) l'
      else (acc, n, l)
  | [] => (acc, n, [])
  end.

Definition split_sign (l : list ascii) : bool * list ascii :=
  match l with
  | "-"%char :: l' => (true, l')
  | "+"%char :: l' => (false, l')
  | _ => (false, l)
  end.

(** The decimal literal [digits[.digits][(e|E)[sign]digits]], with a digit
    before or after the point. *)
Definition float_of_literal (negative : bool) (l : list ascii) : result spec_float :=
  let '(int_part, n_int, l1) := read_run 0 0 l in
  let '(mantissa, n_frac, l2) :=
    match l1 with
    | "."%char :: l1' => read_run int_part 0 l1'
    | _ => (int_part, 0, l1)
    end in
  if n_int + n_frac =? 0 then Raise ValueError
  else
    match l2 with
    | [] => Ok (float_of_decimal negative mantissa (- n_frac))
    | c :: l3 =>
        if Ascii.eqb c "e" || Ascii.eqb c "E" then
          let '(exp_negative, l4) := split_sign l3 in
          match read_run 0 0 l4 with
          | (e, n_exp, []) =>
              if n_exp =? 0 then Raise ValueError
              else Ok (float_of_decimal negative mantissa
                         ((if exp_negative then - e else e) - n_frac))
          | _ => Raise ValueError
          end
        else Raise ValueError
    end.

(** [float(s)] for a [str]: blanks around, an optional sign, then [inf],
    [infinity] or [nan] in any case, or a decimal literal. *)
Definition float_of_str (s : string) : result spec_float :=
  let body := strip blank (chars s) in
  match drop_underscores " " body with
  | None => Raise ValueError
  | Some text =>
      let '(negative, l) := split_sign text in
      let word := lower (string_of_list_ascii l) in
      if String.eqb word "inf" || String.eqb word "infinity"
      then Ok (S754_infinity negative)
      else if String.eqb word "nan" then Ok S754_nan
      else float_of_literal negative l
  end.

(** [float(value)], mashumaro's unpacker for a field of type [float]: an
    [int] is rounded to the nearest binary64 value, ties to even, and is too
    large when that overflows. *)
Definition py_float (value : pyval) : result pyval :=
  match value with
  | PFloat f => Ok (PFloat f)
  | PInt n =>
      match binary_normalize 53 1024 n 0 false with
      | S754_infinity _ => Raise OverflowError
      | f => Ok (PFloat f)
      end
  | PBool b => Ok (PFloat (binary_normalize 53 1024 (if b then 1 else 0) 0 false))
  | PStr s => f <- float_of_str s ;; Ok (PFloat f)
  | _ => Raise TypeError
  end.

(** [bool(value)], mashumaro's unpacker for a field of type [bool]: the
    truth value of the object.  [None], [False], a zero and an empty
    string, list or dict are false; everything else is true, a datetime
    and an instance of a dataclass among them. *)
Definition py_truth (value : pyval) : bool :=
  match value with
  | PNone => false
  | PBool b => b
  | PInt n => negb (n =? 0)
  | PFloat (S754_zero _) => false
  | PFloat _ => true
  | PStr EmptyString => false
  | PStr _ => true
  | PList [] => false
  | PList _ => true
  | PDict [] => false
  | PDict _ => true
  | PDatetime _ => true
  | PObj _ _ => true
  end.

Definition py_bool (value : pyval) : result pyval := Ok (PBool (py_truth value)).

(** The decimal digits of [abs n], and [str(n)]: more than 4300 digits are
    a [ValueError], as in [int] of a string. *)
Definition decimal_digits (n : Z) : string :=
  NilZero.string_of_uint (N.to_uint (Z.to_N (Z.abs n))).

Definition str_of_int (n : Z) : result string :=
  let digits := decimal_digits n in
  if int_max_str_digits <? Z.of_nat (String.length digits) then Raise ValueError
  else Ok (if n <? 0 then String "-" digits else digits).

(** [str(value)], mashumaro's unpacker for a field of type [str].  The
    [repr] of a float, of a collection and of an object is left out. *)
Definition py_str (value : pyval) : result pyval :=
  match value with
  | PStr s => Ok (PStr s)
  | PInt n => s <- str_of_int n ;; Ok (PStr s)
  | PBool b => Ok (PStr (if b then "True" else "False"))
  | PNone => Ok (PStr "None")
  | _ => Unmodelled
  end.

(** ** datetime *)

Definition is_leap (y : Z) : bool :=
  (y mod 4 =? 0) && (negb (y mod 100 =? 0) || (y mod 400 =? 0)).

Definition days_in_month (y m : Z) : Z :=
  if m =? 2 then (if is_leap y then 29 else 28)
  else if (m =? 4) || (m =? 6) || (m =? 9) || (m =? 11) then 30
  else 31.

Definition between (lo x hi : Z) : bool := (lo <=? x) && (x <=? hi).

Definition day_us : Z := 86400 * 1000000.

(** [timezone(timedelta(microseconds=offset))]: the offset lies strictly
    between minus and plus one day. *)
Definition timezone (offset : Z) : result Z :=
  if (- day_us <? offset) && (offset <? day_us) then Ok offset
  else Raise ValueError.

(** The constructor [datetime(year, month, day, hour, minute, second,
    microsecond, tzinfo)] with its range checks. *)
Definition datetime_new (y m d H M S us : Z) (tz : option Z) : result datetime :=
  if between 1 y 9999 && between 1 m 12 && between 1 d (days_in_month y m)
     && between 0 H 23 && between 0 M 59 && between 0 S 59
     && between 0 us 999999
  then Ok (mk_datetime y m d H M S us tz)
  else Raise ValueError.

(** Days before the first of January of year [y], and the proleptic
    Gregorian ordinal of a date (1 for 0001-01-01), as [date.toordinal]. *)
Definition days_before_year (y : Z) : Z :=
  let p := y - 1 in p * 365 + p / 4 - p / 100 + p / 400.

Fixpoint days_before_month_from (y : Z) (m : nat) : Z :=
  match m with
  | O => 0
  | S m' => days_before_month_from y m' + days_in_month y (Z.of_nat m)
  end.

Definition toordinal (y m d : Z) : Z :=
  days_before_year y + days_before_month_from y (Z.to_nat (m - 1)) + d.

(** The instant of an aware datetime, in microseconds since
    1970-01-01T00:00:00 UTC; a naive datetime names no instant. *)
Definition instant (dt : datetime) : option Z :=
  match tzinfo dt with
  | None => None
  | Some offset =>
      let days := toordinal (year dt) (month dt) (day dt) - toordinal 1970 1 1 in
      Some ((days * 86400 + hour dt * 3600 + minute dt * 60 + second dt) * 1000000
            + microsecond dt - offset)
  end.

(** *** datetime.strptime(value, "%Y-%m-%dT%H:%M:%S%z")

    [_strptime] turns the format into a regular expression with one named
    group per directive, matches it at the start of the string
    ([re.match]) and asks that the match ends where the string does. *)

(** Regular expressions, as far as the format needs them: a character of
    a class, the empty expression, sequence, alternative, named group. *)
Inductive regex : Type :=
| Chr (p : ascii -> bool)
| Eps
| Seq (a b : regex)
| Alt (a b : regex)
| Group (name : string) (r : regex).

(** A match: the text matched, the text of its named groups, and what is
    left of the input after it. *)
Record found : Type := mk_found {
  matched : string;
  groupdict : list (string * string);
  remains : string
}.

(** The matches of [r] at the start of [s], in the order a backtracking
    matcher finds them: the first is the one [re.match] returns. *)
Fixpoint run (r : regex) (s : string) : list found :=
  match r with
  | Chr p =>
      match s with
      | String c s' => if p c then [mk_found (String c EmptyString) [] s'] else []
      | EmptyString => []
      end
  | Eps => [mk_found EmptyString [] s]
  | Seq a b =>
      flat_map
        (fun m1 =>
           map (fun m2 =>
                  mk_found (matched m1 ++ matched m2)
                    (groupdict m1 ++ groupdict m2)%list (remains m2))
             (run b (remains m1)))
        (run a s)
  | Alt a b => (run a s ++ run b s)%list
  | Group name r' =>
      map (fun m => mk_found (matched m) ((name, matched m) :: groupdict m) (remains m))
        (run r' s)
  end.

(** The text of a named group of a match. *)
Fixpoint assoc (l : list (string * string)) (name : string) : string :=
  match l with
  | [] => EmptyString
  | (n, t) :: l' => if String.eqb n name then t else assoc l' name
  end.

Definition group (m : found) (name : string) : string := assoc (groupdict m) name.

(** The language of a regular expression: the texts it matches. *)
Inductive in_lang : regex -> string -> Prop :=
| in_chr (p : ascii -> bool) (c : ascii) :
    p c = true -> in_lang (Chr p) (String c EmptyString)
| in_eps : in_lang Eps EmptyString
| in_seq (a b : regex) (x y : string) :
    in_lang a x -> in_lang b y -> in_lang (Seq a b) (x ++ y)
| in_alt_l (a b : regex) (x : string) : in_lang a x -> in_lang (Alt a b) x
| in_alt_r (a b : regex) (x : string) : in_lang b x -> in_lang (Alt a b) x
| in_group (name : string) (r : regex) (x : string) :
    in_lang r x -> in_lang (Group name r) x.

Definition re_lit (c : ascii) : regex := Chr (Ascii.eqb c).
Definition re_range (lo hi : ascii) : regex := Chr (in_range lo hi).
Definition re_digit : regex := Chr is_digit.
(** The greedy [?]. *)
Definition re_opt (a : regex) : regex := Alt a Eps.

Declare Scope regex_scope.
Delimit Scope regex_scope with re.
Bind Scope regex_scope with regex.
Infix "++" := Seq : regex_scope.
Infix "<|>" := Alt (at level 62, left associativity) : regex_scope.

(** The directives of [_strptime.TimeRE] that the format uses. *)
Definition re_Y : regex := (re_digit ++ re_digit ++ re_digit ++ re_digit)%re.
Definition re_m : regex :=
  (re_lit "1" ++ re_range "0" "2" <|> re_lit "0" ++ re_range "1" "9" <|> re_range "1" "9")%re.
Definition re_d : regex :=
  (re_lit "3" ++ re_range "0" "1" <|> re_range "1" "2" ++ re_digit
   <|> re_lit "0" ++ re_range "1" "9" <|> re_range "1" "9" <|> re_lit " " ++ re_range "1" "9")%re.
Definition re_H : regex :=
  (re_lit "2" ++ re_range "0" "3" <|> re_range "0" "1" ++ re_digit <|> re_digit)%re.
Definition re_M : regex := (re_range "0" "5" ++ re_digit <|> re_digit)%re.
Definition re_S : regex :=
  (re_lit "6" ++ re_range "0" "1" <|> re_range "0" "5" ++ re_digit <|> re_digit)%re.
(** [\d{1,6}], greedy. *)
Definition re_digits_1_6 : regex :=
  (re_digit ++ re_opt (re_digit ++ re_opt (re_digit ++ re_opt
     (re_digit ++ re_opt (re_digit ++ re_opt re_digit)))))%re.
(** [[+-]\d\d:?[0-5]\d(:?[0-5]\d(\.\d{1,6})?)?|(?-i:Z)]. *)
Definition re_z : regex :=
  ((re_lit "+" <|> re_lit "-") ++ re_digit ++ re_digit ++ re_opt (re_lit ":")
     ++ re_range "0" "5" ++ re_digit
     ++ re_opt (re_opt (re_lit ":") ++ re_range "0" "5" ++ re_digit
                ++ re_opt (re_lit "." ++ re_digits_1_6))
   <|> re_lit "Z")%re.
(** The literal [T] of the format; the expression is compiled with
    [IGNORECASE]. *)
Definition re_T : regex := (re_lit "T" <|> re_lit "t")%re.

(** The format ["%Y-%m-%dT%H:%M:%S%z"] compiled. *)
Definition format_regex : regex :=
  (Group "Y" re_Y ++ re_lit "-" ++ Group "m" re_m ++ re_lit "-" ++ Group "d" re_d
   ++ re_T ++ Group "H" re_H ++ re_lit ":" ++ Group "M" re_M ++ re_lit ":"
   ++ Group "S" re_S ++ Group "z" re_z)%re.

(** Python's [s[i:j]], [s[i:]] and [s[i] == c] for indices within reach. *)
Fixpoint slice_from (s : string) (i : nat) : string :=
  match i, s with
  | O, _ => s
  | S i', String _ s' => slice_from s' i'
  | S _, EmptyString => EmptyString
  end.

Fixpoint take (s : string) (n : nat) : string :=
  match n, s with
  | S n', String c s' => String c (take s' n')
  | _, _ => EmptyString
  end.

Definition slice (s : string) (i j : nat) : string :=
  take (slice_from s i) (j - i).

Definition char_is (s : string) (i : nat) (c : ascii) : bool :=
  match slice_from s i with
  | String c' _ => Ascii.eqb c' c
  | EmptyString => false
  end.

Fixpoint zeros (n : nat) : string :=
  match n with
  | O => EmptyString
  | S n' => String "0" (zeros n')
  end.

(** The group [z] read as [(gmtoff, gmtoff_fraction)], as [_strptime] does
    it by slicing. *)
Definition parse_z (z : string) : result (Z * Z) :=
  if String.eqb z "Z" then Ok (0, 0)
  else
    z' <- (if char_is z 3 ":" then
             let z1 := slice z 0 3 ++ slice_from z 4 in
             if (5 <? String.length z1)%nat then
               if char_is z1 5 ":" then Ok (slice z1 0 5 ++ slice_from z1 6)
               else Raise ValueError
             else Ok z1
           else Ok z) ;;
    hours <- int_of_str (slice z' 1 3) ;;
    minutes <- int_of_str (slice z' 3 5) ;;
    seconds <- (match slice z' 5 7 with
                | EmptyString => Ok 0
                | t => int_of_str t
                end) ;;
    let gmtoff := hours * 60 * 60 + minutes * 60 + seconds in
    let gmtoff_remainder := slice_from z' 8 in
    let padding := zeros (6 - String.length gmtoff_remainder) in
    gmtoff_fraction <- int_of_str (gmtoff_remainder ++ padding) ;;
    if char_is z' 0 "-" then Ok (- gmtoff, - gmtoff_fraction)
    else Ok (gmtoff, gmtoff_fraction).

(** [datetime.strptime(s, "%Y-%m-%dT%H:%M:%S%z")] on a [str]: no match, or
    a match that leaves text unconverted, is a [ValueError]; so is a date,
    a time or an offset out of range. *)
Definition strptime_str (s : string) : result datetime :=
  match run format_regex s with
  | [] => Raise ValueError
  | m :: _ =>
      match remains m with
      | String _ _ => Raise ValueError
      | EmptyString =>
          y <- int_of_str (group m "Y") ;;
          mo <- int_of_str (group m "m") ;;
          d <- int_of_str (group m "d") ;;
          H <- int_of_str (group m "H") ;;
          M <- int_of_str (group m "M") ;;
          S <- int_of_str (group m "S") ;;
          off <- parse_z (group m "z") ;;
          _ <- datetime_new y mo d 0 0 0 0 None ;;
          tz <- timezone (fst off * 1000000 + snd off) ;;
          datetime_new y mo d H M S 0 (Some tz)
      end
  end.

Definition strptime (value : pyval) : result pyval :=
  match value with
  | PStr s => dt <- strptime_str s ;; Ok (PDatetime dt)
  | _ => Raise TypeError
  end.

(** *** datetime.isoformat and datetime.fromisoformat *)

Definition digit_char (n : Z) : ascii := ascii_of_N (Z.to_N (code "0" + n mod 10)).

(** ["%0<width>d" % n] for [0 <= n < 10 ^ width]. *)
Fixpoint zero_padded (width : nat) (n : Z) : string :=
  match width with
  | O => EmptyString
  | S w => zero_padded w (n / 10) ++ String (digit_char n) EmptyString
  end.

(** [_format_offset]: [+HH:MM], with [:SS] and [.ffffff] when they are not
    zero. *)
Definition format_offset (off : option Z) : string :=
  match off with
  | None => EmptyString
  | Some o =>
      let sign := if o <? 0 then "-" else "+" in
      let a := Z.abs o in
      let hh := a / 3600000000 in
      let mm := (a mod 3600000000) / 60000000 in
      let ss := (a mod 60000000) / 1000000 in
      let us := a mod 1000000 in
      sign ++ zero_padded 2 hh ++ ":" ++ zero_padded 2 mm
      ++ (if (ss =? 0) && (us =? 0) then EmptyString
          else ":" ++ zero_padded 2 ss
               ++ (if us =? 0 then EmptyString else "." ++ zero_padded 6 us))
  end.

(** [dt.isoformat()], mashumaro's packer for a field of type [datetime]. *)
Definition isoformat (dt : datetime) : string :=
  zero_padded 4 (year dt) ++ "-" ++ zero_padded 2 (month dt) ++ "-"
  ++ zero_padded 2 (day dt) ++ "T" ++ zero_padded 2 (hour dt) ++ ":"
  ++ zero_padded 2 (minute dt) ++ ":" ++ zero_padded 2 (second dt)
  ++ (if microsecond dt =? 0 then EmptyString
      else "." ++ zero_padded 6 (microsecond dt))
  ++ format_offset (tzinfo dt).

Definition re_2digits : regex := (re_digit ++ re_digit)%re.
Definition re_6digits : regex :=
  (re_digit ++ re_digit ++ re_digit ++ re_digit ++ re_digit ++ re_digit)%re.

(** The layout [isoformat] writes:
    [YYYY-MM-DDTHH:MM:SS[.ffffff][(+|-)HH:MM[:SS[.ffffff]]]]. *)
Definition iso_layout : regex :=
  (Group "Y" re_Y ++ re_lit "-" ++ Group "m" re_2digits ++ re_lit "-"
   ++ Group "d" re_2digits ++ re_lit "T" ++ Group "H" re_2digits ++ re_lit ":"
   ++ Group "M" re_2digits ++ re_lit ":" ++ Group "S" re_2digits
   ++ Group "f" (re_opt (re_lit "." ++ re_6digits))
   ++ Group "z" (re_opt ((re_lit "+" <|> re_lit "-") ++ re_2digits ++ re_lit ":"
                         ++ re_2digits
                         ++ re_opt (re_lit ":" ++ re_2digits
                                    ++ re_opt (re_lit "." ++ re_6digits)))))%re.

Definition digits_or_zero (s : string) : result Z :=
  match s with
  | EmptyString => Ok 0
  | _ => int_of_str s
  end.

(** [datetime.fromisoformat(s)] (CPython 3.11) on a string in the layout
    above; other strings are left out.  An offset of no whole second is
    read as UTC, whatever its microseconds. *)
Definition fromisoformat_str (s : string) : result datetime :=
  match find (fun m => String.eqb (remains m) EmptyString) (run iso_layout s) with
  | Some m =>
      y <- int_of_str (group m "Y") ;;
      mo <- int_of_str (group m "m") ;;
      d <- int_of_str (group m "d") ;;
      H <- int_of_str (group m "H") ;;
      M <- int_of_str (group m "M") ;;
      S <- int_of_str (group m "S") ;;
      us <- digits_or_zero (slice_from (group m "f") 1) ;;
      match group m "z" with
      | EmptyString => datetime_new y mo d H M S us None
      | tz =>
          zh <- int_of_str (slice tz 1 3) ;;
          zm <- int_of_str (slice tz 4 6) ;;
          zs <- digits_or_zero (slice tz 7 9) ;;
          zf <- digits_or_zero (slice_from tz 10) ;;
          let seconds := zh * 3600 + zm * 60 + zs in
          let off := if seconds =? 0 then 0 else seconds * 1000000 + zf in
          tzi <- timezone (if char_is tz 0 "-" then - off else off) ;;
          datetime_new y mo d H M S us (Some tzi)
      end
  | None => Unmodelled
  end.

Definition fromisoformat (value : pyval) : result pyval :=
  match value with
  | PStr s => dt <- fromisoformat_str s ;; Ok (PDatetime dt)
  | _ => Raise TypeError
  end.

(** ** mashumaro: what [DataClassDictMixin] generates *)

(** The annotation of a field.  [TOptional t] is [t | None]; [TDict t] is
    [dict[str, t]]; a dataclass type carries the two methods mashumaro
    compiled for that class. *)
Inductive pytype : Type :=
| TInt
| TFloat
| TBool
| TStr
| TDatetime
| TAny
| TOptional (t : pytype)
| TList (t : pytype)
| TDict (t : pytype)
| TDataclass (name : string) (from_dict to_dict : pyval -> result pyval).

(** [for x in value]: a list yields its elements, a [str] its characters, a
    [dict] its keys; other values here are not iterable. *)
Definition py_iter (value : pyval) : result (list pyval) :=
  match value with
  | PList l => Ok l
  | PStr s => Ok (map (fun c => PStr (String c EmptyString)) (chars s))
  | PDict items => Ok (map (fun kv => PStr (fst kv)) items)
  | _ => Raise TypeError
  end.

(** The unpacker of a type: [int(value)], [float(value)], [bool(value)],
    [str(value)], [datetime.fromisoformat(value)], [T.from_dict(value)], a
    comprehension for a collection, the value itself for [Any]. *)
Fixpoint unpack (t : pytype) (value : pyval) : result pyval :=
  match t with
  | TInt => py_int value
  | TFloat => py_float value
  | TBool => py_bool value
  | TStr => py_str value
  | TAny => Ok value
  | TDatetime => fromisoformat value
  | TOptional t' => if is_none value then Ok PNone else unpack t' value
  | TList t' =>
      l <- py_iter value ;; l' <- map_result (unpack t') l ;; Ok (PList l')
  | TDict t' =>
      match value with
      | PDict items =>
          items' <- map_result
                      (fun kv => v <- unpack t' (snd kv) ;; Ok (fst kv, v)) items ;;
          Ok (PDict items')
      | _ => Raise AttributeError
      end
  | TDataclass _ from_dict _ => from_dict value
  end.

(** An annotation whose packer is the value itself. *)
Definition pass_through (t : pytype) : bool :=
  match t with
  | TInt | TFloat | TBool | TStr | TAny => true
  | _ => false
  end.

(** The packer of a type: [value.isoformat()], [value.to_dict()], a
    comprehension for a collection, [value.copy()] for a list whose
    elements are written as they are (a list and a dict have that method),
    the value itself otherwise. *)
Fixpoint pack (t : pytype) (value : pyval) : result pyval :=
  match t with
  | TInt | TFloat | TBool | TStr | TAny => Ok value
  | TDatetime =>
      match value with
      | PDatetime dt => Ok (PStr (isoformat dt))
      | _ => Raise AttributeError
      end
  | TOptional t' => if is_none value then Ok PNone else pack t' value
  | TList t' =>
      if pass_through t' then
        match value with
        | PList _ | PDict _ => Ok value
        | _ => Raise AttributeError
        end
      else l <- py_iter value ;; l' <- map_result (pack t') l ;; Ok (PList l')
  | TDict t' =>
      match value with
      | PDict items =>
          items' <- map_result
                      (fun kv => v <- pack t' (snd kv) ;; Ok (fst kv, v)) items ;;
          Ok (PDict items')
      | _ => Raise AttributeError
      end
  | TDataclass _ _ to_dict => to_dict value
  end.

(** A [SerializationStrategy] instance. *)
Record SerializationStrategy : Type := {
  strategy_serialize : pyval -> result pyval;
  strategy_deserialize : pyval -> result pyval
}.

(** One field of a dataclass: its name and annotation, the [alias],
    [deserialize] and [serialization_strategy] of its [field_options], and
    its default ([None] here when the field has none and is required). *)
Record field : Type := mk_field {
  f_name : string;
  f_type : pytype;
  f_alias : option string;
  f_deserialize : option (pyval -> result pyval);
  f_strategy : option SerializationStrategy;
  f_default : option pyval
}.

(** [name: type] and [name: type = default]. *)
Definition attr (name : string) (type : pytype) : field :=
  mk_field name type None None None None.
Definition attr_default (name : string) (type : pytype) (default : pyval) : field :=
  mk_field name type None None None (Some default).
Definition with_alias (a : string) (f : field) : field :=
  mk_field (f_name f) (f_type f) (Some a) (f_deserialize f) (f_strategy f) (f_default f).
Definition with_deserialize (g : pyval -> result pyval) (f : field) : field :=
  mk_field (f_name f) (f_type f) (f_alias f) (Some g) (f_strategy f) (f_default f).
Definition with_strategy (s : SerializationStrategy) (f : field) : field :=
  mk_field (f_name f) (f_type f) (f_alias f) (f_deserialize f) (Some s) (f_default f).

(** A dataclass with the mixin: its name, its [__pre_deserialize__] hook
    when it declares or inherits one, its fields in declaration order. *)
Record dataclass : Type := mk_dataclass {
  cls_name : string;
  cls_pre_deserialize : option (pyval -> pyval);
  cls_fields : list field
}.

(** The key [from_dict] looks a field up by: its alias when it has one. *)
Definition lookup_key (f : field) : string :=
  match f_alias f with
  | Some a => a
  | None => f_name f
  end.

Definition is_optional (t : pytype) : bool :=
  match t with
  | TOptional _ | TAny => true
  | _ => false
  end.

(** Whether the generated code tests the raw value against [None] before
    it converts it. *)
Definition could_be_none (f : field) : bool :=
  is_optional (f_type f)
  || match f_default f with Some PNone => true | _ => false end.

(** The conversion of a field's raw value: the [deserialize] option, else
    the strategy's [deserialize], else the unpacker of the annotation. *)
Definition field_unpacker (f : field) : pyval -> result pyval :=
  match f_deserialize f, f_strategy f with
  | Some g, _ => g
  | None, Some s => strategy_deserialize s
  | None, None => unpack (f_type f)
  end.

Definition field_packer (f : field) : pyval -> result pyval :=
  match f_strategy f with
  | Some s => strategy_serialize s
  | None => pack (f_type f)
  end.

(** The lines generated for one field of [from_dict], after
    [value = d.get(key, MISSING)] ([None] here is [MISSING]): a missing
    value takes the default or raises [MissingField]; [None] is kept where
    it may stand; any exception of the conversion is raised again as
    [InvalidFieldValue]. *)
Definition set_value (holder : string) (f : field) (value : option pyval)
  : result (string * pyval) :=
  match value with
  | None =>
      match f_default f with
      | Some v => Ok (f_name f, v)
      | None => Raise (MissingField (f_name f) holder)
      end
  | Some value =>
      if could_be_none f && is_none value then Ok (f_name f, PNone)
      else
        match field_unpacker f value with
        | Ok v => Ok (f_name f, v)
        | Raise _ => Raise (InvalidFieldValue (f_name f) holder value)
        | Unmodelled => Unmodelled
        end
  end.

Definition unpack_field (holder : string) (d : list (string * pyval)) (f : field)
  : result (string * pyval) :=
  set_value holder f (dict_get d (lookup_key f)).

(** [cls.from_dict(d)]: the hook first, then the fields in declaration
    order, then the constructor. *)
Definition from_dict (C : dataclass) (d : pyval) : result pyval :=
  let d' := match cls_pre_deserialize C with
            | Some hook => hook d
            | None => d
            end in
  match d' with
  | PDict items =>
      attrs <- map_result (unpack_field (cls_name C) items) (cls_fields C) ;;
      Ok (PObj (cls_name C) attrs)
  | _ => Raise (NotADict (cls_name C))
  end.

Definition pack_field (attrs : list (string * pyval)) (f : field)
  : result (string * pyval) :=
  match dict_get attrs (f_name f) with
  | None => Raise AttributeError
  | Some value =>
      if could_be_none f && is_none value then Ok (f_name f, PNone)
      else v <- field_packer f value ;; Ok (f_name f, v)
  end.

(** [obj.to_dict()] for an instance of [C]: one item per field, under the
    field's name.  An instance of another class would run that class's
    method, which [C] alone does not tell. *)
Definition to_dict (C : dataclass) (obj : pyval) : result pyval :=
  match obj with
  | PObj cls attrs =>
      if String.eqb cls (cls_name C) then
        items <- map_result (pack_field attrs) (cls_fields C) ;;
        Ok (PDict items)
      else Unmodelled
  | _ => Raise AttributeError
  end.

Definition class_type (C : dataclass) : pytype :=
  TDataclass (cls_name C) (from_dict C) (to_dict C).

(** [obj.name] on a decoded record. *)
Definition getattr (obj : pyval) (name : string) : option pyval :=
  match obj with
  | PObj _ attrs => dict_get attrs name
  | _ => None
  end.

(** ** model.py *)

Module Locked.
Definition serialize (value : pyval) : result pyval := Ok value.
Definition deserialize (value : pyval) : result pyval :=
  Ok (PBool (py_eq_str value "locked")).
(** The instance [Locked()]. *)
Definition new : SerializationStrategy :=
  {| strategy_serialize := serialize; strategy_deserialize := deserialize |}.
End Locked.

Module OnOff.
Definition serialize (value : pyval) : result pyval := Ok value.
Definition deserialize (value : pyval) : result pyval :=
  Ok (PBool (negb (py_eq_str value "off"))).
(** The instance [OnOff()]. *)
Definition new : SerializationStrategy :=
  {| strategy_serialize := serialize; strategy_deserialize := deserialize |}.
End OnOff.

Module Base.
Definition __pre_deserialize__ (d : pyval) : pyval :=
  match d with
  | PDict items => PDict (dict_comprehension camel2snake items)
  | _ => d
  end.
End Base.

(** A dataclass that derives from [Base] inherits its hook. *)
Definition Base_dataclass (name : string) (fields : list field) : dataclass :=
  mk_dataclass name (Some Base.__pre_deserialize__) fields.

(** Modelled from the spec: [doors_status], [windows_status] and
    [lights_status] are imported from [helpers.py], which is not among the
    sources.  The spec's coercion catalogue (4.1) gives them one rule: a
    sequence of id-and-status records is flattened into a mapping from id
    to status.  The spec says nothing of other inputs. *)
Definition flatten_status (value : pyval) : result pyval :=
  match value with
  | PList l =>
      pairs <- map_result
                 (fun item =>
                    match item with
                    | PDict kv =>
                        match dict_get kv "id", dict_get kv "status" with
                        | Some (PStr i), Some st => Ok (i, st)
                        | _, _ => Unmodelled
                        end
                    | _ => Unmodelled
                    end) l ;;
      Ok (PDict (dict_comprehension (fun k => k) pairs))
  | _ => Unmodelled
  end.

Definition doors_status : pyval -> result pyval := flatten_status.
Definition windows_status : pyval -> result pyval := flatten_status.
Definition lights_status : pyval -> result pyval := flatten_status.

(** The dataclasses, each after the classes its annotations name. *)

Definition Position : dataclass := Base_dataclass "Position" [
  with_alias "lon" (attr_default "longitude" (TOptional TFloat) PNone);
  with_alias "lat" (attr_default "latitude" (TOptional TFloat) PNone);
  with_alias "car_captured_timestamp"
    (attr_default "last_access" (TOptional TDatetime) PNone)
].

Definition Location : dataclass := Base_dataclass "Location" [
  attr_default "proprietaries" (TOptional (TList (TDict TAny))) PNone;
  attr_default "addresses" (TOptional (TList (TDict TAny))) PNone
].

Definition AccessStatus : dataclass := Base_dataclass "AccessStatus" [
  attr "car_captured_timestamp" TDatetime;
  attr_default "overall_status" (TOptional TStr) PNone;
  with_strategy Locked.new (attr_default "door_lock_status" (TOptional TBool) PNone);
  with_deserialize doors_status (attr_default "doors" (TOptional (TDict TAny)) PNone);
  with_deserialize windows_status (attr_default "windows" (TOptional (TDict TAny)) PNone)
].

Definition Access : dataclass := Base_dataclass "Access" [
  attr_default "access_status" (TOptional (class_type AccessStatus)) PNone
].

Definition BatteryStatus : dataclass := Base_dataclass "BatteryStatus" [
  with_alias "currentSOC_pct" (attr_default "current_soc_pct" (TOptional TInt) PNone);
  attr_default "cruising_range_electric_km" (TOptional TInt) PNone
].

Definition ChargingStatus : dataclass := Base_dataclass "ChargingStatus" [
  with_alias "remainingChargingTimeToComplete_min"
    (attr_default "remaining" (TOptional TInt) PNone);
  with_deserialize (fun x => Ok (PBool (py_eq_str x "charging")))
    (attr_default "charging_state" (TOptional TBool) PNone);
  attr_default "charge_mode" (TOptional TStr) PNone;
  attr_default "charge_power_kw" (TOptional TFloat) PNone;
  attr_default "charge_rate_kmph" (TOptional TInt) PNone;
  attr_default "charge_type" (TOptional TStr) PNone;
  attr_default "charge_settings" (TOptional TStr) PNone
].

Definition ChargingSettings : dataclass := Base_dataclass "ChargingSettings" [
  attr_default "max_charge_current_ac" (TOptional TStr) PNone;
  with_strategy OnOff.new
    (attr_default "aut_unlock_plug_when_charged" (TOptional TBool) PNone);
  with_strategy OnOff.new
    (attr_default "auto_unlock_plug_when_charged_ac" (TOptional TBool) PNone);
  with_alias "targetSOC_pct" (attr_default "target_soc_pct" (TOptional TInt) PNone)
].

Definition PlugStatus : dataclass := Base_dataclass "PlugStatus" [
  with_deserialize (fun x => Ok (PBool (py_eq_str x "connected")))
    (attr_default "plug_connection_state" (TOptional TInt) PNone);
  with_strategy Locked.new (attr_default "plug_lock_state" (TOptional TBool) PNone);
  attr_default "external_power" (TOptional TStr) PNone;
  attr_default "led_color" (TOptional TStr) PNone
].

Definition ChargeMode : dataclass := Base_dataclass "ChargeMode" [
  attr_default "preferred_charge_mode" (TOptional TStr) PNone;
  attr_default "available_charge_modes" (TOptional (TList TStr)) PNone
].

Definition Charging : dataclass := Base_dataclass "Charging" [
  attr_default "battery_status" (TOptional (class_type BatteryStatus)) PNone;
  attr_default "charging_status" (TOptional (class_type ChargingStatus)) PNone;
  attr_default "charging_settings" (TOptional (class_type ChargingSettings)) PNone;
  attr_default "plug_status" (TOptional (class_type PlugStatus)) PNone;
  attr_default "charge_mode" (TOptional (class_type ChargeMode)) PNone
].

Definition WindowHeatingStatus : dataclass := Base_dataclass "WindowHeatingStatus" [
  attr_default "window_heating_status" (TOptional (TList (TDict TStr))) PNone
].

Definition ClimatisationStatus : dataclass := Base_dataclass "ClimatisationStatus" [
  attr_default "remaining_climatisation_time_min" (TOptional TInt) PNone;
  with_strategy OnOff.new (attr_default "climatisation_state" (TOptional TBool) PNone)
].

Definition ClimatisationSettings : dataclass := Base_dataclass "ClimatisationSettings" [
  attr_default "target_temperature_C" (TOptional TInt) PNone;
  attr_default "target_temperature_F" (TOptional TInt) PNone;
  attr_default "unit_in_car" (TOptional TStr) PNone;
  attr_default "climatization_at_unlock" (TOptional TBool) PNone;
  attr_default "window_heating_enabled" (TOptional TBool) PNone;
  attr_default "zone_front_left_enabled" (TOptional TBool) PNone;
  attr_default "zone_front_right_enabled" (TOptional TBool) PNone;
  attr_default "zone_rear_left_enabled" (TOptional TBool) PNone;
  attr_default "zone_rear_right_enabled" (TOptional TBool) PNone
].

Definition Climatisation : dataclass := Base_dataclass "Climatisation" [
  attr_default "window_heating_status" (TOptional (class_type WindowHeatingStatus)) PNone;
  attr_default "climatisation_status" (TOptional (class_type ClimatisationStatus)) PNone;
  attr_default "climatisation_settings" (TOptional (class_type ClimatisationSettings)) PNone
].

Definition SingleTimer : dataclass := Base_dataclass "SingleTimer" [
  with_alias "startDateTime" (attr "start" TDatetime);
  with_alias "targetDateTime" (attr "target" TDatetime)
].

Definition Timer : dataclass := Base_dataclass "Timer" [
  attr "id" TInt;
  attr "enabled" TBool;
  attr "single_timer" (class_type SingleTimer)
].

Definition ClimatisationTimersStatus : dataclass :=
  Base_dataclass "ClimatisationTimersStatus" [
    with_deserialize strptime (attr_default "time_in_car" (TOptional TDatetime) PNone);
    attr_default "timers" (TOptional (TList (class_type Timer))) PNone
  ].

Definition ClimatisationTimers : dataclass := Base_dataclass "ClimatisationTimers" [
  attr_default "climatisation_timers_status"
    (TOptional (class_type ClimatisationTimersStatus)) PNone
].

Definition PrimaryEngine : dataclass := Base_dataclass "PrimaryEngine" [
  attr_default "type" (TOptional TStr) PNone;
  attr_default "current_soc_pct" (TOptional TStr) PNone;
  attr_default "remaining_range_km" (TOptional TInt) PNone;
  attr_default "current_fuel_level_pct" (TOptional TInt) PNone
].

Definition SecondaryEngine : dataclass := Base_dataclass "SecondaryEngine" [
  attr_default "type" (TOptional TStr) PNone;
  attr_default "current_soc_pct" TStr PNone;
  attr_default "remaining_range_km" (TOptional TInt) PNone;
  attr_default "current_fuel_level_pct" (TOptional TInt) PNone
].

Definition FuelRangeStatus : dataclass := Base_dataclass "FuelRangeStatus" [
  attr_default "car_type" (TOptional TStr) PNone;
  attr_default "primary_engine" (TOptional (class_type PrimaryEngine)) PNone;
  attr_default "secondary_engine" (TOptional (class_type SecondaryEngine)) PNone;
  attr_default "total_range_km" (TOptional TInt) PNone
].

Definition FuelStatus : dataclass := Base_dataclass "FuelStatus" [
  attr_default "range_status" (TOptional (class_type FuelRangeStatus)) PNone
].

Definition OilLevelStatus : dataclass := Base_dataclass "OilLevelStatus" [
  attr "value" TBool
].

Definition OilLevel : dataclass := Base_dataclass "OilLevel" [
  attr_default "oil_level_status" (TOptional (class_type OilLevelStatus)) PNone
].

Definition LightsStatus : dataclass := Base_dataclass "LightsStatus" [
  with_deserialize lights_status (attr_default "lights" (TOptional (TDict TAny)) PNone)
].

Definition VehicleLights : dataclass := Base_dataclass "VehicleLights" [
  attr_default "lights_status" (TOptional (class_type LightsStatus)) PNone
].

Definition MaintenanceStatus : dataclass := Base_dataclass "MaintenanceStatus" [
  attr_default "inspection_due_days" (TOptional TInt) PNone;
  attr_default "inspection_due_km" (TOptional TInt) PNone;
  attr_default "mileage_km" (TOptional TInt) PNone;
  attr_default "oil_service_due_days" (TOptional TInt) PNone;
  attr_default "oil_service_due_km" (TOptional TInt) PNone
].

Definition VehicleHealthInspection : dataclass := Base_dataclass "VehicleHealthInspection" [
  attr_default "maintenance_status" (TOptional (class_type MaintenanceStatus)) PNone
].

Definition RangeStatus : dataclass := Base_dataclass "RangeStatus" [
  attr_default "electric_range" (TOptional TInt) PNone;
  attr_default "gasoline_range" (TOptional TInt) PNone;
  attr_default "total_range_km" (TOptional TInt) PNone
].

Definition OdometerStatus : dataclass := Base_dataclass "OdometerStatus" [
  attr_default "odometer" (TOptional TInt) PNone
].

Definition FuelLevelStatus : dataclass := Base_dataclass "FuelLevelStatus" [
  attr_default "current_soc_pct" (TOptional TInt) PNone;
  attr_default "current_fuel_level_pct" (TOptional TInt) PNone;
  attr_default "primary_engine_type" (TOptional TStr) PNone;
  attr_default "secondary_engine_type" (TOptional TStr) PNone;
  attr_default "car_type" (TOptional TStr) PNone
].

Definition TemperatureBatteryStatus : dataclass := Base_dataclass "TemperatureBatteryStatus" [
  attr "temperature_hv_battery_max_k" TFloat;
  attr "temperature_hv_battery_min_k" TFloat
].

Definition Measurements : dataclass := Base_dataclass "Measurements" [
  attr_default "range_status" (TOptional (class_type RangeStatus)) PNone;
  attr_default "odometer_status" (TOptional (class_type OdometerStatus)) PNone;
  attr_default "fuel_level_status" (TOptional (class_type FuelLevelStatus)) PNone;
  attr_default "temperature_battery_status"
    (TOptional (class_type TemperatureBatteryStatus)) PNone
].

Definition WarningLights : dataclass := Base_dataclass "WarningLights" [
  with_deserialize lights_status (attr_default "lights" (TOptional (TDict TAny)) PNone)
].

Definition VehicleHealthWarnings : dataclass := Base_dataclass "VehicleHealthWarnings" [
  attr_default "warning_lights" (TOptional (class_type WarningLights)) PNone
].

Definition UserCapabilities : dataclass := Base_dataclass "UserCapabilities" [
  attr_default "capabilities_status" (TOptional (TList (TDict TAny))) PNone
].

Definition Model : dataclass := Base_dataclass "Model" [
  attr_default "user_capabilities" (TOptional (class_type UserCapabilities)) PNone;
  attr_default "access" (TOptional (class_type Access)) PNone;
  attr_default "charging" (TOptional (class_type Charging)) PNone;
  attr_default "climatisation_timers" (TOptional (class_type ClimatisationTimers)) PNone;
  attr_default "climatisation" (TOptional (class_type Climatisation)) PNone;
  attr_default "fuel_status" (TOptional (class_type FuelStatus)) PNone;
  attr_default "vehicle_health_inspection"
    (TOptional (class_type VehicleHealthInspection)) PNone;
  attr_default "vehicle_lights" (TOptional (class_type VehicleLights)) PNone;
  attr_default "measurements" (TOptional (class_type Measurements)) PNone;
  attr_default "oil_level" (TOptional (class_type OilLevel)) PNone;
  attr_default "vehicle_health_warnings"
    (TOptional (class_type VehicleHealthWarnings)) PNone
].

(** ** Notions the statements use *)

(** The raw value a key of the normalized mapping stands for: the value of
    the last raw item whose key [camel2snake] rewrites to [k]. *)
Fixpoint raw_lookup (items : list (string * pyval)) (k : string) : option pyval :=
  match items with
  | [] => None
  | (k', v) :: rest =>
      match raw_lookup rest k with
      | Some w => Some w
      | None => if String.eqb (camel2snake k') k then Some v else None
      end
  end.

(** No field of the list is looked up by the key [k]. *)
Definition no_field_keyed (fields : list field) (k : string) : bool :=
  forallb (fun f => negb (String.eqb (lookup_key f) k)) fields.

(** Every field of the list has the default [None]. *)
Definition all_default_none (fields : list field) : bool :=
  forallb (fun f => match f_default f with Some PNone => true | _ => false end) fields.

(** [isinstance(value, t)] for an annotation [t]. *)
Fixpoint is_instance (t : pytype) (value : pyval) : bool :=
  match t, value with
  | TInt, PInt _ | TInt, PBool _ => true
  | TFloat, PFloat _ => true
  | TBool, PBool _ => true
  | TStr, PStr _ => true
  | TDatetime, PDatetime _ => true
  | TAny, _ => true
  | TOptional t', v => is_none v || is_instance t' v
  | TList t', PList l => forallb (is_instance t') l
  | TDict t', PDict items => forallb (fun kv => is_instance t' (snd kv)) items
  | TDataclass name _ _, PObj cls _ => String.eqb cls name
  | _, _ => false
  end.

(** The annotation of the field called [name]. *)
Definition field_type (C : dataclass) (name : string) : option pytype :=
  option_map f_type (find (fun f => String.eqb (f_name f) name) (cls_fields C)).

(** [C.from_dict(obj.to_dict())]. *)
Definition reencode_decode (C : dataclass) (obj : pyval) : result pyval :=
  d <- to_dict C obj ;; from_dict C d.

(** [strptime] finds the format in the string: the match [re.match]
    returns ends where the string ends. *)
Definition matches_format (s : string) : bool :=
  match run format_regex s with
  | m :: _ => String.eqb (remains m) EmptyString
  | [] => false
  end.

(** The pattern [%Y-%m-%dT%H:%M:%S%z] as the spec reads it, matched
    exactly and with no lenient parsing: four digits for the year and two
    for every other field, the separators as the pattern has them, and
    for the offset a sign, two digits, a colon that may be left out, and
    two digits.  It follows the spec's words, for comparison with
    [format_regex], the expression [strptime] compiles the format to. *)
Definition spec_exact_pattern : regex :=
  (re_Y ++ re_lit "-" ++ re_2digits ++ re_lit "-" ++ re_2digits ++ re_lit "T"
   ++ re_2digits ++ re_lit ":" ++ re_2digits ++ re_lit ":" ++ re_2digits
   ++ (re_lit "+" <|> re_lit "-") ++ re_2digits ++ re_opt (re_lit ":")
   ++ re_2digits)%re.

Definition spec_matches_exactly (s : string) : bool :=
  existsb (fun m => String.eqb (remains m) EmptyString) (run spec_exact_pattern s).

(** The raw documents of the scenarios. *)
Definition battery_doc : pyval :=
  PDict [("currentSOC_pct", PInt 87); ("cruisingRangeElectricKm", PInt 210)].

Definition battery_doc_extra : pyval :=
  PDict [("someNewFieldNotInSchema", PInt 1); ("currentSOC_pct", PInt 87);
         ("cruisingRangeElectricKm", PInt 210)].

(** No raw key of the mapping is rewritten to [k]. *)
Definition no_item_keyed (items : list (string * pyval)) (k : string) : bool :=
  forallb (fun kv => negb (String.eqb (camel2snake (fst kv)) k)) items.

Definition timer_doc : pyval := PDict [("id", PStr "abc")].

Definition charging_malformed : pyval :=
  PDict [("batteryStatus", PDict [("cruisingRangeElectricKm", PStr "abc")])].

Definition aggregate_doc : list (string * pyval) :=
  [("charging", charging_malformed); ("oilLevel", PDict [])].

(** The raw document with a timestamp for [time_in_car], and the record it
    decodes to when the timestamp is read as [dt]. *)
Definition time_doc (value : pyval) : pyval := PDict [("timeInCar", value)].

Definition timers_status (dt : datetime) : pyval :=
  PObj "ClimatisationTimersStatus" [("time_in_car", PDatetime dt); ("timers", PNone)].

(** A stored value of a field annotated [bool | None]. *)
Definition opt_bool (stored : option bool) : pyval :=
  match stored with
  | None => PNone
  | Some b => PBool b
  end.

(** The field [f], declared between [before] and [after], is written by
    [to_dict] and read by [from_dict] under its own name: it has no alias,
    [camel2snake] leaves its name alone, no field before it has its name
    and the name of no field after it is rewritten to its name. *)
Definition under_own_name (before : list field) (f : field) (after : list field)
  : bool :=
  match f_alias f with None => true | Some _ => false end
  && String.eqb (camel2snake (f_name f)) (f_name f)
  && forallb (fun g => negb (String.eqb (f_name g) (f_name f))) before
  && forallb (fun g => negb (String.eqb (camel2snake (f_name g)) (f_name f))) after.

(** A strategy field with the default [None] and no [deserialize] option. *)
Definition strategy_field (s : SerializationStrategy) (f : field) : Prop :=
  f_strategy f = Some s /\ f_deserialize f = None /\ f_default f = Some PNone.

Definition access_attrs (lock : pyval) : list (string * pyval) :=
  [("car_captured_timestamp",
    PDatetime (mk_datetime 2023 5 1 12 0 0 0 (Some (2 * 3600 * 1000000))));
   ("overall_status", PStr "safe"); ("door_lock_status", lock);
   ("doors", PNone); ("windows", PNone)].

Definition access_record (lock : pyval) : pyval :=
  PObj "AccessStatus" (access_attrs lock).

Definition climatisation_record (state : pyval) : pyval :=
  PObj "ClimatisationStatus"
    [("remaining_climatisation_time_min", PInt 10); ("climatisation_state", state)].

(** An instance of [C] whose attributes are instances of their
    annotations. *)
Definition well_typed (C : dataclass) (obj : pyval) : bool :=
  match obj with
  | PObj cls attrs =>
      String.eqb cls (cls_name C)
      && forallb (fun f =>
                    match dict_get attrs (f_name f) with
                    | Some v => is_instance (f_type f) v
                    | None => false
                    end) (cls_fields C)
  | _ => false
  end.

(** ** Notions of the further properties *)

(** The classes of [model.py], in source order. *)
Definition model_classes : list dataclass :=
  [Position; Location; Access; AccessStatus; Charging; BatteryStatus;
   ChargingStatus; ChargingSettings; PlugStatus; ChargeMode; Climatisation;
   WindowHeatingStatus; ClimatisationStatus; ClimatisationSettings;
   ClimatisationTimers; ClimatisationTimersStatus; Timer; SingleTimer;
   FuelStatus; FuelRangeStatus; PrimaryEngine; SecondaryEngine; OilLevel;
   OilLevelStatus; VehicleLights; LightsStatus; VehicleHealthInspection;
   MaintenanceStatus; Measurements; RangeStatus; OdometerStatus;
   FuelLevelStatus; TemperatureBatteryStatus; VehicleHealthWarnings;
   WarningLights; UserCapabilities; Model].

(** The keys the hook writes for the items of a raw mapping, one for each
    item, repeats included. *)
Definition rewritten_keys (items : list (string * pyval)) : list string :=
  map (fun kv => camel2snake (fst kv)) items.

(** The fields of a class that are looked up by a key with a capital
    letter, and the classes of [model.py] that have such fields. *)
Definition capital_keyed (C : dataclass) : list string :=
  map f_name (filter (fun f => has_upper (lookup_key f)) (cls_fields C)).

Definition capital_keyed_fields : list (string * list string) :=
  filter (fun p => negb (Nat.eqb (List.length (snd p)) 0))
    (map (fun C => (cls_name C, capital_keyed C)) model_classes).

(** A field with neither a [deserialize] option nor a strategy: its
    annotation alone decides how it is converted. *)
Definition plain_field (f : field) : bool :=
  match f_deserialize f, f_strategy f with
  | None, None => true
  | _, _ => false
  end.

(** The exceptions decoding a mapping as [name] may end with:
    [MissingField] for a required field whose key is not there, and
    [InvalidFieldValue] for a field whose converter raises on the value
    found, each naming the field. *)
Definition field_error (name : string) (fields : list field)
  (items : list (string * pyval)) (e : exn) : Prop :=
  exists f,
    In f fields
    /\ ((e = MissingField (f_name f) name
         /\ f_default f = None
         /\ raw_lookup items (lookup_key f) = None)
        \/ (exists v,
              e = InvalidFieldValue (f_name f) name v
              /\ raw_lookup items (lookup_key f) = Some v
              /\ could_be_none f && is_none v = false
              /\ exists e', field_unpacker f v = Raise e')).

(** The annotation under [| None]. *)
Definition base_type (t : pytype) : pytype :=
  match t with
  | TOptional t' => t'
  | _ => t
  end.

Definition is_dict (v : pyval) : bool :=
  match v with
  | PDict _ => true
  | _ => false
  end.

(** What [lambda x: x == literal] leaves in a field that may be [None]. *)
Definition equals_literal (literal : string) (v : pyval) : pyval :=
  if is_none v then PNone else PBool (py_eq_str v literal).

(** Records of the scenarios. *)
Definition position_record (lon lat last : pyval) : pyval :=
  PObj "Position" [("longitude", lon); ("latitude", lat); ("last_access", last)].

Definition charging_attrs (state : pyval) : list (string * pyval) :=
  [("remaining", PNone); ("charging_state", state); ("charge_mode", PNone);
   ("charge_power_kw", PNone); ("charge_rate_kmph", PNone); ("charge_type", PNone);
   ("charge_settings", PNone)].

Definition charging_record (state : pyval) : pyval :=
  PObj "ChargingStatus" (charging_attrs state).

(** An annotation decoded by [int], [float], [bool] or [str], or not at
    all ([Any]), and a field of such an annotation that is written and
    read under its own name: no option, no alias, a name [camel2snake]
    leaves alone, and no default or the default [None]. *)
Definition simple_type (t : pytype) : bool :=
  match t with
  | TInt | TFloat | TBool | TStr | TAny => true
  | TOptional (TInt | TFloat | TBool | TStr | TAny) => true
  | _ => false
  end.

Definition simple_field (f : field) : bool :=
  plain_field f && simple_type (f_type f)
  && match f_alias f with None => true | Some _ => false end
  && String.eqb (camel2snake (f_name f)) (f_name f)
  && match f_default f with Some PNone | None => true | Some _ => false end.

(** The classes of [model.py] all of whose fields are simple. *)
Definition simple_classes : list string :=
  map cls_name (filter (fun C => forallb simple_field (cls_fields C)) model_classes).

(** The number a run of decimal digits writes, read onto [acc]. *)
Fixpoint digits_value (acc : Z) (l : list ascii) : Z :=
  match l with
  | [] => acc
  | c :: l' => digits_value (10 * acc + digit_value c) l'
  end.

(** A datetime the constructor accepts, with an offset [timezone] accepts
    when it has one: what every [datetime] object is. *)
Definition valid_datetime (dt : datetime) : bool :=
  between 1 (year dt) 9999 && between 1 (month dt) 12
  && between 1 (day dt) (days_in_month (year dt) (month dt))
  && between 0 (hour dt) 23 && between 0 (minute dt) 59 && between 0 (second dt) 59
  && between 0 (microsecond dt) 999999
  && match tzinfo dt with
     | Some offset => (- day_us <? offset) && (offset <? day_us)
     | None => true
     end.

(** A naive datetime, or one whose offset is a whole number of seconds. *)
Definition whole_second_offset (dt : datetime) : bool :=
  match tzinfo dt with
  | Some offset => offset mod 1000000 =? 0
  | None => true
  end.

(** The text [isoformat] writes for a date and a time of day with no
    microseconds, before [tail], and the text [format_offset] writes for an
    offset given by its sign and its hours, minutes, seconds and
    microseconds. *)
Definition iso_date_time (y mo d H M S : Z) (tail : string) : string :=
  zero_padded 4 y ++ "-" ++ zero_padded 2 mo ++ "-" ++ zero_padded 2 d ++ "T"
  ++ zero_padded 2 H ++ ":" ++ zero_padded 2 M ++ ":" ++ zero_padded 2 S ++ tail.

Definition offset_text (negative : bool) (hh mm ss us : Z) : string :=
  (if negative then "-" else "+") ++ zero_padded 2 hh ++ ":" ++ zero_padded 2 mm
  ++ (if (ss =? 0) && (us =? 0) then EmptyString
      else ":" ++ zero_padded 2 ss
           ++ (if us =? 0 then EmptyString else "." ++ zero_padded 6 us)).

(** A value of a scalar annotation, as an instance of the annotation in a
    record: an [int], a [float], a [bool], a [str], or a datetime with no
    offset or an offset of whole seconds; and [None] besides where the
    annotation is optional. *)
Definition stored_scalar (t : pytype) (v : pyval) : bool :=
  match t, v with
  | TInt, PInt _ | TFloat, PFloat _ | TBool, PBool _ | TStr, PStr _ => true
  | TDatetime, PDatetime dt => valid_datetime dt && whole_second_offset dt
  | _, _ => false
  end.

Definition stored_value (t : pytype) (v : pyval) : bool :=
  match t with
  | TOptional t' => is_none v || stored_scalar t' v
  | _ => stored_scalar t v
  end.

(** An annotation decoded by a conversion to one type: [int], [float],
    [bool], [str] or [datetime], optional or not. *)
Definition scalar_type (t : pytype) : bool :=
  match base_type t with
  | TInt | TFloat | TBool | TStr | TDatetime => true
  | _ => false
  end.

(** ** Comprehensions that may raise *)

Section MapResult.
Context {A B : Type}.
Variable g : A -> result B.

Lemma map_result_ext (f : A -> result B) (l : list A) :
  (forall x, In x l -> f x = g x) -> map_result f l = map_result g l.
Proof.
  induction l as [|x l IH]; intro H; simpl.
  - reflexivity.
  - rewrite (H x (or_introl eq_refl)), IH; [reflexivity|].
    intros y Hy. apply H. right. exact Hy.
Qed.

Lemma map_result_app (l1 l2 : list A) :
  map_result g (l1 ++ l2)
  = (a <- map_result g l1 ;; b <- map_result g l2 ;; Ok (a ++ b)%list).
Proof.
  induction l1 as [|x l1 IH]; simpl.
  - destruct (map_result g l2); reflexivity.
  - destruct (g x); simpl; [|reflexivity|reflexivity].
    rewrite IH. destruct (map_result g l1); simpl; [|reflexivity|reflexivity].
    destruct (map_result g l2); reflexivity.
Qed.

(** The first element whose conversion raises decides the outcome. *)
Lemma map_result_stops (pre post : list A) (x : A) (done : list B) (e : exn) :
  map_result g pre = Ok done -> g x = Raise e ->
  map_result g (pre ++ x :: post) = Raise e.
Proof.
  intros Hpre Hx. rewrite map_result_app, Hpre. simpl. rewrite Hx. reflexivity.
Qed.

(** A result has an element for each element converted, in order. *)
Lemma map_result_app_inv (l1 l2 : list A) (x : A) (out : list B) :
  map_result g (l1 ++ x :: l2) = Ok out ->
  exists o1 y o2,
    map_result g l1 = Ok o1 /\ g x = Ok y /\ map_result g l2 = Ok o2
    /\ out = (o1 ++ y :: o2)%list.
Proof.
  rewrite map_result_app.
  destruct (map_result g l1) as [o1| |]; simpl; try discriminate.
  destruct (g x) as [y| |]; simpl; try discriminate.
  destruct (map_result g l2) as [o2| |]; simpl; try discriminate.
  intro H. injection H as H. exists o1, y, o2. auto.
Qed.

(** An element whose conversion does not succeed leaves no result. *)
Lemma map_result_needs_all (pre post : list A) (x : A) (out : list B) :
  map_result g (pre ++ x :: post) = Ok out -> exists y, g x = Ok y.
Proof.
  intro H. apply map_result_app_inv in H.
  destruct H as [o1 [y [o2 [_ [Hy _]]]]]. exists y. exact Hy.
Qed.

End MapResult.

Lemma map_result_fst {A B : Type} (g : A -> result (string * B))
  (h : A -> string) (l : list A) (out : list (string * B)) :
  (forall x y, g x = Ok y -> fst y = h x) ->
  map_result g l = Ok out -> map fst out = map h l.
Proof.
  intro Hg. revert out. induction l as [|x l IH]; simpl; intros out H.
  - injection H as H. subst out. reflexivity.
  - destruct (g x) as [y| |] eqn:E; simpl in H; try discriminate.
    destruct (map_result g l) as [ys| |]; simpl in H; try discriminate.
    injection H as H. subst out. simpl.
    rewrite (Hg x y E), (IH ys eq_refl). reflexivity.
Qed.

(** ** Dictionaries and the hook *)

Lemma dict_get_set (d : list (string * pyval)) (k k' : string) (v : pyval) :
  dict_get (dict_set d k v) k' = if String.eqb k k' then Some v else dict_get d k'.
Proof.
  induction d as [|[k0 v0] d IH]; simpl.
  - reflexivity.
  - destruct (String.eqb_spec k0 k) as [E0|E0]; simpl.
    + subst k0. destruct (String.eqb k k'); reflexivity.
    + destruct (String.eqb_spec k0 k') as [E1|E1].
      * subst k'. destruct (String.eqb_spec k k0) as [E2|E2]; [|reflexivity].
        symmetry in E2. contradiction.
      * exact IH.
Qed.

Lemma dict_get_fold (items acc : list (string * pyval)) (k : string) :
  dict_get
    (fold_left (fun a kv => dict_set a (camel2snake (fst kv)) (snd kv)) items acc) k
  = match raw_lookup items k with
    | Some w => Some w
    | None => dict_get acc k
    end.
Proof.
  revert acc; induction items as [|[k0 v0] items IH]; intro acc; simpl.
  - reflexivity.
  - rewrite IH. destruct (raw_lookup items k); [reflexivity|].
    rewrite dict_get_set. destruct (String.eqb (camel2snake k0) k); reflexivity.
Qed.

(** A lookup in the mapping the hook returns finds the last raw item
    whose rewritten key is the one asked for. *)
Lemma dict_get_normalized (items : list (string * pyval)) (k : string) :
  dict_get (dict_comprehension camel2snake items) k = raw_lookup items k.
Proof.
  unfold dict_comprehension. rewrite dict_get_fold.
  destruct (raw_lookup items k); reflexivity.
Qed.

Lemma raw_lookup_app (l1 l2 : list (string * pyval)) (k : string) :
  raw_lookup (l1 ++ l2) k
  = match raw_lookup l2 k with
    | Some w => Some w
    | None => raw_lookup l1 k
    end.
Proof.
  induction l1 as [|[k0 v0] l1 IH]; simpl.
  - destruct (raw_lookup l2 k); reflexivity.
  - rewrite IH. destruct (raw_lookup l2 k); reflexivity.
Qed.

Lemma raw_lookup_none (items : list (string * pyval)) (k : string) :
  no_item_keyed items k = true -> raw_lookup items k = None.
Proof.
  induction items as [|[k0 v0] items IH]; simpl; intro H.
  - reflexivity.
  - apply andb_true_iff in H. destruct H as [H0 H].
    rewrite (IH H). apply negb_true_iff in H0. rewrite H0. reflexivity.
Qed.

Lemma dict_get_skip (pre post : list (string * pyval)) (k : string) (v : pyval) :
  forallb (fun k' => negb (String.eqb k' k)) (map fst pre) = true ->
  dict_get (pre ++ (k, v) :: post) k = Some v.
Proof.
  induction pre as [|[k0 v0] pre IH]; simpl; intro H.
  - rewrite String.eqb_refl. reflexivity.
  - apply andb_true_iff in H. destruct H as [H0 H].
    apply negb_true_iff in H0. rewrite H0. exact (IH H).
Qed.

Lemma from_dict_Base (name : string) (fields : list field)
  (items : list (string * pyval)) :
  from_dict (Base_dataclass name fields) (PDict items)
  = (attrs <- map_result
                (fun f => set_value name f (raw_lookup items (lookup_key f))) fields ;;
     Ok (PObj name attrs)).
Proof.
  unfold from_dict; simpl. f_equal.
  apply map_result_ext. intros f _.
  unfold unpack_field. rewrite dict_get_normalized. reflexivity.
Qed.

Lemma from_dict_Ok_inv (name : string) (fields : list field)
  (items : list (string * pyval)) (r : pyval) :
  from_dict (Base_dataclass name fields) (PDict items) = Ok r ->
  exists attrs,
    map_result (fun f => set_value name f (raw_lookup items (lookup_key f))) fields
    = Ok attrs.
Proof.
  rewrite from_dict_Base.
  destruct (map_result _ fields) as [attrs| |]; simpl; try discriminate.
  intros _. exists attrs. reflexivity.
Qed.

Lemma set_value_name (holder : string) (f : field) (o : option pyval)
  (a : string * pyval) :
  set_value holder f o = Ok a -> fst a = f_name f.
Proof.
  unfold set_value. destruct o as [v|].
  - destruct (could_be_none f && is_none v).
    + intro H. injection H as H. subst a. reflexivity.
    + destruct (field_unpacker f v); try discriminate.
      intro H. injection H as H. subst a. reflexivity.
  - destruct (f_default f); try discriminate.
    intro H. injection H as H. subst a. reflexivity.
Qed.

(** The attribute a decoded record holds for a field. *)
Lemma decoded_attribute (name : string) (before after : list field) (f : field)
  (items : list (string * pyval)) (record : pyval) :
  forallb (fun g => negb (String.eqb (f_name g) (f_name f))) before = true ->
  from_dict (Base_dataclass name (before ++ f :: after)) (PDict items) = Ok record ->
  exists a,
    set_value name f (raw_lookup items (lookup_key f)) = Ok (f_name f, a)
    /\ getattr record (f_name f) = Some a.
Proof.
  intros Hb H. rewrite from_dict_Base in H.
  destruct (map_result _ (before ++ f :: after)) as [attrs| |] eqn:E;
    simpl in H; try discriminate.
  injection H as H. subst record.
  apply map_result_app_inv in E.
  destruct E as [o1 [[n a] [o2 [E1 [Ef [E2 Hout]]]]]].
  pose proof (set_value_name _ _ _ _ Ef) as Hn. simpl in Hn. subst n.
  exists a. split; [exact Ef|].
  subst attrs. simpl. apply dict_get_skip.
  rewrite (map_result_fst _ f_name before o1
             (fun x y => set_value_name name x _ y) E1).
  rewrite forallb_forall in Hb. apply forallb_forall.
  intros k Hk. apply in_map_iff in Hk. destruct Hk as [g [Hg Hin]].
  subst k. exact (Hb g Hin).
Qed.

(** ** The key normalizer *)

Lemma to_lower_not_upper (c : ascii) : is_upper (to_lower c) = false.
Proof. destruct c as [[] [] [] [] [] [] [] []]; reflexivity. Qed.

Lemma snake_from_lower (prev : ascii) (s : string) :
  has_upper (snake_from prev s) = false.
Proof.
  revert prev. induction s as [|c s IH]; intro prev; simpl.
  - reflexivity.
  - destruct (is_upper c && _); simpl;
      rewrite to_lower_not_upper, IH; reflexivity.
Qed.

(** A rewritten key holds no capital letter. *)
Lemma camel2snake_lower (key : string) : has_upper (camel2snake key) = false.
Proof.
  destruct key as [|c s]; simpl; [reflexivity|].
  rewrite to_lower_not_upper, snake_from_lower. reflexivity.
Qed.

Lemma snake_from_fixes_lower (prev : ascii) (s : string) :
  has_upper s = false -> snake_from prev s = s.
Proof.
  revert prev. induction s as [|c s IH]; intro prev; simpl; intro H.
  - reflexivity.
  - apply orb_false_iff in H. destruct H as [Hc Hs].
    rewrite Hc. simpl. unfold to_lower. rewrite Hc, (IH c Hs). reflexivity.
Qed.

(** It is idempotent, as the spec asks: a rewritten key is left alone. *)
Lemma camel2snake_idempotent (key : string) :
  camel2snake (camel2snake key) = camel2snake key.
Proof.
  pose proof (camel2snake_lower key) as H.
  destruct (camel2snake key) as [|c s]; [reflexivity|].
  simpl in H. apply orb_false_iff in H. destruct H as [Hc Hs].
  simpl. unfold to_lower. rewrite Hc, (snake_from_fixes_lower c s Hs). reflexivity.
Qed.

(** So a lookup key with a capital letter finds nothing, in any raw
    mapping. *)
Lemma capital_key_never_found (items : list (string * pyval)) (k : string) :
  has_upper k = true -> raw_lookup items k = None.
Proof.
  intro Hk. apply raw_lookup_none. unfold no_item_keyed. apply forallb_forall.
  intros [k0 v0] _. simpl. apply negb_true_iff. apply String.eqb_neq.
  intro E. pose proof (camel2snake_lower k0) as H. rewrite E, Hk in H.
  discriminate.
Qed.

(** ** Keys, aliases and unknown keys *)

(** C1 (as amended).  Every raw key is rewritten by [camel2snake] before
    field matching, and every field is then looked up in the rewritten
    mapping: under its alias, verbatim, when it declares one, under its name
    otherwise.  The value a field is decoded from is therefore the value of
    the last raw item whose rewritten key equals that alias or name; the
    raw mapping itself is never searched.  On the battery scenario the
    field [cruising_range_electric_km] is decoded to 210. *)
Theorem keys_normalized_before_matching :
  forall (name : string) (fields : list field) (items : list (string * pyval)),
    from_dict (Base_dataclass name fields) (PDict items)
    = (attrs <- map_result
                  (fun f =>
                     set_value name f
                       (raw_lookup items
                          (match f_alias f with
                           | Some a => a
                           | None => f_name f
                           end))) fields ;;
       Ok (PObj name attrs))
    /\ (exists record,
          from_dict BatteryStatus battery_doc = Ok record
          /\ getattr record "cruising_range_electric_km" = Some (PInt 210)).
Proof.
  intros name fields items. split.
  - apply from_dict_Base.
  - eexists. split; reflexivity.
Qed.

(** C1, the claim as stated fails: the alias ["currentSOC_pct"] is looked
    up in the rewritten mapping, where the raw key has become
    ["current_soc_pct"], so the field keeps its default [None] instead of
    87. *)
Lemma battery_alias_counterexample :
  from_dict BatteryStatus battery_doc
  = Ok (PObj "BatteryStatus"
          [("current_soc_pct", PNone); ("cruising_range_electric_km", PInt 210)]).
Proof. reflexivity. Qed.

(** The alias of [BatteryStatus.current_soc_pct] holds capital letters, so
    no rewritten key equals it: the field is [None] in every decoded
    battery status. *)
Lemma BatteryStatus_soc_never_read (items : list (string * pyval)) (record : pyval) :
  from_dict BatteryStatus (PDict items) = Ok record ->
  getattr record "current_soc_pct" = Some PNone.
Proof.
  intro H.
  destruct (decoded_attribute "BatteryStatus" [] (tl (cls_fields BatteryStatus))
              (with_alias "currentSOC_pct"
                 (attr_default "current_soc_pct" (TOptional TInt) PNone))
              items record eq_refl H) as [a [Ha Hget]].
  change (lookup_key _) with "currentSOC_pct" in Ha.
  rewrite (capital_key_never_found items "currentSOC_pct" eq_refl) in Ha.
  injection Ha as Ha. subst a. exact Hget.
Qed.

(** The aliases of [Position] are written in rewritten form, and match. *)
Lemma Position_alias_matches :
  from_dict Position
    (PDict [("lon", PInt 8); ("carCapturedTimestamp", PStr "2023-05-01T12:00:00+02:00")])
  = Ok (PObj "Position"
          [("longitude", PFloat (S754_finite false 4503599627370496 (-49)));
           ("latitude", PNone);
           ("last_access",
            PDatetime (mk_datetime 2023 5 1 12 0 0 0 (Some (2 * 3600 * 1000000))))]).
Proof. vm_compute. reflexivity. Qed.

(** C9.  A raw key whose rewritten form is the lookup key of no declared
    field changes nothing, wherever it stands in the raw mapping: decoding
    with it gives what decoding without it gives, be that a record or an
    exception. *)
Theorem unknown_key_ignored :
  forall (name : string) (fields : list field)
         (before after : list (string * pyval)) (k : string) (v : pyval),
    no_field_keyed fields (camel2snake k) = true ->
    from_dict (Base_dataclass name fields) (PDict (before ++ (k, v) :: after))
    = from_dict (Base_dataclass name fields) (PDict (before ++ after)).
Proof.
  intros name fields before after k v Hno.
  rewrite !from_dict_Base. f_equal.
  apply map_result_ext. intros f Hf. f_equal.
  unfold no_field_keyed in Hno. rewrite forallb_forall in Hno.
  specialize (Hno f Hf). apply negb_true_iff in Hno.
  rewrite String.eqb_sym in Hno.
  rewrite !raw_lookup_app. cbn [raw_lookup]. rewrite Hno.
  destruct (raw_lookup after (lookup_key f)); reflexivity.
Qed.

Lemma unknown_key_ignored_witness :
  no_field_keyed (cls_fields BatteryStatus) (camel2snake "someNewFieldNotInSchema") = true
  /\ from_dict BatteryStatus battery_doc_extra = from_dict BatteryStatus battery_doc.
Proof.
  split.
  - reflexivity.
  - exact (unknown_key_ignored "BatteryStatus" (cls_fields BatteryStatus) []
             [("currentSOC_pct", PInt 87); ("cruisingRangeElectricKm", PInt 210)]
             "someNewFieldNotInSchema" (PInt 1) eq_refl).
Defined.

(** ** Missing values *)

Lemma set_value_all_default (name : string) (fields : list field) :
  all_default_none fields = true ->
  map_result (fun f => set_value name f None) fields
  = Ok (map (fun f => (f_name f, PNone)) fields).
Proof.
  induction fields as [|f fields IH]; intro H.
  - reflexivity.
  - apply andb_true_iff in H. destruct H as [Hf H].
    cbn [map_result map]. rewrite (IH H). unfold set_value.
    destruct (f_default f) as [[]|]; try discriminate.
    reflexivity.
Qed.

(** C6 (as amended).  For a record type all of whose fields default to
    [None], decoding an empty mapping never raises and yields the record
    with every field [None].  Decoding null is another matter: the hook
    hands a value that is not a mapping on unchanged and [from_dict]
    raises; and where null stands for a nested record, as under the key
    ["climatisation"] of the aggregate, the field itself is [None] and no
    nested record is built. *)
Theorem empty_mapping_decodes_to_none :
  forall (name : string) (fields : list field),
    all_default_none fields = true ->
    from_dict (Base_dataclass name fields) (PDict [])
    = Ok (PObj name (map (fun f => (f_name f, PNone)) fields))
    /\ from_dict (Base_dataclass name fields) PNone = Raise (NotADict name)
    /\ (exists record,
          from_dict Model (PDict [("climatisation", PNone)]) = Ok record
          /\ getattr record "climatisation" = Some PNone).
Proof.
  intros name fields Hall. split; [|split].
  - rewrite from_dict_Base.
    change (fun f => set_value name f (raw_lookup [] (lookup_key f)))
      with (fun f => set_value name f None).
    rewrite (set_value_all_default name fields Hall). reflexivity.
  - reflexivity.
  - eexists. split; reflexivity.
Qed.

Lemma empty_mapping_decodes_to_none_witness :
  all_default_none (cls_fields Model) = true
  /\ all_default_none (cls_fields ClimatisationSettings) = true
  /\ from_dict Model (PDict [])
     = Ok (PObj "Model" (map (fun f => (f_name f, PNone)) (cls_fields Model))).
Proof.
  split; [reflexivity|]. split; [reflexivity|].
  exact (proj1 (empty_mapping_decodes_to_none "Model" (cls_fields Model) eq_refl)).
Defined.

(** C6, the claim as stated fails on null: decoding [None] as the
    aggregate raises. *)
Lemma null_document_counterexample :
  from_dict Model PNone = Raise (NotADict "Model").
Proof. reflexivity. Qed.

(** C7 (as amended).  When no raw key is rewritten to the lookup key of a
    required field, decoding never produces a record.  The exception is
    [MissingField] naming that field whenever the fields declared before it
    decode (always, then, for a field declared first); otherwise decoding
    has already stopped at an earlier field, with that field's exception.
    [before] and [after] are the fields declared before and after [f]. *)
Theorem missing_required_field :
  forall (name : string) (before after : list field) (f : field)
         (items : list (string * pyval)),
    f_default f = None ->
    no_item_keyed items (lookup_key f) = true ->
    (forall record,
       from_dict (Base_dataclass name (before ++ f :: after)) (PDict items)
       <> Ok record)
    /\ (forall partial,
          from_dict (Base_dataclass name before) (PDict items) = Ok partial ->
          from_dict (Base_dataclass name (before ++ f :: after)) (PDict items)
          = Raise (MissingField (f_name f) name)).
Proof.
  intros name before after f items Hreq Hkey.
  assert (Hf : set_value name f (raw_lookup items (lookup_key f))
               = Raise (MissingField (f_name f) name)).
  { rewrite (raw_lookup_none _ _ Hkey). simpl. rewrite Hreq. reflexivity. }
  split.
  - intros record H. apply from_dict_Ok_inv in H. destruct H as [attrs H].
    apply map_result_needs_all in H. destruct H as [y H].
    rewrite Hf in H. discriminate.
  - intros partial H. apply from_dict_Ok_inv in H. destruct H as [attrs H].
    rewrite from_dict_Base.
    rewrite (map_result_stops _ before after f attrs _ H Hf). reflexivity.
Qed.

Lemma missing_required_field_witness :
  f_default (attr "car_captured_timestamp" TDatetime) = None
  /\ no_item_keyed [("overallStatus", PStr "safe")] "car_captured_timestamp" = true
  /\ from_dict AccessStatus (PDict [("overallStatus", PStr "safe")])
     = Raise (MissingField "car_captured_timestamp" "AccessStatus").
Proof.
  split; [reflexivity|]. split; [reflexivity|].
  exact (proj2 (missing_required_field "AccessStatus" []
                  (tl (cls_fields AccessStatus)) (attr "car_captured_timestamp" TDatetime)
                  [("overallStatus", PStr "safe")] eq_refl eq_refl)
               (PObj "AccessStatus" []) eq_refl).
Defined.

(** C7, the claim as stated fails: [Timer] requires [enabled], the raw
    mapping has no key for it, and yet the exception is not [MissingField]:
    decoding stopped at [id], declared before it. *)
Lemma missing_field_counterexample :
  f_default (attr "enabled" TBool) = None
  /\ no_item_keyed [("id", PStr "abc")] "enabled" = true
  /\ from_dict Timer timer_doc = Raise (InvalidFieldValue "id" "Timer" (PStr "abc")).
Proof. repeat split. Qed.

(** The aliases of [SingleTimer] hold capital letters, so no rewritten key
    equals them, and its fields are required: no raw mapping decodes as a
    [SingleTimer]. *)
Lemma SingleTimer_never_decodes (items : list (string * pyval)) :
  from_dict SingleTimer (PDict items) = Raise (MissingField "start" "SingleTimer").
Proof.
  unfold SingleTimer. rewrite from_dict_Base. cbn [map_result].
  change (lookup_key (with_alias "startDateTime" (attr "start" TDatetime)))
    with "startDateTime".
  rewrite (capital_key_never_found items "startDateTime" eq_refl).
  reflexivity.
Qed.

(** ** The aggregate *)

Lemma Model_field_plain (f : field) :
  In f (cls_fields Model) ->
  f_deserialize f = None /\ f_strategy f = None /\ could_be_none f = true.
Proof.
  simpl. intro H.
  repeat (destruct H as [H|H]; [subst f; repeat split|]).
  contradiction.
Qed.

(** C3 (as amended).  The sub-resources of the aggregate are decoded in
    declaration order and decoding stops at the first that fails.  If the
    raw value [v] found for a sub-resource field [f] of class [S] is not
    null and [S.from_dict(v)] raises, decoding the aggregate never yields a
    record, so no sibling is delivered; and when the sub-resources declared
    before [f] decode, the exception is [InvalidFieldValue], naming [f] and
    carrying [v]: the failure is reported, not turned into [None]. *)
Theorem Model_fails_on_first_bad_subresource :
  forall (before after : list field) (f : field) (S : dataclass)
         (items : list (string * pyval)) (v : pyval) (e : exn),
    cls_fields Model = (before ++ f :: after)%list ->
    f_type f = TOptional (class_type S) ->
    raw_lookup items (lookup_key f) = Some v ->
    is_none v = false ->
    from_dict S v = Raise e ->
    (forall record, from_dict Model (PDict items) <> Ok record)
    /\ (forall partial,
          from_dict (Base_dataclass "Model" before) (PDict items) = Ok partial ->
          from_dict Model (PDict items)
          = Raise (InvalidFieldValue (f_name f) "Model" v)).
Proof.
  intros before after f S items v e Hfields Hty Hv Hnn Hraise.
  assert (Hin : In f (cls_fields Model)).
  { rewrite Hfields. apply in_or_app. right. left. reflexivity. }
  destruct (Model_field_plain f Hin) as [Hd [Hs Hc]].
  assert (Hf : set_value "Model" f (raw_lookup items (lookup_key f))
               = Raise (InvalidFieldValue (f_name f) "Model" v)).
  { rewrite Hv. unfold set_value, field_unpacker.
    rewrite Hc, Hnn, Hd, Hs, Hty. simpl. rewrite Hnn, Hraise. reflexivity. }
  change Model with (Base_dataclass "Model" (cls_fields Model)).
  rewrite Hfields. split.
  - intros record H. apply from_dict_Ok_inv in H. destruct H as [attrs H].
    apply map_result_needs_all in H. destruct H as [y H].
    rewrite Hf in H. discriminate.
  - intros partial H. apply from_dict_Ok_inv in H. destruct H as [attrs H].
    rewrite from_dict_Base.
    rewrite (map_result_stops _ before after f attrs _ H Hf). reflexivity.
Qed.

Lemma Model_fails_on_first_bad_subresource_witness :
  raw_lookup aggregate_doc "charging" = Some charging_malformed
  /\ from_dict Charging charging_malformed
     = Raise (InvalidFieldValue "battery_status" "Charging"
                (PDict [("cruisingRangeElectricKm", PStr "abc")]))
  /\ from_dict Model (PDict aggregate_doc)
     = Raise (InvalidFieldValue "charging" "Model" charging_malformed).
Proof.
  split; [reflexivity|]. split; [reflexivity|].
  exact (proj2 (Model_fails_on_first_bad_subresource
                  (firstn 2 (cls_fields Model)) (skipn 3 (cls_fields Model))
                  (attr_default "charging" (TOptional (class_type Charging)) PNone)
                  Charging aggregate_doc charging_malformed _
                  eq_refl eq_refl eq_refl eq_refl eq_refl)
               _ eq_refl).
Defined.

(** C3, the claim as stated fails: the malformed [charging] object makes
    decoding of the whole aggregate raise, so the sibling [oilLevel], which
    decodes when [charging] is left out, is not delivered. *)
Lemma sibling_not_decoded_counterexample :
  from_dict Model (PDict aggregate_doc)
  = Raise (InvalidFieldValue "charging" "Model" charging_malformed)
  /\ (exists record,
        from_dict Model (PDict [("oilLevel", PDict [])]) = Ok record
        /\ getattr record "oil_level"
           = Some (PObj "OilLevel" [("oil_level_status", PNone)])).
Proof.
  split; [reflexivity|]. eexists. split; reflexivity.
Qed.

(** ** The coercions *)

(** C4.  [Locked.deserialize] is true on the string ["locked"] and on no
    other string, whatever its case; so ["unlocked"], ["unknown"] and
    ["Locked"] give false.  Decoding a plug status carries the coercion to
    [plug_lock_state]. *)
Theorem lock_state_coercion :
  forall s : string,
    Locked.deserialize (PStr s) = Ok (PBool (String.eqb s "locked"))
    /\ (Locked.deserialize (PStr s) = Ok (PBool true) <-> s = "locked")
    /\ from_dict PlugStatus (PDict [("plugLockState", PStr s)])
       = Ok (PObj "PlugStatus"
               [("plug_connection_state", PNone);
                ("plug_lock_state", PBool (String.eqb s "locked"));
                ("external_power", PNone); ("led_color", PNone)])
    /\ Locked.deserialize (PStr "unlocked") = Ok (PBool false)
    /\ Locked.deserialize (PStr "unknown") = Ok (PBool false)
    /\ Locked.deserialize (PStr "Locked") = Ok (PBool false).
Proof.
  intro s. split; [reflexivity|]. split; [|repeat split].
  unfold Locked.deserialize, py_eq_str. split.
  - intro H. injection H as H. apply String.eqb_eq. exact H.
  - intro H. subst s. reflexivity.
Qed.

(** C5.  [OnOff.deserialize] is false on the string ["off"] and true on
    every other string, ["on"] and ["anything-else"] among them.  Decoding
    a climatisation status carries the coercion to [climatisation_state]. *)
Theorem on_off_coercion :
  forall s : string,
    OnOff.deserialize (PStr s) = Ok (PBool (negb (String.eqb s "off")))
    /\ (OnOff.deserialize (PStr s) = Ok (PBool false) <-> s = "off")
    /\ from_dict ClimatisationStatus (PDict [("climatisationState", PStr s)])
       = Ok (PObj "ClimatisationStatus"
               [("remaining_climatisation_time_min", PNone);
                ("climatisation_state", PBool (negb (String.eqb s "off")))])
    /\ OnOff.deserialize (PStr "on") = Ok (PBool true)
    /\ OnOff.deserialize (PStr "anything-else") = Ok (PBool true).
Proof.
  intro s. split; [reflexivity|]. split; [|repeat split].
  unfold OnOff.deserialize, py_eq_str. split.
  - intro H. injection H as H. apply negb_false_iff in H.
    apply String.eqb_eq. exact H.
  - intro H. subst s. reflexivity.
Qed.

(** C10.  An empty mapping decodes as a [SecondaryEngine], and the record
    holds [None] in [current_soc_pct], a field annotated [str]: [None] is no
    instance of that annotation.  [PrimaryEngine] has the same fields with
    the same defaults, and there the annotation is [str | None], which
    [None] is an instance of. *)
Theorem SecondaryEngine_none_in_str_field :
  from_dict SecondaryEngine (PDict [])
  = Ok (PObj "SecondaryEngine"
          [("type", PNone); ("current_soc_pct", PNone);
           ("remaining_range_km", PNone); ("current_fuel_level_pct", PNone)])
  /\ field_type SecondaryEngine "current_soc_pct" = Some TStr
  /\ is_instance TStr PNone = false
  /\ field_type PrimaryEngine "current_soc_pct" = Some (TOptional TStr)
  /\ is_instance (TOptional TStr) PNone = true
  /\ map (fun f => (f_name f, f_default f)) (cls_fields SecondaryEngine)
     = map (fun f => (f_name f, f_default f)) (cls_fields PrimaryEngine)
  /\ from_dict PrimaryEngine (PDict [])
     = Ok (PObj "PrimaryEngine"
             [("type", PNone); ("current_soc_pct", PNone);
              ("remaining_range_km", PNone); ("current_fuel_level_pct", PNone)]).
Proof.
  unfold field_type. simpl. repeat split.
Qed.

(** ** Regular expressions *)

Lemma append_assoc (x y z : string) : (x ++ y) ++ z = x ++ (y ++ z).
Proof. induction x as [|c x IH]; simpl; [reflexivity|rewrite IH; reflexivity]. Qed.

Lemma append_nil_r (x : string) : x ++ EmptyString = x.
Proof. induction x as [|c x IH]; simpl; [reflexivity|rewrite IH; reflexivity]. Qed.

(** Every match the matcher finds splits the input into a text of the
    language and the rest. *)
Lemma run_sound (r : regex) (s : string) (m : found) :
  In m (run r s) -> s = matched m ++ remains m /\ in_lang r (matched m).
Proof.
  revert s m. induction r as [p| |a IHa b IHb|a IHa b IHb|name r IH]; intros s m H.
  - destruct s as [|c s']; simpl in H; [contradiction|].
    destruct (p c) eqn:E; simpl in H; [|contradiction].
    destruct H as [H|[]]. subst m. simpl. split; [reflexivity|].
    apply in_chr. exact E.
  - destruct H as [H|[]]. subst m. simpl. split; [reflexivity|apply in_eps].
  - simpl in H. apply in_flat_map in H. destruct H as [m1 [H1 H]].
    apply in_map_iff in H. destruct H as [m2 [Hm H2]]. subst m. simpl.
    destruct (IHa _ _ H1) as [E1 L1]. destruct (IHb _ _ H2) as [E2 L2].
    split.
    + rewrite append_assoc, <- E2. exact E1.
    + apply in_seq; assumption.
  - simpl in H. apply in_app_or in H. destruct H as [H|H].
    + destruct (IHa _ _ H) as [E L]. split; [exact E|apply in_alt_l; exact L].
    + destruct (IHb _ _ H) as [E L]. split; [exact E|apply in_alt_r; exact L].
  - simpl in H. apply in_map_iff in H. destruct H as [m' [Hm H]]. subst m. simpl.
    destruct (IH _ _ H) as [E L]. split; [exact E|apply in_group; exact L].
Qed.

(** Every text of the language is found, whatever follows it. *)
Lemma run_complete (r : regex) (x : string) :
  in_lang r x ->
  forall rest, exists m, In m (run r (x ++ rest)) /\ matched m = x /\ remains m = rest.
Proof.
  induction 1 as [p c Hp| |a b x y _ IHx _ IHy|a b x _ IH|a b x _ IH|name r x _ IH];
    intro rest.
  - simpl. rewrite Hp. eexists. split; [left; reflexivity|]. split; reflexivity.
  - simpl. eexists. split; [left; reflexivity|]. split; reflexivity.
  - destruct (IHx (y ++ rest)) as [m1 [H1 [E1 R1]]].
    destruct (IHy rest) as [m2 [H2 [E2 R2]]].
    exists (mk_found (matched m1 ++ matched m2) (groupdict m1 ++ groupdict m2)%list
              (remains m2)).
    split; [|simpl; rewrite E1, E2; split; [reflexivity|exact R2]].
    rewrite append_assoc. simpl. apply in_flat_map. exists m1. split; [exact H1|].
    apply in_map_iff. exists m2. split; [reflexivity|].
    rewrite R1. exact H2.
  - destruct (IH rest) as [m [H [E R]]]. exists m. split; [|split; assumption].
    simpl. apply in_or_app. left. exact H.
  - destruct (IH rest) as [m [H [E R]]]. exists m. split; [|split; assumption].
    simpl. apply in_or_app. right. exact H.
  - destruct (IH rest) as [m [H [E R]]].
    exists (mk_found (matched m) ((name, matched m) :: groupdict m) (remains m)).
    split; [|split; assumption].
    simpl. apply in_map_iff. exists m. split; [reflexivity|exact H].
Qed.

(** Membership in the language, decided by running the matcher. *)
Lemma in_lang_decide (r : regex) (s : string) :
  in_lang r s
  <-> existsb (fun m => String.eqb (remains m) EmptyString) (run r s) = true.
Proof.
  split.
  - intro H. destruct (run_complete r s H EmptyString) as [m [Hin [_ R]]].
    rewrite append_nil_r in Hin. apply existsb_exists. exists m.
    split; [exact Hin|]. rewrite R. reflexivity.
  - intro H. apply existsb_exists in H. destruct H as [m [Hin R]].
    apply String.eqb_eq in R. destruct (run_sound r s m Hin) as [E L].
    rewrite R, append_nil_r in E. rewrite E. exact L.
Qed.

(** ** The timestamp of the timers *)

Lemma int_of_str_modelled (s : string) : int_of_str s <> Unmodelled.
Proof.
  unfold int_of_str.
  match goal with
  | |- context [let '(_, _) := ?p in _] => destruct p as [negative digits]
  end.
  destruct digits as [|c digits]; [discriminate|].
  destruct (is_digit c); [|discriminate].
  destruct (read_digits 0 0 false (c :: digits)) as [[n count]|]; [|discriminate].
  destruct (int_max_str_digits <? count); discriminate.
Qed.

Lemma bind_modelled {A B : Type} (r : result A) (k : A -> result B) :
  r <> Unmodelled -> (forall a, k a <> Unmodelled) -> bind r k <> Unmodelled.
Proof.
  intros Hr Hk. destruct r; simpl; [apply Hk|discriminate|contradiction].
Qed.

Lemma datetime_new_modelled (y m d H M S us : Z) (tz : option Z) :
  datetime_new y m d H M S us tz <> Unmodelled.
Proof. unfold datetime_new. destruct (_ && _); discriminate. Qed.

Lemma timezone_modelled (offset : Z) : timezone offset <> Unmodelled.
Proof. unfold timezone. destruct (_ && _); discriminate. Qed.

Lemma parse_z_modelled (z : string) : parse_z z <> Unmodelled.
Proof.
  unfold parse_z. destruct (String.eqb z "Z"); [discriminate|].
  apply bind_modelled.
  - destruct (char_is z 3 ":"); [|discriminate].
    destruct (5 <? _)%nat; [|discriminate].
    destruct (char_is _ 5 ":"); discriminate.
  - intro z'. apply bind_modelled; [apply int_of_str_modelled|intro hours].
    apply bind_modelled; [apply int_of_str_modelled|intro minutes].
    apply bind_modelled.
    + destruct (slice z' 5 7); [discriminate|apply int_of_str_modelled].
    + intro seconds. apply bind_modelled; [apply int_of_str_modelled|intro fr].
      destruct (char_is z' 0 "-"); discriminate.
Qed.

(** [strptime] always answers: a datetime or an exception. *)
Lemma strptime_str_modelled (s : string) : strptime_str s <> Unmodelled.
Proof.
  unfold strptime_str.
  destruct (run format_regex s) as [|m l]; [discriminate|].
  destruct (remains m); [|discriminate].
  repeat (apply bind_modelled; [apply int_of_str_modelled|intro]).
  apply bind_modelled; [apply parse_z_modelled|intro off].
  apply bind_modelled; [apply datetime_new_modelled|intro].
  apply bind_modelled; [apply timezone_modelled|intro tz].
  apply datetime_new_modelled.
Qed.

Lemma strptime_str_needs_match (s : string) :
  matches_format s = false -> strptime_str s = Raise ValueError.
Proof.
  unfold matches_format, strptime_str.
  destruct (run format_regex s) as [|m l]; [reflexivity|].
  destruct (remains m); [discriminate|reflexivity].
Qed.

(** What [strptime] accepts is in the language of the format. *)
Lemma matches_format_in_lang (s : string) :
  matches_format s = true -> in_lang format_regex s.
Proof.
  unfold matches_format. intro H. apply in_lang_decide.
  destruct (run format_regex s) as [|m l]; [discriminate|].
  simpl. rewrite H. reflexivity.
Qed.

Lemma decode_time_in_car (s : string) :
  from_dict ClimatisationTimersStatus (time_doc (PStr s))
  = match strptime_str s with
    | Ok dt => Ok (timers_status dt)
    | Raise _ =>
        Raise (InvalidFieldValue "time_in_car" "ClimatisationTimersStatus" (PStr s))
    | Unmodelled => Unmodelled
    end.
Proof.
  unfold from_dict, time_doc. cbn -[strptime_str].
  destruct (strptime_str s); reflexivity.
Qed.

(** ** Encoding and decoding again *)

Lemma pack_field_name (attrs : list (string * pyval)) (f : field)
  (a : string * pyval) :
  pack_field attrs f = Ok a -> fst a = f_name f.
Proof.
  unfold pack_field. destruct (dict_get attrs (f_name f)) as [v|]; try discriminate.
  destruct (could_be_none f && is_none v).
  - intro H. injection H as H. subst a. reflexivity.
  - destruct (field_packer f v); simpl; try discriminate.
    intro H. injection H as H. subst a. reflexivity.
Qed.

Lemma no_item_keyed_names (items : list (string * pyval)) (fields : list field)
  (k : string) :
  map fst items = map f_name fields ->
  forallb (fun g => negb (String.eqb (camel2snake (f_name g)) k)) fields = true ->
  no_item_keyed items k = true.
Proof.
  revert fields. induction items as [|[k0 v0] items IH]; intros [|g fields] Hn H;
    simpl in *; try discriminate; try reflexivity.
  injection Hn as Hk Hn. subst k0.
  apply andb_true_iff in H. destruct H as [H0 H].
  rewrite H0. exact (IH fields Hn H).
Qed.

(** The raw value [from_dict] finds for a field in what [to_dict] wrote. *)
Lemma reencoded_value (name : string) (before after : list field) (f : field)
  (s : SerializationStrategy) (attrs items : list (string * pyval)) (v : pyval) :
  under_own_name before f after = true ->
  strategy_field s f ->
  dict_get attrs (f_name f) = Some v ->
  to_dict (Base_dataclass name (before ++ f :: after)) (PObj name attrs)
  = Ok (PDict items) ->
  exists p,
    raw_lookup items (lookup_key f) = Some p
    /\ (if is_none v then Ok PNone else strategy_serialize s v) = Ok p.
Proof.
  intros Hown [Hs [Hd Hdef]] Hv H.
  unfold under_own_name in Hown.
  apply andb_true_iff in Hown. destruct Hown as [Hown Hafter].
  apply andb_true_iff in Hown. destruct Hown as [Hown Hbefore].
  apply andb_true_iff in Hown. destruct Hown as [Halias Hcanon].
  apply String.eqb_eq in Hcanon.
  unfold to_dict in H. simpl in H. rewrite String.eqb_refl in H.
  destruct (map_result _ (before ++ f :: after)) as [its| |] eqn:E;
    simpl in H; try discriminate.
  injection H as H. subst its.
  apply map_result_app_inv in E.
  destruct E as [o1 [[n p] [o2 [E1 [Ef [E2 Hout]]]]]].
  pose proof (pack_field_name _ _ _ Ef) as Hn. simpl in Hn. subst n.
  exists p. split.
  - subst items. unfold lookup_key. destruct (f_alias f); [discriminate|].
    rewrite raw_lookup_app. cbn [raw_lookup].
    rewrite (raw_lookup_none o2 (f_name f)).
    + rewrite Hcanon, String.eqb_refl. reflexivity.
    + apply (no_item_keyed_names o2 after); [|exact Hafter].
      apply (map_result_fst _ f_name after o2 (pack_field_name attrs) E2).
  - unfold pack_field in Ef. rewrite Hv in Ef.
    unfold could_be_none in Ef. rewrite Hdef, orb_true_r in Ef. simpl in Ef.
    unfold field_packer in Ef. rewrite Hs in Ef.
    destruct (is_none v).
    + injection Ef as Ef. subst p. reflexivity.
    + destruct (strategy_serialize s v); simpl in Ef; try discriminate.
      injection Ef as Ef. subst p. reflexivity.
Qed.

(** The five fields of [model.py] that have a strategy meet the side
    conditions of the statement below. *)
Lemma model_strategy_fields :
  (under_own_name (firstn 2 (cls_fields AccessStatus))
     (nth 2 (cls_fields AccessStatus) (attr "" TAny))
     (skipn 3 (cls_fields AccessStatus)) = true
   /\ strategy_field Locked.new (nth 2 (cls_fields AccessStatus) (attr "" TAny)))
  /\ (under_own_name (firstn 1 (cls_fields PlugStatus))
        (nth 1 (cls_fields PlugStatus) (attr "" TAny))
        (skipn 2 (cls_fields PlugStatus)) = true
      /\ strategy_field Locked.new (nth 1 (cls_fields PlugStatus) (attr "" TAny)))
  /\ (under_own_name (firstn 1 (cls_fields ChargingSettings))
        (nth 1 (cls_fields ChargingSettings) (attr "" TAny))
        (skipn 2 (cls_fields ChargingSettings)) = true
      /\ strategy_field OnOff.new (nth 1 (cls_fields ChargingSettings) (attr "" TAny)))
  /\ (under_own_name (firstn 2 (cls_fields ChargingSettings))
        (nth 2 (cls_fields ChargingSettings) (attr "" TAny))
        (skipn 3 (cls_fields ChargingSettings)) = true
      /\ strategy_field OnOff.new (nth 2 (cls_fields ChargingSettings) (attr "" TAny)))
  /\ (under_own_name (firstn 1 (cls_fields ClimatisationStatus))
        (nth 1 (cls_fields ClimatisationStatus) (attr "" TAny))
        (skipn 2 (cls_fields ClimatisationStatus)) = true
      /\ strategy_field OnOff.new (nth 1 (cls_fields ClimatisationStatus) (attr "" TAny))).
Proof. unfold strategy_field. repeat split. Qed.

(** C2 (as amended).  Take a field with the [Locked] or the [OnOff]
    strategy, written and read under its own name, in a record that holds
    [None] or a boolean for it.  [serialize] returns the stored value as it
    is, so [to_dict] writes the boolean and not a status string; when the
    re-encoded record decodes, [None] comes back as [None], and a boolean
    comes back as [False] under [Locked] and as [True] under [OnOff],
    whichever boolean it was.  The value is reproduced exactly for [None],
    for [False] under [Locked] and for [True] under [OnOff]. *)
Theorem strategy_field_reencoded :
  forall (name : string) (before after : list field) (f : field)
         (attrs : list (string * pyval)) (stored : option bool) (record : pyval),
    under_own_name before f after = true ->
    dict_get attrs (f_name f) = Some (opt_bool stored) ->
    reencode_decode (Base_dataclass name (before ++ f :: after)) (PObj name attrs)
    = Ok record ->
    (strategy_field Locked.new f ->
     getattr record (f_name f)
     = Some (match stored with None => PNone | Some _ => PBool false end))
    /\ (strategy_field OnOff.new f ->
        getattr record (f_name f)
        = Some (match stored with None => PNone | Some _ => PBool true end)).
Proof.
  intros name before after f attrs stored record Hown Hv H.
  unfold reencode_decode in H.
  destruct (to_dict _ (PObj name attrs)) as [d| |] eqn:Hto; simpl in H;
    try discriminate.
  assert (Hd : exists items, d = PDict items).
  { unfold to_dict in Hto. simpl in Hto. rewrite String.eqb_refl in Hto.
    destruct (map_result _ _) as [its| |]; simpl in Hto; try discriminate.
    injection Hto as Hto. exists its. symmetry. exact Hto. }
  destruct Hd as [items Hd]. subst d.
  assert (Hbefore :
            forallb (fun g => negb (String.eqb (f_name g) (f_name f))) before = true).
  { unfold under_own_name in Hown.
    apply andb_true_iff in Hown. destruct Hown as [Hown _].
    apply andb_true_iff in Hown. destruct Hown as [_ Hb]. exact Hb. }
  destruct (decoded_attribute name before after f items record Hbefore H)
    as [a [Ha Hget]].
  rewrite Hget.
  split; intro Hsf;
    destruct (reencoded_value name before after f _ attrs items _ Hown Hsf Hv Hto)
      as [p [Hp Hser]];
    destruct Hsf as [Hs [Hd Hdef]];
    rewrite Hp in Ha; unfold set_value, field_unpacker, could_be_none in Ha;
    rewrite Hs, Hd, Hdef, orb_true_r in Ha;
    destruct stored as [b|]; simpl in Hser; injection Hser as Hser; subst p;
    simpl in Ha; injection Ha as Ha; subst a; reflexivity.
Qed.

Lemma strategy_field_reencoded_witness :
  under_own_name (firstn 2 (cls_fields AccessStatus))
    (with_strategy Locked.new (attr_default "door_lock_status" (TOptional TBool) PNone))
    (skipn 3 (cls_fields AccessStatus)) = true
  /\ reencode_decode AccessStatus (access_record (PBool true))
     = Ok (access_record (PBool false))
  /\ getattr (access_record (PBool false)) "door_lock_status" = Some (PBool false).
Proof.
  assert (H : reencode_decode AccessStatus (access_record (PBool true))
              = Ok (access_record (PBool false))) by (vm_compute; reflexivity).
  split; [reflexivity|]. split; [exact H|].
  exact (proj1 (strategy_field_reencoded "AccessStatus"
                  (firstn 2 (cls_fields AccessStatus)) (skipn 3 (cls_fields AccessStatus))
                  (with_strategy Locked.new
                     (attr_default "door_lock_status" (TOptional TBool) PNone))
                  (access_attrs (PBool true)) (Some true)
                  (access_record (PBool false)) eq_refl eq_refl H)
               (conj eq_refl (conj eq_refl eq_refl))).
Defined.

(** C2, the claim as stated fails: a well-typed access status whose
    [door_lock_status] is [True] comes back with [False], and a well-typed
    climatisation status whose [climatisation_state] is [False] comes back
    with [True]. *)
Lemma round_trip_counterexample :
  well_typed AccessStatus (access_record (PBool true)) = true
  /\ reencode_decode AccessStatus (access_record (PBool true))
     = Ok (access_record (PBool false))
  /\ well_typed ClimatisationStatus (climatisation_record (PBool false)) = true
  /\ reencode_decode ClimatisationStatus (climatisation_record (PBool false))
     = Ok (climatisation_record (PBool true)).
Proof. repeat split; vm_compute; reflexivity. Qed.

(** ** The order of the keys, and keys that collide *)

Lemma raw_lookup_found (items : list (string * pyval)) (k : string) (v : pyval) :
  raw_lookup items k = Some v ->
  exists k', In (k', v) items /\ camel2snake k' = k.
Proof.
  induction items as [|[k0 v0] items IH]; simpl; [discriminate|].
  destruct (raw_lookup items k) as [w|].
  - intro H. injection H as H. subst w.
    destruct (IH eq_refl) as [k' [Hin Hk]]. exists k'. split; [right; exact Hin|exact Hk].
  - destruct (String.eqb_spec (camel2snake k0) k) as [E|E]; [|discriminate].
    intro H. injection H as H. subst v0. exists k0. split; [left; reflexivity|exact E].
Qed.

Lemma raw_lookup_member (items : list (string * pyval)) (k : string) (v : pyval) :
  In (k, v) items -> exists w, raw_lookup items (camel2snake k) = Some w.
Proof.
  induction items as [|[k0 v0] items IH]; simpl; [contradiction|].
  intros [H|H].
  - injection H as Hk Hv. subst k0 v0.
    destruct (raw_lookup items (camel2snake k)) as [w|]; [exists w; reflexivity|].
    rewrite String.eqb_refl. exists v. reflexivity.
  - destruct (IH H) as [w Hw]. rewrite Hw. exists w. reflexivity.
Qed.

(** When no two raw keys are rewritten to the same key, a lookup finds
    the one item whose rewritten key is asked for. *)
Lemma raw_lookup_unique (items : list (string * pyval)) (k : string) (v : pyval) :
  NoDup (rewritten_keys items) -> In (k, v) items ->
  raw_lookup items (camel2snake k) = Some v.
Proof.
  induction items as [|[k0 v0] items IH]; simpl; [contradiction|].
  intros Hnd Hin. inversion Hnd as [|x l Hnotin Hnd']; subst.
  destruct Hin as [H|H].
  - injection H as Hk Hv. subst k0 v0.
    destruct (raw_lookup items (camel2snake k)) as [w|] eqn:E.
    + exfalso. apply Hnotin. destruct (raw_lookup_found _ _ _ E) as [k' [Hin Hk]].
      unfold rewritten_keys. apply in_map_iff. exists (k', w). split; [exact Hk|exact Hin].
    + rewrite String.eqb_refl. reflexivity.
  - rewrite (IH Hnd' H). reflexivity.
Qed.

Lemma raw_lookup_permutation (items items' : list (string * pyval)) (k : string) :
  NoDup (rewritten_keys items) -> Permutation items items' ->
  raw_lookup items k = raw_lookup items' k.
Proof.
  intros Hnd Hperm.
  assert (Hnd' : NoDup (rewritten_keys items')).
  { apply (Permutation_NoDup (l := rewritten_keys items)); [|exact Hnd].
    apply Permutation_map. exact Hperm. }
  destruct (raw_lookup items k) as [v|] eqn:E.
  - destruct (raw_lookup_found _ _ _ E) as [k' [Hin Hk]]. subst k.
    symmetry. apply raw_lookup_unique; [exact Hnd'|].
    apply (Permutation_in _ Hperm). exact Hin.
  - destruct (raw_lookup items' k) as [v|] eqn:E'; [|reflexivity].
    destruct (raw_lookup_found _ _ _ E') as [k' [Hin Hk]]. subst k.
    apply (Permutation_in _ (Permutation_sym Hperm)) in Hin.
    rewrite (raw_lookup_unique _ _ _ Hnd Hin) in E. discriminate.
Qed.

(** X1.  The order of the keys of a raw mapping does not matter, as long as
    no two of them are rewritten to the same key: the mapping and any
    reordering of it decode alike, to the same record or the same
    exception. *)
Theorem key_order_irrelevant :
  forall (name : string) (fields : list field) (items items' : list (string * pyval)),
    NoDup (rewritten_keys items) ->
    Permutation items items' ->
    from_dict (Base_dataclass name fields) (PDict items)
    = from_dict (Base_dataclass name fields) (PDict items').
Proof.
  intros name fields items items' Hnd Hperm.
  rewrite !from_dict_Base. f_equal. apply map_result_ext. intros f _.
  rewrite (raw_lookup_permutation items items' _ Hnd Hperm). reflexivity.
Qed.

Lemma key_order_irrelevant_witness :
  from_dict BatteryStatus
    (PDict [("currentSOC_pct", PInt 87); ("cruisingRangeElectricKm", PInt 210)])
  = from_dict BatteryStatus
      (PDict [("cruisingRangeElectricKm", PInt 210); ("currentSOC_pct", PInt 87)]).
Proof.
  apply (key_order_irrelevant "BatteryStatus" (cls_fields BatteryStatus)
           [("currentSOC_pct", PInt 87); ("cruisingRangeElectricKm", PInt 210)]
           [("cruisingRangeElectricKm", PInt 210); ("currentSOC_pct", PInt 87)]).
  - constructor; [|constructor; [intros []|constructor]].
    simpl. intros [H|[]]. discriminate.
  - apply perm_swap.
Defined.

Lemma raw_lookup_present (l1 l2 : list (string * pyval)) (k : string) (v : pyval) :
  exists w, raw_lookup (l1 ++ (k, v) :: l2) (camel2snake k) = Some w.
Proof.
  apply (raw_lookup_member _ k v). apply in_or_app. right. left. reflexivity.
Qed.

(** X2.  When two keys of a raw mapping are rewritten to the same key, the
    earlier one is as good as absent: the value of the later one is the
    one decoded. *)
Theorem later_colliding_key_wins :
  forall (name : string) (fields : list field)
         (before mid after : list (string * pyval)) (k1 k2 : string) (v1 v2 : pyval),
    camel2snake k1 = camel2snake k2 ->
    from_dict (Base_dataclass name fields)
      (PDict (before ++ (k1, v1) :: mid ++ (k2, v2) :: after))
    = from_dict (Base_dataclass name fields)
        (PDict (before ++ mid ++ (k2, v2) :: after)).
Proof.
  intros name fields before mid after k1 k2 v1 v2 Hk.
  rewrite !from_dict_Base. f_equal. apply map_result_ext. intros f _. f_equal.
  rewrite !(raw_lookup_app before). cbn [raw_lookup].
  destruct (raw_lookup (mid ++ (k2, v2) :: after) (lookup_key f)) as [w|] eqn:E;
    [reflexivity|].
  destruct (String.eqb_spec (camel2snake k1) (lookup_key f)) as [E1|E1]; [|reflexivity].
  exfalso. destruct (raw_lookup_present mid after k2 v2) as [w Hw].
  rewrite <- Hk, E1, E in Hw. discriminate.
Qed.

Lemma later_colliding_key_wins_witness :
  camel2snake "carType" = camel2snake "car_type"
  /\ from_dict FuelLevelStatus
       (PDict [("carType", PStr "hybrid"); ("car_type", PStr "electric")])
     = from_dict FuelLevelStatus (PDict [("car_type", PStr "electric")]).
Proof.
  split; [reflexivity|].
  exact (later_colliding_key_wins "FuelLevelStatus" (cls_fields FuelLevelStatus)
           [] [] [] "carType" "car_type" (PStr "hybrid") (PStr "electric") eq_refl).
Defined.

(** X3.  A field that is looked up by a key with a capital letter, be that
    its alias or its own name, is never found, since every key of the
    rewritten mapping is in lower case: in every decoded record it holds
    its default.  The fields of [model.py] this applies to are listed; the
    two of [SingleTimer] have no default. *)
Theorem capital_key_field_keeps_default :
  (forall (name : string) (before after : list field) (f : field) (d : pyval)
          (items : list (string * pyval)) (record : pyval),
     has_upper (lookup_key f) = true ->
     f_default f = Some d ->
     forallb (fun g => negb (String.eqb (f_name g) (f_name f))) before = true ->
     from_dict (Base_dataclass name (before ++ f :: after)) (PDict items) = Ok record ->
     getattr record (f_name f) = Some d)
  /\ capital_keyed_fields
     = [("BatteryStatus", ["current_soc_pct"]);
        ("ChargingStatus", ["remaining"]);
        ("ChargingSettings", ["target_soc_pct"]);
        ("ClimatisationSettings", ["target_temperature_C"; "target_temperature_F"]);
        ("SingleTimer", ["start"; "target"])].
Proof.
  split; [|reflexivity].
  intros name before after f d items record Hcap Hdef Hb H.
  destruct (decoded_attribute name before after f items record Hb H) as [a [Ha Hget]].
  rewrite (capital_key_never_found items _ Hcap) in Ha.
  simpl in Ha. rewrite Hdef in Ha. injection Ha as Ha. subst a. exact Hget.
Qed.

Lemma capital_key_field_keeps_default_witness :
  from_dict ClimatisationSettings (PDict [("targetTemperature_C", PInt 21)])
  = Ok (PObj "ClimatisationSettings"
          (map (fun f => (f_name f, PNone)) (cls_fields ClimatisationSettings)))
  /\ getattr (PObj "ClimatisationSettings"
                (map (fun f => (f_name f, PNone)) (cls_fields ClimatisationSettings)))
       "target_temperature_C" = Some PNone.
Proof.
  assert (H : from_dict ClimatisationSettings
                (PDict [("targetTemperature_C", PInt 21)])
              = Ok (PObj "ClimatisationSettings"
                      (map (fun f => (f_name f, PNone))
                         (cls_fields ClimatisationSettings))))
    by (vm_compute; reflexivity).
  split; [exact H|].
  exact (proj1 capital_key_field_keeps_default "ClimatisationSettings" []
           (tl (cls_fields ClimatisationSettings))
           (attr_default "target_temperature_C" (TOptional TInt) PNone) PNone
           [("targetTemperature_C", PInt 21)] _ eq_refl eq_refl eq_refl H).
Defined.

(** ** The mapping the hook returns *)

Lemma dict_set_keys (d : list (string * pyval)) (k : string) (v : pyval) :
  map fst (dict_set d k v)
  = if existsb (String.eqb k) (map fst d) then map fst d else (map fst d ++ [k])%list.
Proof.
  induction d as [|[k0 v0] d IH]; simpl; [reflexivity|].
  rewrite (String.eqb_sym k k0).
  destruct (String.eqb k0 k); simpl; [reflexivity|].
  rewrite IH. destruct (existsb (String.eqb k) (map fst d)); reflexivity.
Qed.

Lemma existsb_eqb_In (k : string) (l : list string) :
  existsb (String.eqb k) l = true <-> In k l.
Proof.
  rewrite existsb_exists. split.
  - intros [x [Hin E]]. apply String.eqb_eq in E. subst x. exact Hin.
  - intro H. exists k. split; [exact H|apply String.eqb_refl].
Qed.

(** An assignment keeps the keys of a [dict] distinct. *)
Lemma dict_set_NoDup (d : list (string * pyval)) (k : string) (v : pyval) :
  NoDup (map fst d) -> NoDup (map fst (dict_set d k v)).
Proof.
  intro H. rewrite dict_set_keys.
  destruct (existsb (String.eqb k) (map fst d)) eqn:E; [exact H|].
  apply NoDup_app; [exact H|constructor; [intros []|constructor]|].
  intros x Hx [Hk|[]]. subst x. apply existsb_eqb_In in Hx. rewrite Hx in E. discriminate.
Qed.

Lemma dict_set_fresh (d : list (string * pyval)) (k : string) (v : pyval) :
  ~ In k (map fst d) -> dict_set d k v = (d ++ [(k, v)])%list.
Proof.
  induction d as [|[k0 v0] d IH]; simpl; intro H; [reflexivity|].
  destruct (String.eqb_spec k0 k) as [E|E].
  - exfalso. apply H. left. exact E.
  - rewrite IH; [reflexivity|]. intro Hin. apply H. right. exact Hin.
Qed.

Lemma dict_set_length (d : list (string * pyval)) (k : string) (v : pyval) :
  (List.length (dict_set d k v) <= S (List.length d))%nat.
Proof.
  induction d as [|[k0 v0] d IH]; simpl; [lia|].
  destruct (String.eqb k0 k); simpl; lia.
Qed.

Section Comprehension.
Variable key : string -> string.

Lemma fold_dict_set_NoDup (items acc : list (string * pyval)) :
  NoDup (map fst acc) ->
  NoDup (map fst (fold_left (fun a kv => dict_set a (key (fst kv)) (snd kv)) items acc)).
Proof.
  revert acc. induction items as [|[k v] items IH]; intros acc H; simpl; [exact H|].
  apply IH. apply dict_set_NoDup. exact H.
Qed.

Lemma fold_dict_set_keys (items acc : list (string * pyval)) (k : string) :
  In k (map fst (fold_left (fun a kv => dict_set a (key (fst kv)) (snd kv)) items acc)) ->
  In k (map fst acc) \/ In k (map key (map fst items)).
Proof.
  revert acc. induction items as [|[k0 v0] items IH]; intros acc H; simpl in *.
  - left. exact H.
  - destruct (IH _ H) as [H1|H1]; [|right; right; exact H1].
    rewrite dict_set_keys in H1.
    destruct (existsb (String.eqb (key k0)) (map fst acc)); [left; exact H1|].
    apply in_app_or in H1. destruct H1 as [H1|[H1|[]]]; [left; exact H1|].
    right. left. exact H1.
Qed.

Lemma fold_dict_set_length (items acc : list (string * pyval)) :
  (List.length (fold_left (fun a kv => dict_set a (key (fst kv)) (snd kv)) items acc)
   <= List.length acc + List.length items)%nat.
Proof.
  revert acc. induction items as [|[k0 v0] items IH]; intro acc; simpl; [lia|].
  specialize (IH (dict_set acc (key k0) v0)).
  pose proof (dict_set_length acc (key k0) v0). lia.
Qed.

(** A comprehension over items with distinct keys that [key] leaves
    alone copies them. *)
Lemma fold_dict_set_fixed (items acc : list (string * pyval)) :
  NoDup (map fst (acc ++ items)) ->
  (forall k, In k (map fst items) -> key k = k) ->
  fold_left (fun a kv => dict_set a (key (fst kv)) (snd kv)) items acc
  = (acc ++ items)%list.
Proof.
  revert acc. induction items as [|[k v] items IH]; intros acc Hnd Hfix; simpl.
  - rewrite app_nil_r. reflexivity.
  - rewrite (Hfix k (or_introl eq_refl)).
    rewrite dict_set_fresh.
    + rewrite IH.
      * rewrite <- app_assoc. reflexivity.
      * rewrite <- app_assoc. exact Hnd.
      * intros k' Hk'. apply Hfix. right. exact Hk'.
    + rewrite map_app in Hnd. simpl in Hnd.
      apply NoDup_remove_2 in Hnd. intro Hin. apply Hnd. apply in_or_app. left. exact Hin.
Qed.

End Comprehension.

Lemma has_upper_fixed (k : string) : has_upper k = false -> camel2snake k = k.
Proof.
  destruct k as [|c s]; simpl; [reflexivity|]. intro H.
  apply orb_false_iff in H. destruct H as [Hc Hs].
  unfold to_lower. rewrite Hc, (snake_from_fixes_lower c s Hs). reflexivity.
Qed.

Lemma dict_get_In (d : list (string * pyval)) (k : string) (v : pyval) :
  NoDup (map fst d) -> In (k, v) d -> dict_get d k = Some v.
Proof.
  induction d as [|[k0 v0] d IH]; simpl; [contradiction|].
  intros Hnd Hin. inversion Hnd as [|x l Hnotin Hnd']; subst.
  destruct Hin as [H|H].
  - injection H as Hk Hv. subst k0 v0. rewrite String.eqb_refl. reflexivity.
  - destruct (String.eqb_spec k0 k) as [E|E].
    + exfalso. subst k0. apply Hnotin. apply in_map_iff. exists (k, v). auto.
    + exact (IH Hnd' H).
Qed.

(** X4.  The mapping [Base.__pre_deserialize__] returns for a raw mapping
    has pairwise distinct keys, none with a capital letter, and no more
    items than the raw mapping; each of its items holds the value of a raw
    item whose key is rewritten to its key; the hook leaves it as it is
    when applied again, so it decodes as the raw mapping does. *)
Theorem pre_deserialize_normal_form :
  forall items : list (string * pyval),
    exists out,
      Base.__pre_deserialize__ (PDict items) = PDict out
      /\ NoDup (map fst out)
      /\ forallb (fun kv => negb (has_upper (fst kv))) out = true
      /\ (List.length out <= List.length items)%nat
      /\ (forall (k : string) (v : pyval),
            In (k, v) out -> exists k', In (k', v) items /\ camel2snake k' = k)
      /\ Base.__pre_deserialize__ (PDict out) = PDict out
      /\ (forall (name : string) (fields : list field),
            from_dict (Base_dataclass name fields) (PDict out)
            = from_dict (Base_dataclass name fields) (PDict items)).
Proof.
  intro items. exists (dict_comprehension camel2snake items).
  assert (Hnd : NoDup (map fst (dict_comprehension camel2snake items))).
  { apply fold_dict_set_NoDup. constructor. }
  assert (Hlow : forall k, In k (map fst (dict_comprehension camel2snake items)) ->
                           has_upper k = false).
  { intros k Hk. apply fold_dict_set_keys in Hk. destruct Hk as [[]|Hk].
    apply in_map_iff in Hk. destruct Hk as [k0 [Hk _]]. subst k.
    apply camel2snake_lower. }
  assert (Hfix : dict_comprehension camel2snake (dict_comprehension camel2snake items)
                 = dict_comprehension camel2snake items).
  { unfold dict_comprehension at 1.
    rewrite fold_dict_set_fixed; [reflexivity|exact Hnd|].
    intros k Hk. apply has_upper_fixed. apply Hlow. exact Hk. }
  split; [reflexivity|]. split; [exact Hnd|]. split; [|split; [|split; [|split]]].
  - apply forallb_forall. intros [k v] Hin. simpl. apply negb_true_iff.
    apply Hlow. apply in_map_iff. exists (k, v). split; [reflexivity|exact Hin].
  - exact (fold_dict_set_length camel2snake items []).
  - intros k v Hin. apply raw_lookup_found.
    rewrite <- dict_get_normalized. exact (dict_get_In _ k v Hnd Hin).
  - simpl. rewrite Hfix. reflexivity.
  - intros name fields. unfold from_dict. simpl. rewrite Hfix. reflexivity.
Qed.

(** ** Failures, and the shape of what is returned *)

Lemma map_result_Raise_inv {A B : Type} (g : A -> result B) (l : list A) (e : exn) :
  map_result g l = Raise e -> exists x, In x l /\ g x = Raise e.
Proof.
  induction l as [|x l IH]; simpl; [discriminate|].
  destruct (g x) as [y|e0|] eqn:E; simpl; try discriminate.
  - destruct (map_result g l) as [ys|e1|]; simpl; try discriminate.
    intro H. injection H as H. subst e1.
    destruct (IH eq_refl) as [x' [Hin Hx']]. exists x'. split; [right; exact Hin|exact Hx'].
  - intro H. injection H as H. subst e0. exists x. split; [left; reflexivity|exact E].
Qed.

Lemma from_dict_Raise_inv (name : string) (fields : list field)
  (items : list (string * pyval)) (e : exn) :
  from_dict (Base_dataclass name fields) (PDict items) = Raise e ->
  field_error name fields items e.
Proof.
  intro H. rewrite from_dict_Base in H.
  destruct (map_result _ fields) as [attrs|e0|] eqn:E; simpl in H; try discriminate.
  injection H as H. subst e0.
  apply map_result_Raise_inv in E. destruct E as [f [Hin Hf]].
  exists f. split; [exact Hin|].
  unfold set_value in Hf.
  destruct (raw_lookup items (lookup_key f)) as [v|].
  - right. exists v.
    destruct (could_be_none f && is_none v); [discriminate|].
    destruct (field_unpacker f v) as [w|e'|]; try discriminate.
    injection Hf as Hf. subst e. repeat split; try reflexivity. exists e'. reflexivity.
  - left. destruct (f_default f); [discriminate|].
    injection Hf as Hf. subst e. repeat split.
Qed.

(** X5.  Decoding fails in three ways only, each naming the class: on a
    document that is not a mapping; with [MissingField], naming a declared
    field that has no default and to whose lookup key no raw key is
    rewritten; with [InvalidFieldValue], naming a declared field whose
    converter raises on the value found for it, and carrying that value.
    No exception of a converter gets out as it is. *)
Theorem from_dict_raises_field_errors :
  forall (name : string) (fields : list field) (d : pyval) (e : exn),
    from_dict (Base_dataclass name fields) d = Raise e ->
    (is_dict d = false /\ e = NotADict name)
    \/ (exists items, d = PDict items /\ field_error name fields items e).
Proof.
  intros name fields d e H.
  destruct d as [| | | | | |items| |];
    try (left; split; [reflexivity|]; cbn in H; injection H as H; symmetry; exact H).
  right. exists items. split; [reflexivity|].
  exact (from_dict_Raise_inv name fields items e H).
Qed.

Lemma from_dict_raises_field_errors_witness :
  from_dict Timer timer_doc = Raise (InvalidFieldValue "id" "Timer" (PStr "abc"))
  /\ ((is_dict timer_doc = false
       /\ InvalidFieldValue "id" "Timer" (PStr "abc") = NotADict "Timer")
      \/ (exists items,
            timer_doc = PDict items
            /\ field_error "Timer" (cls_fields Timer) items
                 (InvalidFieldValue "id" "Timer" (PStr "abc")))).
Proof.
  split; [reflexivity|].
  exact (from_dict_raises_field_errors "Timer" (cls_fields Timer) timer_doc
           (InvalidFieldValue "id" "Timer" (PStr "abc")) eq_refl).
Defined.

(** X6.  Decoding a mapping as the aggregate [Model] fails in one way only:
    [InvalidFieldValue] naming a sub-resource field of [Model] and carrying
    the raw value found under that name, a value that is not [None] and
    that the class of the sub-resource does not decode.  A field missing or
    malformed deep inside a sub-resource is reported under the name of the
    sub-resource. *)
Theorem Model_raises_only_invalid_field_value :
  forall (items : list (string * pyval)) (e : exn),
    from_dict Model (PDict items) = Raise e ->
    exists f v,
      In f (cls_fields Model)
      /\ e = InvalidFieldValue (f_name f) "Model" v
      /\ raw_lookup items (f_name f) = Some v
      /\ is_none v = false
      /\ exists e', unpack (f_type f) v = Raise e'.
Proof.
  intros items e H.
  destruct (from_dict_Raise_inv "Model" (cls_fields Model) items e H)
    as [f [Hin [[_ [Hdef _]]|[v [He [Hv [Hnn [e' He']]]]]]]].
  - exfalso. simpl in Hin.
    repeat (destruct Hin as [Hin|Hin]; [subst f; discriminate|]). contradiction.
  - exists f, v. destruct (Model_field_plain f Hin) as [Hd [Hs Hc]].
    unfold field_unpacker in He'. rewrite Hd, Hs in He'.
    rewrite Hc in Hnn. simpl in Hnn.
    assert (Hkey : lookup_key f = f_name f).
    { simpl in Hin.
      repeat (destruct Hin as [Hin|Hin]; [subst f; reflexivity|]). contradiction. }
    rewrite Hkey in Hv. repeat split; try assumption. exists e'. exact He'.
Qed.

Lemma Model_raises_only_invalid_field_value_witness :
  from_dict Model (PDict [("access", PDict [("accessStatus", PDict [])])])
  = Raise (InvalidFieldValue "access" "Model" (PDict [("accessStatus", PDict [])]))
  /\ from_dict AccessStatus (PDict [])
     = Raise (MissingField "car_captured_timestamp" "AccessStatus")
  /\ exists f v,
       In f (cls_fields Model)
       /\ InvalidFieldValue "access" "Model" (PDict [("accessStatus", PDict [])])
          = InvalidFieldValue (f_name f) "Model" v
       /\ raw_lookup [("access", PDict [("accessStatus", PDict [])])] (f_name f) = Some v
       /\ is_none v = false
       /\ exists e', unpack (f_type f) v = Raise e'.
Proof.
  split; [reflexivity|]. split; [reflexivity|].
  exact (Model_raises_only_invalid_field_value
           [("access", PDict [("accessStatus", PDict [])])]
           (InvalidFieldValue "access" "Model" (PDict [("accessStatus", PDict [])]))
           eq_refl).
Defined.

(** X7.  Whatever the document, a decoded record is an instance of the
    class asked for with exactly the declared fields, in declaration order;
    and what [to_dict] writes for it has exactly the field names as keys,
    in that order: never an alias, never a key of the raw document. *)
Theorem decoded_record_shape :
  forall (name : string) (fields : list field) (d record : pyval),
    from_dict (Base_dataclass name fields) d = Ok record ->
    (exists items attrs,
       d = PDict items /\ record = PObj name attrs
       /\ map fst attrs = map f_name fields)
    /\ (forall out, to_dict (Base_dataclass name fields) record = Ok out ->
        exists items', out = PDict items' /\ map fst items' = map f_name fields).
Proof.
  intros name fields d record H.
  assert (Hshape : exists items attrs,
             d = PDict items /\ record = PObj name attrs
             /\ map fst attrs = map f_name fields).
  { destruct d as [| | | | | |items| |]; try discriminate.
    rewrite from_dict_Base in H.
    destruct (map_result _ fields) as [attrs| |] eqn:E; simpl in H; try discriminate.
    injection H as H. exists items, attrs. repeat split; [symmetry; exact H|].
    apply (map_result_fst _ f_name fields attrs
             (fun x y => set_value_name name x _ y) E). }
  split; [exact Hshape|].
  destruct Hshape as [items [attrs [_ [Hr _]]]]. subst record.
  intros out Hout. unfold to_dict in Hout. simpl in Hout.
  rewrite String.eqb_refl in Hout.
  destruct (map_result _ fields) as [items'| |] eqn:E; simpl in Hout; try discriminate.
  injection Hout as Hout. exists items'. split; [symmetry; exact Hout|].
  apply (map_result_fst _ f_name fields items' (pack_field_name attrs) E).
Qed.

Lemma decoded_record_shape_witness :
  from_dict BatteryStatus battery_doc
  = Ok (PObj "BatteryStatus"
          [("current_soc_pct", PNone); ("cruising_range_electric_km", PInt 210)])
  /\ to_dict BatteryStatus
       (PObj "BatteryStatus"
          [("current_soc_pct", PNone); ("cruising_range_electric_km", PInt 210)])
     = Ok (PDict [("current_soc_pct", PNone); ("cruising_range_electric_km", PInt 210)])
  /\ exists items',
       PDict [("current_soc_pct", PNone); ("cruising_range_electric_km", PInt 210)]
       = PDict items'
       /\ map fst items' = map f_name (cls_fields BatteryStatus).
Proof.
  split; [reflexivity|]. split; [reflexivity|].
  exact (proj2 (decoded_record_shape "BatteryStatus" (cls_fields BatteryStatus)
                  battery_doc
                  (PObj "BatteryStatus"
                     [("current_soc_pct", PNone);
                      ("cruising_range_electric_km", PInt 210)]) eq_refl)
               (PDict [("current_soc_pct", PNone);
                       ("cruising_range_electric_km", PInt 210)]) eq_refl).
Defined.

(** ** Truth values and texts *)



(** X9.  A field annotated with a class [S], optional or not, holds what
    [S.from_dict] returns for the raw value found for it, when that value
    is not [None]: a nested document is decoded by its own class, with the
    key rewriting of that class applied to its own keys. *)
Theorem nested_record_decoded_by_its_class :
  forall (name : string) (before after : list field) (f : field) (S : dataclass)
         (items : list (string * pyval)) (v record : pyval),
    f_type f = TOptional (class_type S) \/ f_type f = class_type S ->
    plain_field f = true ->
    forallb (fun g => negb (String.eqb (f_name g) (f_name f))) before = true ->
    raw_lookup items (lookup_key f) = Some v ->
    is_none v = false ->
    from_dict (Base_dataclass name (before ++ f :: after)) (PDict items) = Ok record ->
    exists inner,
      from_dict S v = Ok inner /\ getattr record (f_name f) = Some inner.
Proof.
  intros name before after f S items v record Hty Hplain Hb Hv Hnn H.
  destruct (decoded_attribute name before after f items record Hb H) as [a [Ha Hget]].
  rewrite Hv in Ha. unfold set_value, field_unpacker in Ha.
  unfold plain_field in Hplain.
  destruct (f_deserialize f); [discriminate|]. destruct (f_strategy f); [discriminate|].
  rewrite Hnn, andb_false_r in Ha.
  assert (Hu : unpack (f_type f) v = from_dict S v).
  { destruct Hty as [Hty|Hty]; rewrite Hty; simpl; [rewrite Hnn|]; reflexivity. }
  rewrite Hu in Ha. destruct (from_dict S v) as [inner| |]; try discriminate.
  injection Ha as Ha. subst a. exists inner. split; [reflexivity|exact Hget].
Qed.

Lemma nested_record_decoded_by_its_class_witness :
  from_dict Access
    (PDict [("accessStatus",
             PDict [("carCapturedTimestamp", PStr "2023-05-01T12:00:00+02:00");
                    ("overallStatus", PStr "safe")])])
  = Ok (PObj "Access" [("access_status", access_record PNone)])
  /\ exists inner,
       from_dict AccessStatus
         (PDict [("carCapturedTimestamp", PStr "2023-05-01T12:00:00+02:00");
                 ("overallStatus", PStr "safe")])
       = Ok inner
       /\ getattr (PObj "Access" [("access_status", access_record PNone)])
            "access_status" = Some inner.
Proof.
  assert (H : from_dict Access
                (PDict [("accessStatus",
                         PDict [("carCapturedTimestamp",
                                 PStr "2023-05-01T12:00:00+02:00");
                                ("overallStatus", PStr "safe")])])
              = Ok (PObj "Access" [("access_status", access_record PNone)]))
    by (vm_compute; reflexivity).
  split; [exact H|].
  exact (nested_record_decoded_by_its_class "Access" [] []
           (attr_default "access_status" (TOptional (class_type AccessStatus)) PNone)
           AccessStatus
           [("accessStatus",
             PDict [("carCapturedTimestamp", PStr "2023-05-01T12:00:00+02:00");
                    ("overallStatus", PStr "safe")])]
           (PDict [("carCapturedTimestamp", PStr "2023-05-01T12:00:00+02:00");
                   ("overallStatus", PStr "safe")])
           (PObj "Access" [("access_status", access_record PNone)])
           (or_introl eq_refl) eq_refl eq_refl eq_refl eq_refl H).
Defined.

Lemma unpack_any_items (items : list (string * pyval)) :
  map_result (fun kv => v <- unpack TAny (snd kv) ;; Ok (fst kv, v)) items = Ok items.
Proof.
  induction items as [|[k v] items IH]; simpl; [reflexivity|].
  simpl in IH. rewrite IH. reflexivity.
Qed.

Lemma unpack_mapping (x : pyval) :
  unpack (TDict TAny) x = if is_dict x then Ok x else Raise AttributeError.
Proof.
  destruct x; try reflexivity. cbn [unpack is_dict]. rewrite unpack_any_items.
  reflexivity.
Qed.

(** A list of mappings comes out as it went in; a list with another
    element in it raises. *)
Lemma unpack_list_of_mappings (l : list pyval) :
  map_result (unpack (TDict TAny)) l
  = if forallb is_dict l then Ok l else Raise AttributeError.
Proof.
  induction l as [|x l IH]; [reflexivity|].
  cbn [map_result forallb]. rewrite unpack_mapping, IH.
  destruct (is_dict x); [|reflexivity].
  destruct (forallb is_dict l); reflexivity.
Qed.

(** X10.  A value annotated [list[dict[str, Any]]] is kept as it is: a list
    of mappings decodes to the same list, the keys of the mappings
    unchanged, since only the keys of a mapping decoded as a class are
    rewritten; a list that holds anything but mappings is refused with
    [InvalidFieldValue]. *)
Theorem free_form_mappings_kept :
  forall (items : list (string * pyval)) (l : list pyval),
    raw_lookup items "capabilities_status" = Some (PList l) ->
    from_dict UserCapabilities (PDict items)
    = if forallb is_dict l
      then Ok (PObj "UserCapabilities" [("capabilities_status", PList l)])
      else Raise (InvalidFieldValue "capabilities_status" "UserCapabilities" (PList l)).
Proof.
  intros items l Hv. unfold UserCapabilities. rewrite from_dict_Base.
  cbn [map_result]. change (lookup_key _) with "capabilities_status". rewrite Hv.
  unfold set_value.
  cbn [could_be_none attr_default f_type f_default is_optional orb andb is_none
       field_unpacker f_deserialize f_strategy f_name].
  change (unpack (TOptional (TList (TDict TAny))) (PList l))
    with (l' <- map_result (unpack (TDict TAny)) l ;; Ok (PList l')).
  rewrite unpack_list_of_mappings. destruct (forallb is_dict l); reflexivity.
Qed.

Lemma free_form_mappings_kept_witness :
  from_dict UserCapabilities
    (PDict [("capabilitiesStatus", PList [PDict [("userDisablingAllowed", PBool true)]])])
  = Ok (PObj "UserCapabilities"
          [("capabilities_status", PList [PDict [("userDisablingAllowed", PBool true)]])]).
Proof.
  exact (free_form_mappings_kept
           [("capabilitiesStatus", PList [PDict [("userDisablingAllowed", PBool true)]])]
           [PDict [("userDisablingAllowed", PBool true)]] eq_refl).
Defined.

Lemma unpack_strings (l : list ascii) :
  map_result (unpack TStr) (map (fun c => PStr (String c EmptyString)) l)
  = Ok (map (fun c => PStr (String c EmptyString)) l).
Proof.
  induction l as [|x l IH]; simpl; [reflexivity|]. simpl in IH. rewrite IH. reflexivity.
Qed.

(** X11.  A string given for [available_charge_modes], annotated
    [list[str]], is not refused: the comprehension iterates over it, and
    the field comes to hold the list of its characters. *)
Theorem string_for_list_is_split :
  forall (items : list (string * pyval)) (s : string) (record : pyval),
    raw_lookup items "available_charge_modes" = Some (PStr s) ->
    from_dict ChargeMode (PDict items) = Ok record ->
    getattr record "available_charge_modes"
    = Some (PList (map (fun c => PStr (String c EmptyString)) (chars s))).
Proof.
  intros items s record Hv H.
  destruct (decoded_attribute "ChargeMode" (firstn 1 (cls_fields ChargeMode)) []
              (attr_default "available_charge_modes" (TOptional (TList TStr)) PNone)
              items record eq_refl H) as [a [Ha Hget]].
  change (getattr record "available_charge_modes" = Some a) in Hget. rewrite Hget.
  change (lookup_key _) with "available_charge_modes" in Ha. rewrite Hv in Ha.
  unfold set_value in Ha.
  cbn [could_be_none attr_default f_type f_default is_optional orb andb is_none
       field_unpacker f_deserialize f_strategy f_name] in Ha.
  change (unpack (TOptional (TList TStr)) (PStr s))
    with (l' <- map_result (unpack TStr)
                  (map (fun c => PStr (String c EmptyString)) (chars s)) ;;
          Ok (PList l')) in Ha.
  rewrite unpack_strings in Ha. cbn [bind] in Ha.
  injection Ha as Ha. subst a. reflexivity.
Qed.

Lemma string_for_list_is_split_witness :
  from_dict ChargeMode (PDict [("availableChargeModes", PStr "ac")])
  = Ok (PObj "ChargeMode"
          [("preferred_charge_mode", PNone);
           ("available_charge_modes", PList [PStr "a"; PStr "c"])])
  /\ getattr (PObj "ChargeMode"
                [("preferred_charge_mode", PNone);
                 ("available_charge_modes", PList [PStr "a"; PStr "c"])])
       "available_charge_modes"
     = Some (PList (map (fun c => PStr (String c EmptyString)) (chars "ac"))).
Proof.
  split; [reflexivity|].
  exact (string_for_list_is_split [("availableChargeModes", PStr "ac")] "ac"
           (PObj "ChargeMode"
              [("preferred_charge_mode", PNone);
               ("available_charge_modes", PList [PStr "a"; PStr "c"])])
           eq_refl eq_refl).
Defined.

(** X12.  [ChargingStatus.charging_state] and
    [PlugStatus.plug_connection_state] are decoded by an equality test: a
    raw value that is not [None] gives [True] when it is the string
    ["charging"], respectively ["connected"], and [False] otherwise, be it
    another string or no string at all; [None] stays [None].  The second
    field is annotated [int | None] and never comes to hold any other
    [int]. *)
Theorem equality_coercions :
  forall (items : list (string * pyval)) (v record : pyval),
    (raw_lookup items "charging_state" = Some v ->
     from_dict ChargingStatus (PDict items) = Ok record ->
     getattr record "charging_state" = Some (equals_literal "charging" v))
    /\ (raw_lookup items "plug_connection_state" = Some v ->
        from_dict PlugStatus (PDict items) = Ok record ->
        getattr record "plug_connection_state" = Some (equals_literal "connected" v)).
Proof.
  intros items v record. split; intros Hv H.
  - destruct (decoded_attribute "ChargingStatus" (firstn 1 (cls_fields ChargingStatus))
                (skipn 2 (cls_fields ChargingStatus))
                (with_deserialize (fun x => Ok (PBool (py_eq_str x "charging")))
                   (attr_default "charging_state" (TOptional TBool) PNone))
                items record eq_refl H) as [a [Ha Hget]].
    change (getattr record "charging_state" = Some a) in Hget. rewrite Hget.
    change (lookup_key _) with "charging_state" in Ha. rewrite Hv in Ha.
    unfold equals_literal. destruct v; cbn in Ha; injection Ha as Ha; subst a; reflexivity.
  - destruct (decoded_attribute "PlugStatus" [] (skipn 1 (cls_fields PlugStatus))
                (with_deserialize (fun x => Ok (PBool (py_eq_str x "connected")))
                   (attr_default "plug_connection_state" (TOptional TInt) PNone))
                items record eq_refl H) as [a [Ha Hget]].
    change (getattr record "plug_connection_state" = Some a) in Hget. rewrite Hget.
    change (lookup_key _) with "plug_connection_state" in Ha. rewrite Hv in Ha.
    unfold equals_literal. destruct v; cbn in Ha; injection Ha as Ha; subst a; reflexivity.
Qed.

Lemma equality_coercions_witness :
  from_dict ChargingStatus (PDict [("chargingState", PStr "charging")])
  = Ok (charging_record (PBool true))
  /\ getattr (charging_record (PBool true)) "charging_state"
     = Some (equals_literal "charging" (PStr "charging")).
Proof.
  split; [reflexivity|].
  exact (proj1 (equality_coercions [("chargingState", PStr "charging")]
                  (PStr "charging") (charging_record (PBool true)))
               eq_refl eq_refl).
Defined.

(** ** Timers *)

Lemma SingleTimer_raises (v : pyval) : exists e, from_dict SingleTimer v = Raise e.
Proof.
  destruct v as [| | | | | |items| |]; try (eexists; reflexivity).
  rewrite SingleTimer_never_decodes. eexists. reflexivity.
Qed.

Lemma trunc_float_modelled (f : spec_float) : trunc_float f <> Unmodelled.
Proof. destruct f; discriminate. Qed.

Lemma py_int_modelled (v : pyval) : py_int v <> Unmodelled.
Proof.
  destruct v; simpl; try discriminate.
  - apply bind_modelled; [apply trunc_float_modelled|discriminate].
  - apply bind_modelled; [apply int_of_str_modelled|discriminate].
Qed.

Lemma Timer_raises (v : pyval) : exists e, from_dict Timer v = Raise e.
Proof.
  destruct v as [| | | | | |items| |]; try (eexists; reflexivity).
  unfold Timer. rewrite from_dict_Base. cbn [map_result].
  change (lookup_key (attr "id" TInt)) with "id".
  change (lookup_key (attr "enabled" TBool)) with "enabled".
  change (lookup_key (attr "single_timer" (class_type SingleTimer))) with "single_timer".
  destruct (raw_lookup items "id") as [i|]; [|eexists; reflexivity].
  unfold set_value at 1.
  cbn [could_be_none attr f_type f_default is_optional orb andb
       field_unpacker f_deserialize f_strategy unpack f_name].
  pose proof (py_int_modelled i) as Hi.
  destruct (py_int i) as [n|e|]; [|eexists; reflexivity|contradiction].
  cbn [bind].
  destruct (raw_lookup items "enabled") as [b|]; [|eexists; reflexivity].
  unfold set_value at 1.
  cbn [could_be_none attr f_type f_default is_optional orb andb
       field_unpacker f_deserialize f_strategy unpack f_name bind].
  destruct (raw_lookup items "single_timer") as [t|]; [|eexists; reflexivity].
  unfold set_value.
  cbn [could_be_none attr f_type f_default is_optional orb andb
       field_unpacker f_deserialize f_strategy unpack f_name class_type].
  destruct (SingleTimer_raises t) as [e He]. rewrite He. eexists. reflexivity.
Qed.

(** X13.  [SingleTimer.from_dict] and [Timer.from_dict] raise on every
    argument.  The two fields of [SingleTimer] are required and are looked
    up by aliases with capital letters, which no rewritten key equals; and
    [Timer] requires a [SingleTimer]. *)
Theorem timer_records_never_decode :
  forall v : pyval,
    (exists e, from_dict SingleTimer v = Raise e)
    /\ (exists e, from_dict Timer v = Raise e).
Proof.
  intro v. split; [apply SingleTimer_raises|apply Timer_raises].
Qed.

Lemma unpack_timers (v : pyval) (out : pyval) :
  unpack (TList (class_type Timer)) v = Ok out -> out = PList [].
Proof.
  cbn [unpack]. destruct (py_iter v) as [l| |]; simpl; try discriminate.
  destruct l as [|x l].
  - simpl. intro H. injection H as H. symmetry. exact H.
  - cbn [map_result]. cbn [class_type unpack].
    destruct (Timer_raises x) as [e He]. rewrite He. discriminate.
Qed.

Lemma decoded_timers (items : list (string * pyval)) (n : string) (ts : pyval) :
  set_value "ClimatisationTimersStatus"
    (attr_default "timers" (TOptional (TList (class_type Timer))) PNone)
    (raw_lookup items "timers") = Ok (n, ts) ->
  ts = PNone \/ ts = PList [].
Proof.
  unfold set_value.
  cbn [could_be_none attr_default f_type f_default is_optional orb andb
       field_unpacker f_deserialize f_strategy f_name].
  destruct (raw_lookup items "timers") as [v|].
  - destruct (is_none v) eqn:En.
    + intro H. injection H as _ H. left. symmetry. exact H.
    + change (unpack (TOptional (TList (class_type Timer))) v)
        with (if is_none v then Ok PNone else unpack (TList (class_type Timer)) v).
      rewrite En.
      destruct (unpack (TList (class_type Timer)) v) as [out| |] eqn:E; try discriminate.
      apply unpack_timers in E. subst out.
      intro H. injection H as _ H. right. symmetry. exact H.
  - intro H. injection H as _ H. left. symmetry. exact H.
Qed.

(** X14.  No decoded [ClimatisationTimersStatus] holds a timer: its
    [timers] is [None] or the empty list.  A raw list with a timer in it
    makes the decoding of the whole status raise. *)
Theorem decoded_timers_are_empty :
  forall (items : list (string * pyval)) (record : pyval),
    from_dict ClimatisationTimersStatus (PDict items) = Ok record ->
    getattr record "timers" = Some PNone \/ getattr record "timers" = Some (PList []).
Proof.
  intros items record H.
  destruct (decoded_attribute "ClimatisationTimersStatus"
              [with_deserialize strptime
                 (attr_default "time_in_car" (TOptional TDatetime) PNone)] []
              (attr_default "timers" (TOptional (TList (class_type Timer))) PNone)
              items record eq_refl H) as [a [Ha Hget]].
  change (getattr record "timers" = Some a) in Hget. rewrite Hget.
  change (lookup_key _) with "timers" in Ha.
  destruct (decoded_timers items _ a Ha) as [E|E]; subst a; auto.
Qed.

Lemma decoded_timers_are_empty_witness :
  from_dict ClimatisationTimersStatus (PDict [("timers", PList [])])
  = Ok (PObj "ClimatisationTimersStatus" [("time_in_car", PNone); ("timers", PList [])])
  /\ from_dict ClimatisationTimersStatus
       (PDict [("timers", PList [PDict [("id", PInt 1); ("enabled", PBool true)]])])
     = Raise (InvalidFieldValue "timers" "ClimatisationTimersStatus"
                (PList [PDict [("id", PInt 1); ("enabled", PBool true)]]))
  /\ (getattr (PObj "ClimatisationTimersStatus"
                 [("time_in_car", PNone); ("timers", PList [])]) "timers" = Some PNone
      \/ getattr (PObj "ClimatisationTimersStatus"
                    [("time_in_car", PNone); ("timers", PList [])]) "timers"
         = Some (PList [])).
Proof.
  split; [reflexivity|]. split; [reflexivity|].
  exact (decoded_timers_are_empty [("timers", PList [])]
           (PObj "ClimatisationTimersStatus"
              [("time_in_car", PNone); ("timers", PList [])]) eq_refl).
Defined.

(** ** Encoding a record and decoding what was written *)

Lemma to_dict_Ok_inv (name : string) (fields : list field)
  (attrs : list (string * pyval)) (d : pyval) :
  to_dict (Base_dataclass name fields) (PObj name attrs) = Ok d ->
  exists items,
    d = PDict items /\ map_result (pack_field attrs) fields = Ok items
    /\ map fst items = map f_name fields.
Proof.
  unfold to_dict. simpl. rewrite String.eqb_refl.
  destruct (map_result (pack_field attrs) fields) as [items| |] eqn:E; simpl;
    try discriminate.
  intro H. injection H as H. exists items. split; [symmetry; exact H|].
  split; [reflexivity|].
  apply (map_result_fst _ f_name fields items (pack_field_name attrs) E).
Qed.

(** X15.  A field with an alias does not survive re-encoding: [to_dict]
    writes it under its name, [from_dict] looks for its alias, and when no
    field name is rewritten to that alias the field comes back with its
    default, whatever it held.  So it is for the three fields of
    [Position]. *)
Theorem aliased_field_lost_on_reencode :
  forall (name : string) (before after : list field) (f : field) (a : string)
         (d : pyval) (attrs : list (string * pyval)) (record : pyval),
    f_alias f = Some a ->
    f_default f = Some d ->
    forallb (fun g => negb (String.eqb (camel2snake (f_name g)) a))
      (before ++ f :: after) = true ->
    forallb (fun g => negb (String.eqb (f_name g) (f_name f))) before = true ->
    reencode_decode (Base_dataclass name (before ++ f :: after)) (PObj name attrs)
    = Ok record ->
    getattr record (f_name f) = Some d.
Proof.
  intros name before after f a d attrs record Ha Hd Hkeys Hb H.
  unfold reencode_decode in H.
  destruct (to_dict _ (PObj name attrs)) as [doc| |] eqn:Hto; simpl in H;
    try discriminate.
  destruct (to_dict_Ok_inv _ _ _ _ Hto) as [items [Hdoc [_ Hnames]]]. subst doc.
  destruct (decoded_attribute name before after f items record Hb H) as [x [Hx Hget]].
  rewrite Hget. unfold lookup_key in Hx. rewrite Ha in Hx.
  rewrite (raw_lookup_none items a) in Hx.
  - simpl in Hx. rewrite Hd in Hx. injection Hx as Hx. subst x. reflexivity.
  - exact (no_item_keyed_names items _ a Hnames Hkeys).
Qed.

Lemma aliased_field_lost_on_reencode_witness :
  from_dict Position (PDict [("lon", PInt 8)])
  = Ok (position_record (PFloat (S754_finite false 4503599627370496 (-49))) PNone PNone)
  /\ reencode_decode Position
       (position_record (PFloat (S754_finite false 4503599627370496 (-49))) PNone PNone)
     = Ok (position_record PNone PNone PNone)
  /\ getattr (position_record PNone PNone PNone) "longitude" = Some PNone.
Proof.
  assert (H : reencode_decode Position
                (position_record (PFloat (S754_finite false 4503599627370496 (-49)))
                   PNone PNone)
              = Ok (position_record PNone PNone PNone)) by (vm_compute; reflexivity).
  split; [vm_compute; reflexivity|]. split; [exact H|].
  exact (aliased_field_lost_on_reencode "Position" [] (tl (cls_fields Position))
           (with_alias "lon" (attr_default "longitude" (TOptional TFloat) PNone))
           "lon" PNone
           [("longitude", PFloat (S754_finite false 4503599627370496 (-49)));
            ("latitude", PNone); ("last_access", PNone)]
           (position_record PNone PNone PNone) eq_refl eq_refl eq_refl eq_refl H).
Defined.

(** The raw value [from_dict] finds for a field in what [to_dict] wrote. *)
Lemma reencoded_raw (name : string) (before after : list field) (f : field)
  (attrs items : list (string * pyval)) (v : pyval) :
  under_own_name before f after = true ->
  dict_get attrs (f_name f) = Some v ->
  to_dict (Base_dataclass name (before ++ f :: after)) (PObj name attrs)
  = Ok (PDict items) ->
  exists p,
    raw_lookup items (lookup_key f) = Some p
    /\ (if could_be_none f && is_none v then Ok PNone else field_packer f v) = Ok p.
Proof.
  intros Hown Hv H.
  unfold under_own_name in Hown.
  apply andb_true_iff in Hown. destruct Hown as [Hown Hafter].
  apply andb_true_iff in Hown. destruct Hown as [Hown Hbefore].
  apply andb_true_iff in Hown. destruct Hown as [Halias Hcanon].
  apply String.eqb_eq in Hcanon.
  destruct (to_dict_Ok_inv _ _ _ _ H) as [items0 [Hd [E _]]].
  injection Hd as Hd. subst items0.
  apply map_result_app_inv in E.
  destruct E as [o1 [[n p] [o2 [E1 [Ef [E2 Hout]]]]]].
  pose proof (pack_field_name _ _ _ Ef) as Hn. simpl in Hn. subst n.
  exists p. split.
  - subst items. unfold lookup_key. destruct (f_alias f); [discriminate|].
    rewrite raw_lookup_app. cbn [raw_lookup].
    rewrite (raw_lookup_none o2 (f_name f)).
    + rewrite Hcanon, String.eqb_refl. reflexivity.
    + apply (no_item_keyed_names o2 after); [|exact Hafter].
      apply (map_result_fst _ f_name after o2 (pack_field_name attrs) E2).
  - unfold pack_field in Ef. rewrite Hv in Ef.
    destruct (could_be_none f && is_none v).
    + injection Ef as Ef. subst p. reflexivity.
    + destruct (field_packer f v); simpl in Ef; try discriminate.
      injection Ef as Ef. subst p. reflexivity.
Qed.

Lemma under_own_name_before (before after : list field) (f : field) :
  under_own_name before f after = true ->
  forallb (fun g => negb (String.eqb (f_name g) (f_name f))) before = true.
Proof.
  unfold under_own_name. intro H.
  apply andb_true_iff in H. destruct H as [H _].
  apply andb_true_iff in H. destruct H as [_ H]. exact H.
Qed.

(** The attribute after encoding and decoding: what the field's
    conversion makes of what its packer wrote. *)
Lemma reencoded_attribute (name : string) (before after : list field) (f : field)
  (attrs : list (string * pyval)) (v record : pyval) :
  under_own_name before f after = true ->
  dict_get attrs (f_name f) = Some v ->
  reencode_decode (Base_dataclass name (before ++ f :: after)) (PObj name attrs)
  = Ok record ->
  exists p a,
    (if could_be_none f && is_none v then Ok PNone else field_packer f v) = Ok p
    /\ set_value name f (Some p) = Ok (f_name f, a)
    /\ getattr record (f_name f) = Some a.
Proof.
  intros Hown Hv H. unfold reencode_decode in H.
  destruct (to_dict _ (PObj name attrs)) as [doc| |] eqn:Hto; simpl in H;
    try discriminate.
  destruct (to_dict_Ok_inv _ _ _ _ Hto) as [items [Hdoc _]]. subst doc.
  destruct (reencoded_raw name before after f attrs items v Hown Hv Hto)
    as [p [Hp Hpack]].
  destruct (decoded_attribute name before after f items record
              (under_own_name_before _ _ _ Hown) H) as [a [Ha Hget]].
  rewrite Hp in Ha. exists p, a. auto.
Qed.

(** X16.  The two fields decoded by an equality test have no encoder of
    their own, so [to_dict] writes the boolean they hold; decoding that
    compares a boolean with a string, and gives [False].  After encoding
    and decoding, [charging_state] and [plug_connection_state] hold [None]
    where they held [None], and [False] where they held a boolean, [True]
    included. *)
Theorem decode_only_coercion_reencoded :
  forall (attrs : list (string * pyval)) (stored : option bool) (record : pyval),
    (dict_get attrs "charging_state" = Some (opt_bool stored) ->
     reencode_decode ChargingStatus (PObj "ChargingStatus" attrs) = Ok record ->
     getattr record "charging_state"
     = Some (match stored with None => PNone | Some _ => PBool false end))
    /\ (dict_get attrs "plug_connection_state" = Some (opt_bool stored) ->
        reencode_decode PlugStatus (PObj "PlugStatus" attrs) = Ok record ->
        getattr record "plug_connection_state"
        = Some (match stored with None => PNone | Some _ => PBool false end)).
Proof.
  intros attrs stored record. split; intros Hv H.
  - destruct (reencoded_attribute "ChargingStatus" (firstn 1 (cls_fields ChargingStatus))
                (skipn 2 (cls_fields ChargingStatus))
                (with_deserialize (fun x => Ok (PBool (py_eq_str x "charging")))
                   (attr_default "charging_state" (TOptional TBool) PNone))
                attrs (opt_bool stored) record eq_refl Hv H) as [p [a [Hp [Ha Hget]]]].
    change (getattr record "charging_state" = Some a) in Hget. rewrite Hget.
    destruct stored as [b|]; cbn in Hp; injection Hp as Hp; subst p;
      cbn in Ha; injection Ha as Ha; subst a; reflexivity.
  - destruct (reencoded_attribute "PlugStatus" [] (skipn 1 (cls_fields PlugStatus))
                (with_deserialize (fun x => Ok (PBool (py_eq_str x "connected")))
                   (attr_default "plug_connection_state" (TOptional TInt) PNone))
                attrs (opt_bool stored) record eq_refl Hv H) as [p [a [Hp [Ha Hget]]]].
    change (getattr record "plug_connection_state" = Some a) in Hget. rewrite Hget.
    destruct stored as [b|]; cbn in Hp; injection Hp as Hp; subst p;
      cbn in Ha; injection Ha as Ha; subst a; reflexivity.
Qed.

Lemma decode_only_coercion_reencoded_witness :
  from_dict ChargingStatus (PDict [("chargingState", PStr "charging")])
  = Ok (charging_record (PBool true))
  /\ reencode_decode ChargingStatus (charging_record (PBool true))
     = Ok (charging_record (PBool false))
  /\ getattr (charging_record (PBool false)) "charging_state" = Some (PBool false).
Proof.
  assert (H : reencode_decode ChargingStatus (charging_record (PBool true))
              = Ok (charging_record (PBool false))) by (vm_compute; reflexivity).
  split; [reflexivity|]. split; [exact H|].
  exact (proj1 (decode_only_coercion_reencoded (charging_attrs (PBool true)) (Some true)
                  (charging_record (PBool false))) eq_refl H).
Defined.

Lemma py_int_idempotent (v a : pyval) : py_int v = Ok a -> py_int a = Ok a.
Proof.
  destruct v; simpl; try discriminate.
  - intro H. injection H as H. subst a. reflexivity.
  - intro H. injection H as H. subst a. reflexivity.
  - destruct (trunc_float f); simpl; try discriminate.
    intro H. injection H as H. subst a. reflexivity.
  - destruct (int_of_str s); simpl; try discriminate.
    intro H. injection H as H. subst a. reflexivity.
Qed.

Lemma py_float_idempotent (v a : pyval) : py_float v = Ok a -> py_float a = Ok a.
Proof.
  destruct v; simpl; try discriminate.
  - intro H. injection H as H. subst a. reflexivity.
  - destruct (binary_normalize 53 1024 n 0 false); try discriminate;
      intro H; injection H as H; subst a; reflexivity.
  - intro H. injection H as H. subst a. reflexivity.
  - destruct (float_of_str s); simpl; try discriminate.
    intro H. injection H as H. subst a. reflexivity.
Qed.

Lemma py_bool_idempotent (v a : pyval) : py_bool v = Ok a -> py_bool a = Ok a.
Proof.
  unfold py_bool. intro H. injection H as H. subst a. reflexivity.
Qed.

Lemma py_str_idempotent (v a : pyval) : py_str v = Ok a -> py_str a = Ok a.
Proof.
  destruct v; simpl; try discriminate;
    try (destruct (str_of_int _); simpl; try discriminate);
    intro H; injection H as H; subst a; reflexivity.
Qed.

Lemma unpack_scalar_idempotent (t : pytype) (v a : pyval) :
  match t with TInt | TFloat | TBool | TStr | TAny => true | _ => false end = true ->
  unpack t v = Ok a -> unpack t a = Ok a.
Proof.
  destruct t; try discriminate; intros _; cbn [unpack].
  - apply py_int_idempotent.
  - apply py_float_idempotent.
  - apply py_bool_idempotent.
  - apply py_str_idempotent.
  - intro H. injection H as H. subst a. reflexivity.
Qed.

(** What a simple annotation made of a raw value, it leaves alone. *)
Lemma unpack_simple_idempotent (t : pytype) (v a : pyval) :
  simple_type t = true -> unpack t v = Ok a -> unpack t a = Ok a.
Proof.
  destruct t as [| | | | | |t| | |]; try discriminate;
    try (intros _; apply unpack_scalar_idempotent; reflexivity).
  intro Ht. cbn [unpack]. destruct (is_none v).
  - intro H. injection H as H. subst a. reflexivity.
  - intro H. destruct (is_none a) eqn:En; [destruct a; try discriminate; reflexivity|].
    apply (unpack_scalar_idempotent t v a); [|exact H].
    destruct t; try discriminate; reflexivity.
Qed.

Lemma pack_simple (t : pytype) (a : pyval) :
  simple_type t = true -> pack t a = Ok a.
Proof.
  destruct t as [| | | | | |t| | |]; try discriminate; try reflexivity.
  intro Ht. cbn [pack]. destruct a; try reflexivity;
    destruct t; try discriminate; reflexivity.
Qed.

Lemma simple_field_parts (f : field) :
  simple_field f = true ->
  f_deserialize f = None /\ f_strategy f = None /\ simple_type (f_type f) = true
  /\ f_alias f = None /\ camel2snake (f_name f) = f_name f
  /\ (f_default f = Some PNone \/ f_default f = None).
Proof.
  unfold simple_field, plain_field. intro H.
  apply andb_true_iff in H. destruct H as [H Hd].
  apply andb_true_iff in H. destruct H as [H Hs].
  apply andb_true_iff in H. destruct H as [H Ha].
  apply andb_true_iff in H. destruct H as [Hp Ht].
  apply String.eqb_eq in Hs.
  destruct (f_deserialize f); [discriminate|].
  destruct (f_strategy f); [discriminate|].
  destruct (f_alias f); [discriminate|].
  repeat split; try assumption.
  destruct (f_default f) as [[]|]; try discriminate; auto.
Qed.

(** A simple field writes what it holds and reads back what it wrote. *)
Lemma simple_field_packs (attrs : list (string * pyval)) (f : field) (a : pyval) :
  simple_field f = true -> dict_get attrs (f_name f) = Some a ->
  pack_field attrs f = Ok (f_name f, a).
Proof.
  intros Hs Ha. destruct (simple_field_parts f Hs) as [_ [Hst [Hty _]]].
  unfold pack_field. rewrite Ha. unfold field_packer. rewrite Hst.
  rewrite (pack_simple _ a Hty).
  destruct (could_be_none f && is_none a) eqn:E; [|reflexivity].
  apply andb_true_iff in E. destruct E as [_ E]. destruct a; try discriminate.
  reflexivity.
Qed.

Lemma simple_field_reads_back (holder : string) (f : field) (o : option pyval)
  (n : string) (a : pyval) :
  simple_field f = true -> set_value holder f o = Ok (n, a) ->
  set_value holder f (Some a) = Ok (n, a).
Proof.
  intros Hs H. destruct (simple_field_parts f Hs) as [Hd [Hst [Hty [_ [_ Hdef]]]]].
  pose proof (set_value_name _ _ _ _ H) as Hn. simpl in Hn. subst n.
  unfold set_value in *. unfold field_unpacker in *. rewrite Hd, Hst in *.
  destruct o as [v|].
  - destruct (could_be_none f && is_none v) eqn:E.
    + injection H as H. subst a.
      apply andb_true_iff in E. destruct E as [E _]. rewrite E. reflexivity.
    + destruct (unpack (f_type f) v) as [w| |] eqn:Eu; try discriminate.
      injection H as H. subst w.
      rewrite (unpack_simple_idempotent _ v a Hty Eu).
      destruct (could_be_none f && is_none a) eqn:E'; [|reflexivity].
      apply andb_true_iff in E'. destruct E' as [_ E']. destruct a; try discriminate.
      reflexivity.
  - destruct Hdef as [Hdef|Hdef]; rewrite Hdef in H; [|discriminate].
    injection H as H. subst a.
    unfold could_be_none. rewrite Hdef, orb_true_r. reflexivity.
Qed.

Section Reindex.
Variables g h : field -> result (string * pyval).
Hypothesis g_name : forall f a, g f = Ok a -> fst a = f_name f.

(** Two conversions of the fields of a class give the same items when
    the second, looking each field up by name in the items of the first,
    gives the item the first gave. *)
Lemma map_result_reindex (l : list field) (pre out : list (string * pyval)) :
  map_result g l = Ok out ->
  NoDup (map f_name l) ->
  (forall f, In f l -> ~ In (f_name f) (map fst pre)) ->
  (forall f a, In f l -> g f = Ok a ->
               dict_get (pre ++ out) (f_name f) = Some (snd a) -> h f = Ok a) ->
  map_result h l = Ok out.
Proof.
  revert pre out. induction l as [|f l IH]; intros pre out Hg Hnd Hpre Hh.
  - simpl in Hg. injection Hg as Hg. subst out. reflexivity.
  - cbn [map_result] in Hg |- *.
    destruct (g f) as [a| |] eqn:Ea; simpl in Hg; try discriminate.
    destruct (map_result g l) as [out'| |] eqn:El; simpl in Hg; try discriminate.
    injection Hg as Hg. subst out.
    pose proof (g_name f a Ea) as Hn.
    inversion Hnd as [|x xs Hnotin Hnd']; subst.
    assert (Hf : h f = Ok a).
    { apply (Hh f a (or_introl eq_refl) Ea).
      destruct a as [k v]. simpl in Hn. subst k. simpl.
      apply dict_get_skip. apply forallb_forall. intros k Hk.
      apply negb_true_iff. apply String.eqb_neq. intro E. subst k.
      exact (Hpre f (or_introl eq_refl) Hk). }
    rewrite Hf. cbn [bind].
    rewrite (IH (pre ++ [a])%list out' eq_refl Hnd').
    + reflexivity.
    + intros f' Hin Hk. rewrite map_app in Hk. apply in_app_or in Hk.
      destruct Hk as [Hk|[Hk|[]]].
      * exact (Hpre f' (or_intror Hin) Hk).
      * apply Hnotin. rewrite Hn in Hk. rewrite Hk. apply in_map. exact Hin.
    + intros f' a' Hin Ha' Hget. apply (Hh f' a' (or_intror Hin) Ha').
      rewrite <- app_assoc in Hget. exact Hget.
Qed.

End Reindex.

(** X17.  For a class all of whose fields are simple, every decoded record
    survives re-encoding: [to_dict] writes the attributes of the record as
    they are, under the field names, and decoding what it wrote gives the
    record again.  The classes of [model.py] of that kind are listed. *)
Theorem simple_record_round_trip :
  (forall (name : string) (fields : list field) (d record : pyval),
     forallb simple_field fields = true ->
     NoDup (map f_name fields) ->
     from_dict (Base_dataclass name fields) d = Ok record ->
     (exists attrs,
        record = PObj name attrs
        /\ to_dict (Base_dataclass name fields) record = Ok (PDict attrs))
     /\ reencode_decode (Base_dataclass name fields) record = Ok record)
  /\ simple_classes
     = ["PrimaryEngine"; "SecondaryEngine"; "OilLevelStatus"; "MaintenanceStatus";
        "RangeStatus"; "OdometerStatus"; "FuelLevelStatus"; "TemperatureBatteryStatus"].
Proof.
  split; [|reflexivity].
  intros name fields d record Hsimple Hnd H.
  destruct d as [| | | | | |items| |]; try discriminate.
  rewrite from_dict_Base in H.
  destruct (map_result _ fields) as [attrs| |] eqn:E; simpl in H; try discriminate.
  injection H as H. subst record.
  rewrite forallb_forall in Hsimple.
  assert (Hnames : map fst attrs = map f_name fields).
  { apply (map_result_fst _ f_name fields attrs
             (fun x y => set_value_name name x _ y) E). }
  assert (Hto : map_result (pack_field attrs) fields = Ok attrs).
  { apply (map_result_reindex _ _ (fun f a => set_value_name name f _ a)
             fields [] attrs E Hnd).
    - intros f _ [].
    - intros f [n a] Hin Hf Hget. simpl in Hget.
      pose proof (set_value_name _ _ _ _ Hf) as Hn. simpl in Hn. subst n.
      apply simple_field_packs; [exact (Hsimple f Hin)|exact Hget]. }
  assert (Hdoc : to_dict (Base_dataclass name fields) (PObj name attrs)
                 = Ok (PDict attrs)).
  { unfold to_dict. simpl. rewrite String.eqb_refl, Hto. reflexivity. }
  split; [exists attrs; split; [reflexivity|exact Hdoc]|].
  unfold reencode_decode. rewrite Hdoc. cbn [bind].
  assert (Hstable : forall k, In k (map fst attrs) -> camel2snake k = k).
  { intros k Hk. rewrite Hnames in Hk. apply in_map_iff in Hk.
    destruct Hk as [f [Hf Hin]]. subst k.
    destruct (simple_field_parts f (Hsimple f Hin)) as [_ [_ [_ [_ [Hs _]]]]]. exact Hs. }
  assert (Hhook : dict_comprehension camel2snake attrs = attrs).
  { unfold dict_comprehension. rewrite fold_dict_set_fixed; [reflexivity| |exact Hstable].
    simpl. rewrite Hnames. exact Hnd. }
  unfold from_dict. simpl. rewrite Hhook.
  rewrite (map_result_reindex _ (unpack_field name attrs)
             (fun f a => set_value_name name f _ a) fields [] attrs E Hnd).
  - reflexivity.
  - intros f _ [].
  - intros f [n a] Hin Hf Hget. simpl in Hget.
    destruct (simple_field_parts f (Hsimple f Hin)) as [_ [_ [_ [Ha _]]]].
    unfold unpack_field, lookup_key. rewrite Ha, Hget.
    apply (simple_field_reads_back name f _ n a (Hsimple f Hin) Hf).
Qed.

Lemma simple_record_round_trip_witness :
  from_dict MaintenanceStatus
    (PDict [("inspectionDue_days", PStr "120"); ("mileage_km", PInt 15000)])
  = Ok (PObj "MaintenanceStatus"
          [("inspection_due_days", PInt 120); ("inspection_due_km", PNone);
           ("mileage_km", PInt 15000); ("oil_service_due_days", PNone);
           ("oil_service_due_km", PNone)])
  /\ reencode_decode MaintenanceStatus
       (PObj "MaintenanceStatus"
          [("inspection_due_days", PInt 120); ("inspection_due_km", PNone);
           ("mileage_km", PInt 15000); ("oil_service_due_days", PNone);
           ("oil_service_due_km", PNone)])
     = Ok (PObj "MaintenanceStatus"
             [("inspection_due_days", PInt 120); ("inspection_due_km", PNone);
              ("mileage_km", PInt 15000); ("oil_service_due_days", PNone);
              ("oil_service_due_km", PNone)]).
Proof.
  assert (H : from_dict MaintenanceStatus
                (PDict [("inspectionDue_days", PStr "120"); ("mileage_km", PInt 15000)])
              = Ok (PObj "MaintenanceStatus"
                      [("inspection_due_days", PInt 120); ("inspection_due_km", PNone);
                       ("mileage_km", PInt 15000); ("oil_service_due_days", PNone);
                       ("oil_service_due_km", PNone)]))
    by (vm_compute; reflexivity).
  assert (Hnd : NoDup (map f_name (cls_fields MaintenanceStatus))).
  { repeat (constructor; [simpl; intuition discriminate|]). constructor. }
  split; [exact H|].
  exact (proj2 (proj1 simple_record_round_trip "MaintenanceStatus"
                  (cls_fields MaintenanceStatus) _ _ eq_refl Hnd H)).
Defined.

(** ** Decimal digits *)

Lemma code_digit_char (n : Z) : code (digit_char n) = 48 + n mod 10.
Proof.
  unfold digit_char, code.
  assert (H : 0 <= n mod 10 < 10) by (apply Z.mod_pos_bound; lia).
  change (Z.of_N (N_of_ascii "0")) with 48.
  rewrite N_ascii_embedding; [rewrite Z2N.id; lia|lia].
Qed.

Lemma is_digit_digit_char (n : Z) : is_digit (digit_char n) = true.
Proof.
  unfold is_digit, in_range. rewrite code_digit_char.
  change (code "0") with 48. change (code "9") with 57.
  assert (H : 0 <= n mod 10 < 10) by (apply Z.mod_pos_bound; lia).
  apply andb_true_iff. split; apply Z.leb_le; lia.
Qed.

Lemma digit_value_digit_char (n : Z) : digit_value (digit_char n) = n mod 10.
Proof.
  unfold digit_value. rewrite code_digit_char. change (code "0") with 48. lia.
Qed.

Lemma digit_not_blank (c : ascii) : is_digit c = true -> blank c = false.
Proof.
  destruct c as [[] [] [] [] [] [] [] []]; try reflexivity; discriminate.
Qed.

Lemma forallb_rev {A : Type} (p : A -> bool) (l : list A) :
  forallb p l = true -> forallb p (rev l) = true.
Proof.
  rewrite !forallb_forall. intros H x Hx. apply H. apply in_rev. exact Hx.
Qed.

Lemma drop_while_digits (l : list ascii) :
  forallb is_digit l = true -> drop_while blank l = l.
Proof.
  destruct l as [|c l]; [reflexivity|]. simpl. intro H.
  apply andb_true_iff in H. destruct H as [Hc _].
  rewrite (digit_not_blank c Hc). reflexivity.
Qed.

Lemma strip_digits (l : list ascii) :
  forallb is_digit l = true -> strip blank l = l.
Proof.
  intro H. unfold strip. rewrite (drop_while_digits l H).
  rewrite (drop_while_digits (rev l) (forallb_rev _ _ H)). apply rev_involutive.
Qed.

Lemma read_digits_all (l : list ascii) (acc n : Z) (after_digit : bool) :
  forallb is_digit l = true ->
  l <> [] \/ after_digit = true ->
  read_digits acc n after_digit l
  = Some (digits_value acc l, n + Z.of_nat (List.length l)).
Proof.
  revert acc n after_digit. induction l as [|c l IH]; intros acc n b Hall Hne.
  - destruct Hne as [Hne|Hb]; [contradiction|]. subst b. simpl. f_equal. f_equal. lia.
  - simpl in Hall. apply andb_true_iff in Hall. destruct Hall as [Hc Hall].
    cbn [read_digits digits_value]. rewrite Hc.
    rewrite (IH _ _ true Hall (or_intror eq_refl)).
    f_equal. f_equal. cbn [List.length]. lia.
Qed.

(** [int] reads a string of decimal digits, 4300 at most, as the number
    they write. *)
Lemma int_of_str_digits (s : string) :
  forallb is_digit (chars s) = true ->
  (0 < List.length (chars s))%nat ->
  Z.of_nat (List.length (chars s)) <= int_max_str_digits ->
  int_of_str s = Ok (digits_value 0 (chars s)).
Proof.
  intros Hall Hlen Hmax. unfold int_of_str.
  rewrite (strip_digits _ Hall).
  destruct (chars s) as [|c l] eqn:E; [simpl in Hlen; lia|].
  pose proof Hall as Hall'. simpl in Hall'. apply andb_true_iff in Hall'.
  destruct Hall' as [Hc _].
  assert (Hread : read_digits 0 0 false (c :: l)
                  = Some (digits_value 0 (c :: l), 0 + Z.of_nat (List.length (c :: l)))).
  { apply read_digits_all; [exact Hall|left; discriminate]. }
  assert (Hfew : (int_max_str_digits <? 0 + Z.of_nat (List.length (c :: l))) = false).
  { apply Z.ltb_ge. lia. }
  clear E Hall Hlen Hmax.
  destruct c as [[] [] [] [] [] [] [] []]; try discriminate Hc;
    cbv beta iota zeta; rewrite Hc, Hread, Hfew; reflexivity.
Qed.

Lemma int_of_str_2 (n : Z) :
  0 <= n < 100 -> int_of_str (zero_padded 2 n) = Ok n.
Proof.
  intro H. rewrite int_of_str_digits.
  - f_equal. cbn [zero_padded append chars list_ascii_of_string digits_value].
    rewrite !digit_value_digit_char. Z.div_mod_to_equations. lia.
  - cbn [zero_padded append chars list_ascii_of_string forallb].
    rewrite !is_digit_digit_char. reflexivity.
  - cbn. lia.
  - cbn. unfold int_max_str_digits. lia.
Qed.

Lemma int_of_str_4 (n : Z) :
  0 <= n < 10000 -> int_of_str (zero_padded 4 n) = Ok n.
Proof.
  intro H. rewrite int_of_str_digits.
  - f_equal. cbn [zero_padded append chars list_ascii_of_string digits_value].
    rewrite !digit_value_digit_char. Z.div_mod_to_equations. lia.
  - cbn [zero_padded append chars list_ascii_of_string forallb].
    rewrite !is_digit_digit_char. reflexivity.
  - cbn. lia.
  - cbn. unfold int_max_str_digits. lia.
Qed.

Lemma int_of_str_6 (n : Z) :
  0 <= n < 1000000 -> int_of_str (zero_padded 6 n) = Ok n.
Proof.
  intro H. rewrite int_of_str_digits.
  - f_equal. cbn [zero_padded append chars list_ascii_of_string digits_value].
    rewrite !digit_value_digit_char. Z.div_mod_to_equations. lia.
  - cbn [zero_padded append chars list_ascii_of_string forallb].
    rewrite !is_digit_digit_char. reflexivity.
  - cbn. lia.
  - cbn. unfold int_max_str_digits. lia.
Qed.

(** The same, with the digits spelled out. *)
Lemma int_of_str_2c (n : Z) :
  0 <= n < 100 ->
  int_of_str (String (digit_char (n / 10)) (String (digit_char n) EmptyString)) = Ok n.
Proof. exact (int_of_str_2 n). Qed.

Lemma int_of_str_6c (n : Z) :
  0 <= n < 1000000 ->
  int_of_str (String (digit_char (n / 10 / 10 / 10 / 10 / 10))
               (String (digit_char (n / 10 / 10 / 10 / 10))
                  (String (digit_char (n / 10 / 10 / 10))
                     (String (digit_char (n / 10 / 10))
                        (String (digit_char (n / 10))
                           (String (digit_char n) EmptyString)))))) = Ok n.
Proof. exact (int_of_str_6 n). Qed.

Lemma int_of_str_zeros : int_of_str "000000" = Ok 0.
Proof. reflexivity. Qed.

Lemma tens_0_5 (n : Z) : 0 <= n <= 59 -> in_range "0" "5" (digit_char (n / 10)) = true.
Proof.
  intro H. unfold in_range. rewrite code_digit_char.
  change (code "0") with 48. change (code "5") with 53.
  apply andb_true_iff. split; apply Z.leb_le; Z.div_mod_to_equations; lia.
Qed.

(** ** The first match of a regular expression *)

(** [re.match] returns the first match a backtracking matcher finds; the
    lemmas below compute it from the left of the text. *)

Lemma hd_chr (p : ascii -> bool) (c : ascii) (s : string) :
  p c = true ->
  hd_error (run (Chr p) (String c s)) = Some (mk_found (String c EmptyString) [] s).
Proof. intro H. simpl. rewrite H. reflexivity. Qed.

Lemma hd_eps (s : string) : hd_error (run Eps s) = Some (mk_found EmptyString [] s).
Proof. reflexivity. Qed.

Lemma hd_seq (a b : regex) (s x1 r1 x2 r2 : string) (g1 g2 : list (string * string)) :
  hd_error (run a s) = Some (mk_found x1 g1 r1) ->
  hd_error (run b r1) = Some (mk_found x2 g2 r2) ->
  hd_error (run (Seq a b) s) = Some (mk_found (x1 ++ x2) (g1 ++ g2)%list r2).
Proof.
  intros H1 H2. simpl.
  destruct (run a s) as [|x t1]; [discriminate|]. injection H1 as H1. subst x.
  simpl. destruct (run b r1) as [|y t2]; [discriminate|].
  injection H2 as H2. subst y. reflexivity.
Qed.

Lemma hd_alt_l (a b : regex) (s : string) (m : found) :
  hd_error (run a s) = Some m -> hd_error (run (Alt a b) s) = Some m.
Proof.
  intro H. simpl. destruct (run a s) as [|x t]; [discriminate|]. exact H.
Qed.

Lemma hd_alt_r (a b : regex) (s : string) (m : found) :
  run a s = [] -> hd_error (run b s) = Some m -> hd_error (run (Alt a b) s) = Some m.
Proof. intros Ha H. simpl. rewrite Ha. exact H. Qed.

Lemma hd_group (name : string) (r : regex) (s x rest : string)
  (g : list (string * string)) :
  hd_error (run r s) = Some (mk_found x g rest) ->
  hd_error (run (Group name r) s) = Some (mk_found x ((name, x) :: g) rest).
Proof.
  intro H. simpl. destruct (run r s) as [|y t]; [discriminate|].
  injection H as H. subst y. reflexivity.
Qed.

Lemma hd_eq (l : list found) (m m' : found) :
  hd_error l = Some m -> m = m' -> hd_error l = Some m'.
Proof. intros H E. rewrite <- E. exact H. Qed.

Lemma find_head (p : found -> bool) (l : list found) (m : found) :
  hd_error l = Some m -> p m = true -> find p l = Some m.
Proof.
  destruct l as [|x t]; [discriminate|]. simpl. intro H. injection H as H. subst x.
  intro Hp. rewrite Hp. reflexivity.
Qed.

Lemma Z_range_cases (n lo : Z) (len : nat) :
  lo <= n < lo + Z.of_nat len ->
  In n (map (fun k => lo + Z.of_nat k) (seq 0 len)).
Proof.
  intro H. apply in_map_iff. exists (Z.to_nat (n - lo)). split; [lia|].
  apply List.in_seq. lia.
Qed.

Lemma between_spec (lo x hi : Z) : between lo x hi = true <-> lo <= x <= hi.
Proof.
  unfold between. rewrite andb_true_iff, !Z.leb_le. reflexivity.
Qed.

(** A goal about a number in a short range, settled value by value. *)
Ltac by_cases H :=
  apply Z_range_cases in H; cbn in H;
  repeat (destruct H as [H|H]; [subst; reflexivity|]); contradiction.

(** The directives of the format on two digits within their range: the
    first match takes both digits. *)
Lemma hd_re_m (n : Z) (s : string) :
  1 <= n <= 12 ->
  hd_error (run re_m (String (digit_char (n / 10)) (String (digit_char n) s)))
  = Some (mk_found (String (digit_char (n / 10)) (String (digit_char n) EmptyString))
            [] s).
Proof.
  intro H. assert (H' : 1 <= n < 1 + Z.of_nat 12) by lia. clear H. by_cases H'.
Qed.

Lemma hd_re_d (n : Z) (s : string) :
  1 <= n <= 31 ->
  hd_error (run re_d (String (digit_char (n / 10)) (String (digit_char n) s)))
  = Some (mk_found (String (digit_char (n / 10)) (String (digit_char n) EmptyString))
            [] s).
Proof.
  intro H. assert (H' : 1 <= n < 1 + Z.of_nat 31) by lia. clear H. by_cases H'.
Qed.

Lemma hd_re_H (n : Z) (s : string) :
  0 <= n <= 23 ->
  hd_error (run re_H (String (digit_char (n / 10)) (String (digit_char n) s)))
  = Some (mk_found (String (digit_char (n / 10)) (String (digit_char n) EmptyString))
            [] s).
Proof.
  intro H. assert (H' : 0 <= n < 0 + Z.of_nat 24) by lia. clear H. by_cases H'.
Qed.

Lemma hd_re_M (n : Z) (s : string) :
  0 <= n <= 59 ->
  hd_error (run re_M (String (digit_char (n / 10)) (String (digit_char n) s)))
  = Some (mk_found (String (digit_char (n / 10)) (String (digit_char n) EmptyString))
            [] s).
Proof.
  intro H. assert (H' : 0 <= n < 0 + Z.of_nat 60) by lia. clear H. by_cases H'.
Qed.

Lemma hd_re_S (n : Z) (s : string) :
  0 <= n <= 59 ->
  hd_error (run re_S (String (digit_char (n / 10)) (String (digit_char n) s)))
  = Some (mk_found (String (digit_char (n / 10)) (String (digit_char n) EmptyString))
            [] s).
Proof.
  intro H. assert (H' : 0 <= n < 0 + Z.of_nat 60) by lia. clear H. by_cases H'.
Qed.

Ltac char_fact :=
  first [ reflexivity | apply is_digit_digit_char | apply tens_0_5; assumption ].

(** The first match of an expression on a text that begins with
    characters known well enough, read off the two from the left. *)
Ltac first_match :=
  lazymatch goal with
  | |- hd_error (run (Seq _ _) _) = Some _ =>
      eapply hd_seq; [first_match | first_match]
  | |- hd_error (run (Group _ _) _) = Some _ => eapply hd_group; first_match
  | |- hd_error (run (Chr _) _) = Some _ => apply hd_chr; char_fact
  | |- hd_error (run Eps _) = Some _ => apply hd_eps
  | |- hd_error (run (Alt _ _) _) = Some _ =>
      first [ eapply hd_alt_l; first_match
            | eapply hd_alt_r; [reflexivity | first_match] ]
  | |- hd_error (run re_digit _) = Some _ => apply hd_chr; char_fact
  | |- hd_error (run (re_range _ _) _) = Some _ => apply hd_chr; char_fact
  | |- hd_error (run (re_lit _) _) = Some _ => apply hd_chr; char_fact
  | |- hd_error (run (re_opt _) _) = Some _ => unfold re_opt at 1; first_match
  | |- hd_error (run re_m _) = Some _ => apply hd_re_m; assumption
  | |- hd_error (run re_d _) = Some _ => apply hd_re_d; assumption
  | |- hd_error (run re_H _) = Some _ => apply hd_re_H; assumption
  | |- hd_error (run re_M _) = Some _ => apply hd_re_M; assumption
  | |- hd_error (run re_S _) = Some _ => apply hd_re_S; assumption
  end.

(** ** Timestamps written and read back *)

Lemma days_in_month_le (y m : Z) : days_in_month y m <= 31.
Proof.
  unfold days_in_month.
  destruct (m =? 2); [destruct (is_leap y); lia|].
  destruct ((m =? 4) || (m =? 6) || (m =? 9) || (m =? 11)); lia.
Qed.

(** The parts of an offset [format_offset] writes. *)
Lemma offset_parts (o : Z) :
  - day_us < o < day_us ->
  0 <= Z.abs o / 3600000000 <= 23
  /\ 0 <= Z.abs o mod 3600000000 / 60000000 <= 59
  /\ 0 <= Z.abs o mod 60000000 / 1000000 <= 59
  /\ 0 <= Z.abs o mod 1000000 < 1000000
  /\ Z.abs o = (Z.abs o / 3600000000 * 60 * 60
                + Z.abs o mod 3600000000 / 60000000 * 60
                + Z.abs o mod 60000000 / 1000000) * 1000000
               + Z.abs o mod 1000000.
Proof.
  unfold day_us. intro H. Z.div_mod_to_equations. lia.
Qed.

Lemma format_offset_text (o : Z) :
  format_offset (Some o)
  = offset_text (o <? 0) (Z.abs o / 3600000000) (Z.abs o mod 3600000000 / 60000000)
      (Z.abs o mod 60000000 / 1000000) (Z.abs o mod 1000000).
Proof. unfold format_offset, offset_text. destruct (o <? 0); reflexivity. Qed.

Lemma isoformat_text (y mo d H M S : Z) (tz : option Z) :
  isoformat (mk_datetime y mo d H M S 0 tz)
  = iso_date_time y mo d H M S (format_offset tz).
Proof. reflexivity. Qed.

(** The first match of the format on a date and a time of day as
    [isoformat] writes them, given the first match of the offset on what
    follows. *)
Lemma hd_format_regex (y mo d H M S : Z) (tail xz rz : string)
  (gz : list (string * string)) :
  1 <= mo <= 12 -> 1 <= d <= 31 -> 0 <= H <= 23 -> 0 <= M <= 59 -> 0 <= S <= 59 ->
  hd_error (run (Group "z" re_z) tail) = Some (mk_found xz gz rz) ->
  exists m,
    hd_error (run format_regex (iso_date_time y mo d H M S tail)) = Some m
    /\ remains m = rz
    /\ group m "Y" = zero_padded 4 y /\ group m "m" = zero_padded 2 mo
    /\ group m "d" = zero_padded 2 d /\ group m "H" = zero_padded 2 H
    /\ group m "M" = zero_padded 2 M /\ group m "S" = zero_padded 2 S
    /\ group m "z" = assoc gz "z".
Proof.
  intros Hmo Hd HH HM HS Hz.
  unfold iso_date_time. cbn [zero_padded append].
  unfold format_regex, re_Y, re_T.
  eexists. split.
  - repeat (eapply hd_seq; [first_match|]). exact Hz.
  - repeat split.
Qed.

Lemma hd_re_z (negative : bool) (hh mm ss us : Z) :
  0 <= mm <= 59 -> 0 <= ss <= 59 ->
  hd_error (run (Group "z" re_z) (offset_text negative hh mm ss us))
  = Some (mk_found (offset_text negative hh mm ss us)
            [("z", offset_text negative hh mm ss us)] EmptyString).
Proof.
  intros Hmm Hss. unfold offset_text.
  destruct negative; destruct ((ss =? 0) && (us =? 0));
    [|destruct (us =? 0)| |destruct (us =? 0)];
    cbn [zero_padded append]; unfold re_z, re_digits_1_6;
    (eapply hd_eq; [first_match|reflexivity]).
Qed.

(** [_strptime] reads the offset back from its text. *)
Lemma parse_z_offset_text (negative : bool) (hh mm ss us : Z) :
  0 <= hh < 100 -> 0 <= mm <= 59 -> 0 <= ss <= 59 -> 0 <= us < 1000000 ->
  parse_z (offset_text negative hh mm ss us)
  = Ok (if negative then (- (hh * 60 * 60 + mm * 60 + ss), - us)
        else (hh * 60 * 60 + mm * 60 + ss, us)).
Proof.
  intros Hhh Hmm Hss Hus. unfold offset_text, parse_z.
  destruct negative;
    (destruct (ss =? 0) eqn:Es; [apply Z.eqb_eq in Es|];
     (destruct (us =? 0) eqn:Eu; [apply Z.eqb_eq in Eu|]));
    cbn -[int_of_str Z.mul Z.add Z.opp];
    rewrite ?int_of_str_2c, ?int_of_str_6c, ?int_of_str_zeros by lia;
    cbn [bind]; rewrite ?int_of_str_2c, ?int_of_str_6c, ?int_of_str_zeros by lia;
    cbn [bind]; rewrite ?int_of_str_2c, ?int_of_str_6c, ?int_of_str_zeros by lia;
    cbn [bind]; rewrite ?int_of_str_2c, ?int_of_str_6c, ?int_of_str_zeros by lia;
    cbn [bind]; subst; reflexivity.
Qed.

(** [strptime] with the format of [time_in_car] reads back what
    [isoformat] writes for an aware datetime with no microseconds. *)
Lemma strptime_isoformat (dt : datetime) (o : Z) :
  valid_datetime dt = true -> microsecond dt = 0 -> tzinfo dt = Some o ->
  strptime_str (isoformat dt) = Ok dt.
Proof.
  destruct dt as [y mo d H M S us tz]. unfold valid_datetime.
  cbn [year month day hour minute second microsecond tzinfo].
  intros Hv Hus Htz. subst us tz.
  apply andb_true_iff in Hv. destruct Hv as [Hv Ho].
  apply andb_true_iff in Ho. destruct Ho as [Ho1 Ho2].
  apply Z.ltb_lt in Ho1, Ho2.
  apply andb_true_iff in Hv. destruct Hv as [Hv _].
  apply andb_true_iff in Hv. destruct Hv as [Hv HS].
  apply andb_true_iff in Hv. destruct Hv as [Hv HM].
  apply andb_true_iff in Hv. destruct Hv as [Hv HH].
  apply andb_true_iff in Hv. destruct Hv as [Hv Hd].
  apply andb_true_iff in Hv. destruct Hv as [Hy Hmo].
  pose proof Hy as Hy'. pose proof Hmo as Hmo'. pose proof Hd as Hd'.
  pose proof HH as HH'. pose proof HM as HM'. pose proof HS as HS'.
  rewrite between_spec in Hy', Hmo', Hd', HH', HM', HS'.
  pose proof (days_in_month_le y mo) as Hdim.
  destruct (offset_parts o (conj Ho1 Ho2)) as [Hhh [Hmm [Hss [Hfr Habs]]]].
  rewrite isoformat_text, format_offset_text.
  set (hh := Z.abs o / 3600000000) in *.
  set (mm := Z.abs o mod 3600000000 / 60000000) in *.
  set (ss := Z.abs o mod 60000000 / 1000000) in *.
  set (fr := Z.abs o mod 1000000) in *.
  destruct (hd_format_regex y mo d H M S _ _ _ _ ltac:(lia) ltac:(lia) ltac:(lia)
              ltac:(lia) ltac:(lia) (hd_re_z (o <? 0) hh mm ss fr Hmm Hss))
    as [m [Hhd [Hrem [HgY [Hgm [Hgd [HgH [HgM [HgS Hgz]]]]]]]]].
  unfold strptime_str.
  destruct (run format_regex _) as [|m' t]; [discriminate|].
  injection Hhd as Hhd. subst m'. rewrite Hrem.
  rewrite HgY, Hgm, Hgd, HgH, HgM, HgS, Hgz.
  rewrite int_of_str_4 by lia. cbn [bind].
  rewrite !int_of_str_2 by lia. cbn [bind].
  cbn [assoc String.eqb Ascii.eqb Bool.eqb].
  rewrite parse_z_offset_text by lia. cbn [bind].
  match goal with
  | |- context [timezone ?e] => assert (Hoff : e = o)
  end.
  { destruct (o <? 0) eqn:E; [apply Z.ltb_lt in E|apply Z.ltb_ge in E];
      cbn [fst snd]; lia. }
  rewrite Hoff. clear Hoff Habs. clearbody hh mm ss fr.
  assert (Hdate : datetime_new y mo d 0 0 0 0 None
                  = Ok (mk_datetime y mo d 0 0 0 0 None)).
  { unfold datetime_new. rewrite Hy, Hmo, Hd. reflexivity. }
  rewrite Hdate. cbn [bind].
  unfold timezone.
  apply Z.ltb_lt in Ho1, Ho2. rewrite Ho1, Ho2. cbn [andb bind].
  unfold datetime_new. rewrite Hy, Hmo, Hd, HH, HM, HS. reflexivity.
Qed.

(** C8, the claim as stated fails: parsing is lenient.  The timestamp
    below does not match the pattern exactly (the month, the day and the
    time are not padded, the separator is a small [t], the offset is [Z]),
    and yet it is decoded, to 2023-05-01T01:02:03 UTC. *)
Lemma lenient_timestamp_counterexample :
  spec_matches_exactly "2023-5-1t1:2:3Z" = false
  /\ from_dict ClimatisationTimersStatus (time_doc (PStr "2023-5-1t1:2:3Z"))
     = Ok (timers_status (mk_datetime 2023 5 1 1 2 3 0 (Some 0))).
Proof. split; vm_compute; reflexivity. Qed.

(** C8.  Decoding [time_in_car] follows [datetime.strptime] with the
    format ["%Y-%m-%dT%H:%M:%S%z"].  A string outside the language of the
    regular expression [strptime] compiles the format to is rejected with
    [InvalidFieldValue] naming the field and carrying the string,
    ["not-a-date"] for one; no string gets any other treatment: each is
    decoded by [strptime] or rejected with that exception.  Every
    timestamp [isoformat] writes for an aware datetime without
    microseconds is decoded to that datetime; so
    ["2023-05-01T12:00:00+02:00"] is read as the instant
    2023-05-01T10:00:00 UTC.  The expression admits more than what matches
    the pattern exactly: ["2023-5-1t1:2:3Z"] is decoded as well. *)
Theorem time_in_car_follows_strptime :
  forall (s : string) (dt : datetime) (o : Z),
    (~ in_lang format_regex s ->
     from_dict ClimatisationTimersStatus (time_doc (PStr s))
     = Raise (InvalidFieldValue "time_in_car" "ClimatisationTimersStatus" (PStr s)))
    /\ ((exists dt',
           strptime_str s = Ok dt'
           /\ from_dict ClimatisationTimersStatus (time_doc (PStr s))
              = Ok (timers_status dt'))
        \/ from_dict ClimatisationTimersStatus (time_doc (PStr s))
           = Raise (InvalidFieldValue "time_in_car" "ClimatisationTimersStatus" (PStr s)))
    /\ (valid_datetime dt = true -> microsecond dt = 0 -> tzinfo dt = Some o ->
        from_dict ClimatisationTimersStatus (time_doc (PStr (isoformat dt)))
        = Ok (timers_status dt))
    /\ (exists dt',
          from_dict ClimatisationTimersStatus
            (time_doc (PStr "2023-05-01T12:00:00+02:00"))
          = Ok (timers_status dt')
          /\ dt' = mk_datetime 2023 5 1 12 0 0 0 (Some (2 * 3600 * 1000000))
          /\ instant dt' = instant (mk_datetime 2023 5 1 10 0 0 0 (Some 0))
          /\ instant dt' = Some (1682935200 * 1000000))
    /\ from_dict ClimatisationTimersStatus (time_doc (PStr "not-a-date"))
       = Raise (InvalidFieldValue "time_in_car" "ClimatisationTimersStatus"
                  (PStr "not-a-date"))
    /\ (spec_matches_exactly "2023-5-1t1:2:3Z" = false
        /\ from_dict ClimatisationTimersStatus (time_doc (PStr "2023-5-1t1:2:3Z"))
           = Ok (timers_status (mk_datetime 2023 5 1 1 2 3 0 (Some 0)))).
Proof.
  intros s dt o. split; [|split; [|split; [|split; [|split]]]].
  - intro H. rewrite decode_time_in_car.
    destruct (matches_format s) eqn:E.
    + exfalso. exact (H (matches_format_in_lang s E)).
    + rewrite (strptime_str_needs_match s E). reflexivity.
  - rewrite decode_time_in_car.
    destruct (strptime_str s) as [dt'|e|] eqn:E.
    + left. exists dt'. split; reflexivity.
    + right. reflexivity.
    + exfalso. exact (strptime_str_modelled s E).
  - intros Hv Hus Htz. rewrite decode_time_in_car.
    rewrite (strptime_isoformat dt o Hv Hus Htz). reflexivity.
  - eexists. split; [vm_compute; reflexivity|]. repeat split.
  - vm_compute. reflexivity.
  - split; vm_compute; reflexivity.
Qed.

Lemma time_in_car_follows_strptime_witness :
  valid_datetime (mk_datetime 2023 5 1 12 0 0 0 (Some (2 * 3600 * 1000000))) = true
  /\ isoformat (mk_datetime 2023 5 1 12 0 0 0 (Some (2 * 3600 * 1000000)))
     = "2023-05-01T12:00:00+02:00"
  /\ from_dict ClimatisationTimersStatus
       (time_doc
          (PStr (isoformat (mk_datetime 2023 5 1 12 0 0 0 (Some (2 * 3600 * 1000000))))))
     = Ok (timers_status (mk_datetime 2023 5 1 12 0 0 0 (Some (2 * 3600 * 1000000)))).
Proof.
  split; [reflexivity|]. split; [reflexivity|].
  exact (proj1 (proj2 (proj2
           (time_in_car_follows_strptime "not-a-date"
              (mk_datetime 2023 5 1 12 0 0 0 (Some (2 * 3600 * 1000000)))
              (2 * 3600 * 1000000))))
           eq_refl eq_refl eq_refl).
Defined.

(** [fromisoformat] reads back what [isoformat] writes for a datetime
    with no offset or an offset of whole seconds. *)
Lemma fromisoformat_isoformat (dt : datetime) :
  valid_datetime dt = true -> whole_second_offset dt = true ->
  fromisoformat_str (isoformat dt) = Ok dt.
Proof.
  destruct dt as [y mo d H M S us tz]. unfold valid_datetime, whole_second_offset.
  cbn [year month day hour minute second microsecond tzinfo].
  intros Hv Hw.
  apply andb_true_iff in Hv. destruct Hv as [Hv Ho].
  apply andb_true_iff in Hv. destruct Hv as [Hv Hus].
  apply andb_true_iff in Hv. destruct Hv as [Hv HS].
  apply andb_true_iff in Hv. destruct Hv as [Hv HM].
  apply andb_true_iff in Hv. destruct Hv as [Hv HH].
  apply andb_true_iff in Hv. destruct Hv as [Hv Hd].
  apply andb_true_iff in Hv. destruct Hv as [Hy Hmo].
  pose proof Hy as Hy'. pose proof Hmo as Hmo'. pose proof Hd as Hd'.
  pose proof HH as HH'. pose proof HM as HM'. pose proof HS as HS'.
  pose proof Hus as Hus'.
  rewrite between_spec in Hy', Hmo', Hd', HH', HM', HS', Hus'.
  pose proof (days_in_month_le y mo) as Hdim.
  assert (Hnew : forall t, datetime_new y mo d H M S us t
                           = Ok (mk_datetime y mo d H M S us t)).
  { intro t. unfold datetime_new. rewrite Hy, Hmo, Hd, HH, HM, HS, Hus. reflexivity. }
  unfold fromisoformat_str.
  assert (Hhd : exists m,
             hd_error (run iso_layout (isoformat (mk_datetime y mo d H M S us tz)))
             = Some m
             /\ remains m = EmptyString
             /\ group m "Y" = zero_padded 4 y /\ group m "m" = zero_padded 2 mo
             /\ group m "d" = zero_padded 2 d /\ group m "H" = zero_padded 2 H
             /\ group m "M" = zero_padded 2 M /\ group m "S" = zero_padded 2 S
             /\ group m "f" = (if us =? 0 then EmptyString
                               else "." ++ zero_padded 6 us)
             /\ group m "z" = format_offset tz).
  { unfold isoformat. cbn [year month day hour minute second microsecond tzinfo].
    destruct tz as [o|].
    - apply andb_true_iff in Ho. destruct Ho as [Ho1 Ho2].
      apply Z.ltb_lt in Ho1, Ho2.
      destruct (offset_parts o (conj Ho1 Ho2)) as [Hhh [Hmm [Hss [Hfr Habs]]]].
      rewrite format_offset_text.
      assert (Hfr0 : Z.abs o mod 1000000 = 0).
      { apply Z.eqb_eq in Hw. Z.div_mod_to_equations. lia. }
      rewrite Hfr0. clear Hfr0 Habs Hfr.
      set (hh := Z.abs o / 3600000000) in *.
      set (mm := Z.abs o mod 3600000000 / 60000000) in *.
      set (ss := Z.abs o mod 60000000 / 1000000) in *.
      clearbody hh mm ss. unfold offset_text.
      destruct (o <? 0); destruct (us =? 0); destruct (ss =? 0);
        cbn [andb Z.eqb zero_padded append];
        unfold iso_layout, re_Y, re_2digits, re_6digits;
        eexists; (split; [first_match|repeat split]).
    - destruct (us =? 0); cbn [format_offset zero_padded append];
        unfold iso_layout, re_Y, re_2digits, re_6digits;
        eexists; (split; [first_match|repeat split]). }
  destruct Hhd as [m [Hhd [Hrem [HgY [Hgm [Hgd [HgH [HgM [HgS [Hgf Hgz]]]]]]]]]].
  rewrite (find_head _ _ m Hhd) by (rewrite Hrem; reflexivity).
  rewrite HgY, Hgm, Hgd, HgH, HgM, HgS, Hgf, Hgz.
  rewrite int_of_str_4 by lia. cbn [bind].
  rewrite !int_of_str_2 by lia. cbn [bind].
  assert (Hfrac : digits_or_zero
                    (slice_from (if us =? 0 then EmptyString
                                 else "." ++ zero_padded 6 us) 1) = Ok us).
  { destruct (us =? 0) eqn:E.
    - apply Z.eqb_eq in E. subst us. reflexivity.
    - cbn [zero_padded append slice_from digits_or_zero].
      apply int_of_str_6c. lia. }
  rewrite Hfrac. cbn [bind].
  destruct tz as [o|]; [|apply Hnew].
  apply andb_true_iff in Ho. destruct Ho as [Ho1 Ho2].
  pose proof Ho1 as Ho1'. pose proof Ho2 as Ho2'. apply Z.ltb_lt in Ho1', Ho2'.
  destruct (offset_parts o (conj Ho1' Ho2')) as [Hhh [Hmm [Hss [Hfr Habs]]]].
  rewrite format_offset_text.
  assert (Hfr0 : Z.abs o mod 1000000 = 0).
  { apply Z.eqb_eq in Hw. Z.div_mod_to_equations. lia. }
  rewrite Hfr0 in *. clear Hfr.
  set (hh := Z.abs o / 3600000000) in *.
  set (mm := Z.abs o mod 3600000000 / 60000000) in *.
  set (ss := Z.abs o mod 60000000 / 1000000) in *.
  assert (Htz : timezone o = Ok o).
  { unfold timezone. rewrite Ho1, Ho2. reflexivity. }
  unfold offset_text.
  destruct (o <? 0) eqn:Eneg; [apply Z.ltb_lt in Eneg|apply Z.ltb_ge in Eneg];
    (destruct (ss =? 0) eqn:Es; [apply Z.eqb_eq in Es|]);
    cbn -[int_of_str Z.mul Z.add Z.opp timezone datetime_new];
    rewrite !int_of_str_2c by lia; cbn [bind];
    match goal with
    | |- context [timezone ?e] =>
        replace e with o
          by (match goal with
              | |- context [if ?c then 0 else _] =>
                  destruct c eqn:E0;
                  [apply Z.eqb_eq in E0|apply Z.eqb_neq in E0]
              end; lia)
    end;
    rewrite Htz; cbn [bind]; apply Hnew.
Qed.

Lemma bind_Ok_inv {A B : Type} (r : result A) (k : A -> result B) (b : B) :
  bind r k = Ok b -> exists a, r = Ok a /\ k a = Ok b.
Proof.
  destruct r as [a| |]; simpl; try discriminate. intro H. exists a. auto.
Qed.

Lemma datetime_new_valid (y m d H M S us : Z) (tz : option Z) (dt : datetime) :
  datetime_new y m d H M S us tz = Ok dt ->
  dt = mk_datetime y m d H M S us tz
  /\ between 1 y 9999 && between 1 m 12 && between 1 d (days_in_month y m)
     && between 0 H 23 && between 0 M 59 && between 0 S 59
     && between 0 us 999999 = true.
Proof.
  unfold datetime_new.
  destruct (between 1 y 9999 && between 1 m 12 && between 1 d (days_in_month y m)
            && between 0 H 23 && between 0 M 59 && between 0 S 59
            && between 0 us 999999); [|discriminate].
  intro E. injection E as E. split; [symmetry; exact E|reflexivity].
Qed.

Lemma timezone_valid (offset tz : Z) :
  timezone offset = Ok tz ->
  tz = offset /\ (- day_us <? offset) && (offset <? day_us) = true.
Proof.
  unfold timezone. destruct ((- day_us <? offset) && (offset <? day_us)); [|discriminate].
  intro E. injection E as E. split; [symmetry; exact E|reflexivity].
Qed.

(** What [strptime] returns with this format is an aware datetime with no
    microseconds. *)
Lemma strptime_str_aware (s : string) (dt : datetime) :
  strptime_str s = Ok dt ->
  valid_datetime dt = true /\ microsecond dt = 0 /\ exists o, tzinfo dt = Some o.
Proof.
  unfold strptime_str.
  destruct (run format_regex s) as [|m t]; [discriminate|].
  destruct (remains m); [|discriminate].
  intro E.
  repeat (apply bind_Ok_inv in E; let a := fresh "a" in let Ha := fresh "Ha" in
          destruct E as [a [Ha E]]).
  match goal with
  | Htz : timezone _ = Ok ?tz |- _ =>
      apply timezone_valid in Htz; destruct Htz as [Etz Hzone]; subst tz
  end.
  apply datetime_new_valid in E. destruct E as [E Hr]. subst dt.
  unfold valid_datetime. cbn [year month day hour minute second microsecond tzinfo].
  rewrite Hr. split; [|split; [reflexivity|eexists; reflexivity]].
  assumption.
Qed.

(** What a decoded [ClimatisationTimersStatus] is made of. *)
Lemma decoded_timers_status (items : list (string * pyval)) (record : pyval) :
  from_dict ClimatisationTimersStatus (PDict items) = Ok record ->
  exists t ts,
    record = PObj "ClimatisationTimersStatus" [("time_in_car", t); ("timers", ts)]
    /\ (t = PNone \/ exists s dt, strptime_str s = Ok dt /\ t = PDatetime dt)
    /\ (ts = PNone \/ ts = PList []).
Proof.
  intro H. unfold ClimatisationTimersStatus in H. rewrite from_dict_Base in H.
  cbn [map_result] in H.
  change (lookup_key (with_deserialize strptime
            (attr_default "time_in_car" (TOptional TDatetime) PNone)))
    with "time_in_car" in H.
  change (lookup_key (attr_default "timers" (TOptional (TList (class_type Timer))) PNone))
    with "timers" in H.
  apply bind_Ok_inv in H. destruct H as [attrs [Hattrs Hrec]].
  injection Hrec as Hrec. subst record.
  apply bind_Ok_inv in Hattrs. destruct Hattrs as [[n1 t] [Ht Hattrs]].
  apply bind_Ok_inv in Hattrs. destruct Hattrs as [rest [Hrest Hattrs]].
  injection Hattrs as Hattrs. subst attrs.
  apply bind_Ok_inv in Hrest. destruct Hrest as [[n2 ts] [Hts Hrest]].
  injection Hrest as Hrest. subst rest.
  pose proof (set_value_name _ _ _ _ Ht) as E1. simpl in E1. subst n1.
  pose proof (set_value_name _ _ _ _ Hts) as E2. simpl in E2. subst n2.
  exists t, ts. split; [reflexivity|]. split.
  - unfold set_value in Ht. destruct (raw_lookup items "time_in_car") as [v|].
    + destruct v; cbn in Ht; try discriminate; try (left; congruence).
      right. destruct (strptime_str s) as [dt| |] eqn:E; cbn in Ht; try discriminate.
      exists s, dt. split; [exact E|congruence].
    + left. cbn in Ht. congruence.
  - exact (decoded_timers items _ ts Hts).
Qed.

(** X18.  A decoded [time_in_car] is [None] or an aware datetime: it has a
    fixed offset from UTC within a day, no microseconds and a date and a
    time of day within range, so it names an instant. *)
Theorem decoded_time_in_car_is_aware :
  forall (items : list (string * pyval)) (record : pyval) (t : pyval),
    from_dict ClimatisationTimersStatus (PDict items) = Ok record ->
    getattr record "time_in_car" = Some t ->
    t = PNone
    \/ exists dt offset moment,
         t = PDatetime dt /\ tzinfo dt = Some offset /\ microsecond dt = 0
         /\ valid_datetime dt = true /\ instant dt = Some moment.
Proof.
  intros items record t H Hget.
  destruct (decoded_timers_status items record H) as [t' [ts [Hrec [Ht _]]]].
  subst record. cbn in Hget. injection Hget as Hget. subst t'.
  destruct Ht as [Ht|[s [dt [Hdt Ht]]]]; [left; exact Ht|]. right.
  destruct (strptime_str_aware s dt Hdt) as [Hv [Hus [o Ho]]].
  exists dt, o. unfold instant. rewrite Ho. eexists. repeat split; try assumption.
Qed.

Lemma decoded_time_in_car_is_aware_witness :
  from_dict ClimatisationTimersStatus (time_doc (PStr "2023-05-01T12:00:00Z"))
  = Ok (timers_status (mk_datetime 2023 5 1 12 0 0 0 (Some 0)))
  /\ (PDatetime (mk_datetime 2023 5 1 12 0 0 0 (Some 0)) = PNone
      \/ exists dt offset moment,
           PDatetime (mk_datetime 2023 5 1 12 0 0 0 (Some 0)) = PDatetime dt
           /\ tzinfo dt = Some offset /\ microsecond dt = 0
           /\ valid_datetime dt = true /\ instant dt = Some moment).
Proof.
  assert (H : from_dict ClimatisationTimersStatus (time_doc (PStr "2023-05-01T12:00:00Z"))
              = Ok (timers_status (mk_datetime 2023 5 1 12 0 0 0 (Some 0))))
    by (vm_compute; reflexivity).
  split; [exact H|].
  exact (decoded_time_in_car_is_aware [("timeInCar", PStr "2023-05-01T12:00:00Z")]
           (timers_status (mk_datetime 2023 5 1 12 0 0 0 (Some 0)))
           (PDatetime (mk_datetime 2023 5 1 12 0 0 0 (Some 0))) H eq_refl).
Defined.

(** X19.  Every decoded [ClimatisationTimersStatus] survives re-encoding:
    [to_dict] writes [time_in_car] with [isoformat], and [strptime] with
    the format of the field reads that text back as the same datetime,
    offset included. *)
Theorem decoded_timers_status_round_trip :
  forall (items : list (string * pyval)) (record : pyval),
    from_dict ClimatisationTimersStatus (PDict items) = Ok record ->
    reencode_decode ClimatisationTimersStatus record = Ok record.
Proof.
  intros items record H.
  destruct (decoded_timers_status items record H) as [t [ts [Hrec [Ht Hts]]]].
  subst record.
  destruct Ht as [Et|[s [dt [Hdt Et]]]]; subst t;
    destruct Hts as [Ets|Ets]; subst ts; try reflexivity;
    destruct (strptime_str_aware s dt Hdt) as [Hv [Hus [o Ho]]];
    unfold reencode_decode, to_dict, ClimatisationTimersStatus;
    cbn -[strptime isoformat]; unfold strptime;
    rewrite (strptime_isoformat dt o Hv Hus Ho); reflexivity.
Qed.

Lemma decoded_timers_status_round_trip_witness :
  from_dict ClimatisationTimersStatus (time_doc (PStr "2023-05-01T12:00:00+0200"))
  = Ok (timers_status (mk_datetime 2023 5 1 12 0 0 0 (Some (2 * 3600 * 1000000))))
  /\ to_dict ClimatisationTimersStatus
       (timers_status (mk_datetime 2023 5 1 12 0 0 0 (Some (2 * 3600 * 1000000))))
     = Ok (PDict [("time_in_car", PStr "2023-05-01T12:00:00+02:00"); ("timers", PNone)])
  /\ reencode_decode ClimatisationTimersStatus
       (timers_status (mk_datetime 2023 5 1 12 0 0 0 (Some (2 * 3600 * 1000000))))
     = Ok (timers_status (mk_datetime 2023 5 1 12 0 0 0 (Some (2 * 3600 * 1000000)))).
Proof.
  assert (H : from_dict ClimatisationTimersStatus
                (time_doc (PStr "2023-05-01T12:00:00+0200"))
              = Ok (timers_status
                      (mk_datetime 2023 5 1 12 0 0 0 (Some (2 * 3600 * 1000000)))))
    by (vm_compute; reflexivity).
  split; [exact H|]. split; [vm_compute; reflexivity|].
  exact (decoded_timers_status_round_trip
           [("timeInCar", PStr "2023-05-01T12:00:00+0200")]
           (timers_status (mk_datetime 2023 5 1 12 0 0 0 (Some (2 * 3600 * 1000000))))
           H).
Defined.

Lemma stored_scalar_round_trip (t : pytype) (v : pyval) :
  stored_scalar t v = true ->
  is_none v = false
  /\ exists p, pack t v = Ok p /\ is_none p = false /\ unpack t p = Ok v.
Proof.
  destruct t, v; try discriminate; intro H; (split; [reflexivity|]);
    try (eexists; repeat split; reflexivity).
  apply andb_true_iff in H. destruct H as [Hv Hw].
  exists (PStr (isoformat dt)). repeat split.
  cbn [unpack fromisoformat]. rewrite (fromisoformat_isoformat dt Hv Hw). reflexivity.
Qed.

(** X20.  A field annotated [int], [float], [bool], [str] or [datetime],
    optional or not, with neither a [deserialize] option nor a strategy,
    written and read under its own name, survives re-encoding whenever it
    holds an instance of its annotation (for a datetime: with no offset or
    an offset of whole seconds): when the re-encoded record decodes, the
    field holds the value it held.  This is so also in a record whose
    other fields do not survive, as for [car_captured_timestamp] of
    [AccessStatus]. *)
Theorem scalar_field_round_trip :
  forall (name : string) (before after : list field) (f : field)
         (attrs : list (string * pyval)) (v record : pyval),
    under_own_name before f after = true ->
    plain_field f = true ->
    stored_value (f_type f) v = true ->
    dict_get attrs (f_name f) = Some v ->
    reencode_decode (Base_dataclass name (before ++ f :: after)) (PObj name attrs)
    = Ok record ->
    getattr record (f_name f) = Some v.
Proof.
  intros name before after f attrs v record Hown Hplain Hst Hv H.
  destruct (reencoded_attribute name before after f attrs v record Hown Hv H)
    as [p [a [Hp [Ha Hget]]]].
  rewrite Hget. f_equal.
  unfold plain_field in Hplain.
  unfold set_value, field_unpacker in Ha. unfold field_packer in Hp.
  destruct (f_deserialize f); [discriminate|]. destruct (f_strategy f); [discriminate|].
  unfold could_be_none in *.
  destruct (f_type f) as [| | | | | |t| | |] eqn:Et; try discriminate;
    try (destruct (stored_scalar_round_trip _ v Hst) as [Hn [q [Hq [Hnq Hu]]]];
         rewrite Hn, andb_false_r in Hp; rewrite Hq in Hp; injection Hp as Hp; subst q;
         rewrite Hnq, andb_false_r, Hu in Ha; injection Ha as Ha; symmetry; exact Ha).
  cbn [stored_value] in Hst. cbn [is_optional orb andb] in Hp, Ha.
  destruct (is_none v) eqn:En.
  - destruct v; try discriminate. injection Hp as Hp. subst p.
    cbn in Ha. injection Ha as Ha. symmetry. exact Ha.
  - cbn [orb] in Hst.
    destruct (stored_scalar_round_trip _ v Hst) as [_ [q [Hq [Hnq Hu]]]].
    cbn [pack] in Hp. rewrite En, Hq in Hp. injection Hp as Hp. subst q.
    rewrite Hnq in Ha. cbn [unpack] in Ha. rewrite Hnq, Hu in Ha.
    injection Ha as Ha. symmetry. exact Ha.
Qed.

Lemma scalar_field_round_trip_witness :
  reencode_decode AccessStatus (access_record (PBool true))
  = Ok (access_record (PBool false))
  /\ getattr (access_record (PBool false)) "car_captured_timestamp"
     = Some (PDatetime (mk_datetime 2023 5 1 12 0 0 0 (Some (2 * 3600 * 1000000)))).
Proof.
  assert (H : reencode_decode AccessStatus (access_record (PBool true))
              = Ok (access_record (PBool false))) by (vm_compute; reflexivity).
  split; [exact H|].
  exact (scalar_field_round_trip "AccessStatus" [] (tl (cls_fields AccessStatus))
           (attr "car_captured_timestamp" TDatetime) (access_attrs (PBool true))
           (PDatetime (mk_datetime 2023 5 1 12 0 0 0 (Some (2 * 3600 * 1000000))))
           (access_record (PBool false)) eq_refl eq_refl eq_refl eq_refl H).
Defined.

(** ** The type of what is decoded *)

Lemma py_int_number (v a : pyval) : py_int v = Ok a -> exists n, a = PInt n.
Proof.
  destruct v; simpl; try discriminate.
  - intro H. injection H as H. eexists. symmetry. exact H.
  - intro H. injection H as H. eexists. symmetry. exact H.
  - destruct (trunc_float _); simpl; try discriminate.
    intro H. injection H as H. eexists. symmetry. exact H.
  - destruct (int_of_str _); simpl; try discriminate.
    intro H. injection H as H. eexists. symmetry. exact H.
Qed.

Lemma py_float_number (v a : pyval) : py_float v = Ok a -> exists x, a = PFloat x.
Proof.
  destruct v; simpl; try discriminate.
  - intro H. injection H as H. eexists. symmetry. exact H.
  - destruct (binary_normalize 53 1024 _ 0 false); try discriminate;
      intro H; injection H as H; eexists; symmetry; exact H.
  - intro H. injection H as H. eexists. symmetry. exact H.
  - destruct (float_of_str _); simpl; try discriminate.
    intro H. injection H as H. eexists. symmetry. exact H.
Qed.

Lemma py_str_text (v a : pyval) : py_str v = Ok a -> exists s, a = PStr s.
Proof.
  destruct v; simpl; try discriminate;
    try (destruct (str_of_int _); simpl; try discriminate);
    intro H; injection H as H; eexists; symmetry; exact H.
Qed.

Lemma fromisoformat_datetime (v a : pyval) :
  fromisoformat v = Ok a -> exists dt, a = PDatetime dt.
Proof.
  destruct v; simpl; try discriminate.
  destruct (fromisoformat_str _); simpl; try discriminate.
  intro H. injection H as H. eexists. symmetry. exact H.
Qed.

(** What the unpacker of a scalar annotation returns is an instance of
    the annotation. *)
Lemma unpack_scalar_instance (t : pytype) (v a : pyval) :
  scalar_type t = true -> unpack t v = Ok a -> is_instance t a = true.
Proof.
  assert (Hbase : forall t', scalar_type t' = true -> base_type t' = t' ->
                             unpack t' v = Ok a -> is_instance t' a = true).
  { intros t' Ht Hb H. unfold scalar_type in Ht. rewrite Hb in Ht.
    destruct t'; try discriminate; cbn [unpack] in H.
    - destruct (py_int_number v a H) as [n E]. subst a. reflexivity.
    - destruct (py_float_number v a H) as [x E]. subst a. reflexivity.
    - injection H as H. subst a. reflexivity.
    - destruct (py_str_text v a H) as [s E]. subst a. reflexivity.
    - destruct (fromisoformat_datetime v a H) as [dt E]. subst a. reflexivity. }
  destruct t as [| | | | | |t| | |]; try discriminate;
    try (intros Ht H; apply Hbase; [exact Ht|reflexivity|exact H]).
  intros Ht. cbn [unpack is_instance]. destruct (is_none v).
  - intro H. injection H as H. subst a. reflexivity.
  - intro H. apply orb_true_iff. right.
    unfold scalar_type in Ht. cbn [base_type] in Ht.
    apply Hbase; [|destruct t; try discriminate; reflexivity|exact H].
    unfold scalar_type. destruct t; try discriminate; reflexivity.
Qed.

(** X21.  A field annotated [int], [float], [bool], [str] or [datetime],
    optional or not, with neither a [deserialize] option nor a strategy,
    holds in every decoded record an instance of its annotation, or
    [None] where the raw value was [None] and the field may be [None], or
    its default where its key was missing: whatever the raw document, no
    value of another type is stored in such a field. *)
Theorem scalar_field_holds_its_type :
  forall (name : string) (before after : list field) (f : field)
         (items : list (string * pyval)) (record : pyval) (a : pyval),
    scalar_type (f_type f) = true ->
    plain_field f = true ->
    forallb (fun g => negb (String.eqb (f_name g) (f_name f))) before = true ->
    from_dict (Base_dataclass name (before ++ f :: after)) (PDict items) = Ok record ->
    getattr record (f_name f) = Some a ->
    is_instance (f_type f) a = true
    \/ (a = PNone /\ could_be_none f = true
        /\ raw_lookup items (lookup_key f) = Some PNone)
    \/ (f_default f = Some a /\ raw_lookup items (lookup_key f) = None).
Proof.
  intros name before after f items record a Hty Hplain Hb H Hget.
  destruct (decoded_attribute name before after f items record Hb H) as [a' [Ha Hget']].
  rewrite Hget in Hget'. injection Hget' as Hget'. subst a'.
  unfold set_value, field_unpacker in Ha. unfold plain_field in Hplain.
  destruct (f_deserialize f); [discriminate|]. destruct (f_strategy f); [discriminate|].
  destruct (raw_lookup items (lookup_key f)) as [v|].
  - destruct (could_be_none f && is_none v) eqn:E.
    + injection Ha as Ha. right. left.
      apply andb_true_iff in E. destruct E as [Ec En].
      destruct v; try discriminate. repeat split; [symmetry; exact Ha|exact Ec].
    + destruct (unpack (f_type f) v) as [u| |] eqn:Eu; try discriminate.
      injection Ha as Ha. subst u. left. exact (unpack_scalar_instance _ _ _ Hty Eu).
  - destruct (f_default f) as [d|]; [|discriminate].
    injection Ha as Ha. subst d. right. right. split; reflexivity.
Qed.

Lemma scalar_field_holds_its_type_witness :
  from_dict OdometerStatus (PDict [("odometer", PStr "48213")])
  = Ok (PObj "OdometerStatus" [("odometer", PInt 48213)])
  /\ (is_instance (TOptional TInt) (PInt 48213) = true
      \/ (PInt 48213 = PNone /\ true = true
          /\ raw_lookup [("odometer", PStr "48213")] "odometer" = Some PNone)
      \/ (Some PNone = Some (PInt 48213)
          /\ raw_lookup [("odometer", PStr "48213")] "odometer" = None)).
Proof.
  split; [vm_compute; reflexivity|].
  exact (scalar_field_holds_its_type "OdometerStatus" [] []
           (attr_default "odometer" (TOptional TInt) PNone)
           [("odometer", PStr "48213")]
           (PObj "OdometerStatus" [("odometer", PInt 48213)]) (PInt 48213)
           eq_refl eq_refl eq_refl eq_refl eq_refl).
Defined.

(** ** A document with a timer *)

Lemma nested_value (name : string) (f : field) (S : dataclass) (v a : pyval) :
  f_type f = TOptional (class_type S) -> plain_field f = true ->
  is_none v = false ->
  set_value name f (Some v) = Ok (f_name f, a) -> from_dict S v = Ok a.
Proof.
  intros Hty Hplain Hnn. unfold set_value, field_unpacker. unfold plain_field in Hplain.
  destruct (f_deserialize f); [discriminate|]. destruct (f_strategy f); [discriminate|].
  rewrite Hnn, andb_false_r, Hty. cbn [unpack class_type]. rewrite Hnn.
  destruct (from_dict S v); try discriminate.
  intro H. injection H as H. subst a. reflexivity.
Qed.

(** X22.  A document that decodes as [Model] carries no timer: when its
    [climatisation_timers] holds a [climatisation_timers_status] whose
    [timers] is a list, that list is empty.  A vehicle document with one
    timer or more is not decoded at all, whatever else it holds. *)
Theorem decoded_document_has_no_timer :
  forall (items timers status : list (string * pyval)) (l : list pyval)
         (record : pyval),
    raw_lookup items "climatisation_timers" = Some (PDict timers) ->
    raw_lookup timers "climatisation_timers_status" = Some (PDict status) ->
    raw_lookup status "timers" = Some (PList l) ->
    from_dict Model (PDict items) = Ok record ->
    l = [].
Proof.
  intros items timers status l record Hct Hcts Ht H.
  destruct l as [|timer others]; [reflexivity|]. exfalso.
  destruct (decoded_attribute "Model"
              (firstn 3 (cls_fields Model)) (skipn 4 (cls_fields Model))
              (attr_default "climatisation_timers"
                 (TOptional (class_type ClimatisationTimers)) PNone)
              items record eq_refl H) as [a [Ha _]].
  change (lookup_key _) with "climatisation_timers" in Ha. rewrite Hct in Ha.
  apply (nested_value _ _ ClimatisationTimers) in Ha; try reflexivity.
  destruct (decoded_attribute "ClimatisationTimers" [] []
              (attr_default "climatisation_timers_status"
                 (TOptional (class_type ClimatisationTimersStatus)) PNone)
              timers a eq_refl Ha) as [b [Hb _]].
  change (lookup_key _) with "climatisation_timers_status" in Hb. rewrite Hcts in Hb.
  apply (nested_value _ _ ClimatisationTimersStatus) in Hb; try reflexivity.
  destruct (decoded_attribute "ClimatisationTimersStatus"
              [with_deserialize strptime
                 (attr_default "time_in_car" (TOptional TDatetime) PNone)] []
              (attr_default "timers" (TOptional (TList (class_type Timer))) PNone)
              status b eq_refl Hb) as [c [Hc _]].
  change (lookup_key _) with "timers" in Hc.
  rewrite Ht in Hc. unfold set_value in Hc.
  cbn [could_be_none attr_default f_type f_default is_optional orb andb is_none
       field_unpacker f_deserialize f_strategy f_name] in Hc.
  change (unpack (TOptional (TList (class_type Timer))) (PList (timer :: others)))
    with (l' <- map_result (from_dict Timer) (timer :: others) ;; Ok (PList l')) in Hc.
  cbn [map_result] in Hc.
  destruct (Timer_raises timer) as [e He]. rewrite He in Hc. discriminate Hc.
Qed.

Lemma decoded_document_has_no_timer_witness :
  from_dict Model
    (PDict [("climatisationTimers",
             PDict [("climatisationTimersStatus",
                     PDict [("timers",
                             PList [PDict [("id", PInt 1); ("enabled", PBool true)]])])])])
  = Raise (InvalidFieldValue "climatisation_timers" "Model"
             (PDict [("climatisationTimersStatus",
                      PDict [("timers",
                              PList [PDict [("id", PInt 1); ("enabled", PBool true)]])])]))
  /\ exists record,
       from_dict Model
         (PDict [("climatisationTimers",
                  PDict [("climatisationTimersStatus", PDict [("timers", PList [])])])])
       = Ok record
       /\ @nil pyval = [].
Proof.
  split; [vm_compute; reflexivity|].
  destruct (from_dict Model
              (PDict [("climatisationTimers",
                       PDict [("climatisationTimersStatus",
                               PDict [("timers", PList [])])])]))
    as [record| |] eqn:E; [|vm_compute in E; discriminate E..].
  exists record. split; [reflexivity|].
  exact (decoded_document_has_no_timer
           [("climatisationTimers",
             PDict [("climatisationTimersStatus", PDict [("timers", PList [])])])]
           [("climatisationTimersStatus", PDict [("timers", PList [])])]
           [("timers", PList [])] [] record eq_refl eq_refl eq_refl E).
Defined.
